(** * inkkeys python-controller: protocol core and mode orchestrator

    A shallow embedding of [inkkeys/device.py] (class [Device]) and of the
    main loop of [controller.py], together with the properties of the
    protocol core stated in the specification.

    Conventions of the embedding.
    - A Python [str] is a list of Unicode code points ([pystr]); a Python
      [bytes] object is a list of [Byte.byte].
    - A Python [float] holding a time or a duration is an exact rational
      ([Q]); IEEE rounding is not modelled.
    - [self] and the process environment it talks to (serial port, wall
      clock) form one record, [Device], threaded through every method.
    - Exceptions are results ([Raise]); loops that poll the serial port
      take a fuel argument and yield [OutOfFuel] when it is exhausted.
    - [int] on a string is CPython's: white space around the number, single
      underscores between digits, and the default limit of 4300 digits.
    - [poll] goes as far as the call of a handler and returns that call;
      [run_poll] runs it, the handlers' behaviour being a parameter.
    - [print] calls and the (single-threaded) [awaiting_response_lock] are
      not modelled. *)

From Stdlib Require Import ZArith QArith Qround Lia Lqa.
From Stdlib Require Import Strings.String Strings.Ascii Strings.Byte.
From stdpp Require Import base decidable option list gmap.

Local Open Scope Z_scope.

(* ===================================================================== *)
(** * Python values *)

(** A Python [str]: the list of its code points. *)
Abbreviation pystr := (list N).

(** A string literal of the source (ASCII only). *)
Definition lit (s : string) : pystr :=
  List.map N_of_ascii (list_ascii_of_string s).

(** The bytes of an ASCII literal, as the device would put them on the wire. *)
Definition bytes_lit (s : string) : list byte :=
  list_byte_of_string s.

Definition LF : N := 10%N.
Definition CR : N := 13%N.

(** [bytes.decode('ISO-8859-16')]: the decoding table of CPython's
    [encodings/iso8859_16.py], indexed by byte value. *)
Definition iso8859_16_table : list N :=
  [ 0; 1; 2; 3; 4; 5; 6; 7; 8; 9; 10; 11; 12; 13; 14; 15;
    16; 17; 18; 19; 20; 21; 22; 23; 24; 25; 26; 27; 28; 29; 30; 31;
    32; 33; 34; 35; 36; 37; 38; 39; 40; 41; 42; 43; 44; 45; 46; 47;
    48; 49; 50; 51; 52; 53; 54; 55; 56; 57; 58; 59; 60; 61; 62; 63;
    64; 65; 66; 67; 68; 69; 70; 71; 72; 73; 74; 75; 76; 77; 78; 79;
    80; 81; 82; 83; 84; 85; 86; 87; 88; 89; 90; 91; 92; 93; 94; 95;
    96; 97; 98; 99; 100; 101; 102; 103; 104; 105; 106; 107; 108; 109; 110; 111;
    112; 113; 114; 115; 116; 117; 118; 119; 120; 121; 122; 123; 124; 125; 126; 127;
    128; 129; 130; 131; 132; 133; 134; 135; 136; 137; 138; 139; 140; 141; 142; 143;
    144; 145; 146; 147; 148; 149; 150; 151; 152; 153; 154; 155; 156; 157; 158; 159;
    160; 260; 261; 321; 8364; 8222; 352; 167; 353; 169; 536; 171; 377; 173; 378; 379;
    176; 177; 268; 322; 381; 8221; 182; 183; 382; 269; 537; 187; 338; 339; 376; 380;
    192; 193; 194; 258; 196; 262; 198; 199; 200; 201; 202; 203; 204; 205; 206; 207;
    272; 323; 210; 211; 212; 336; 214; 346; 368; 217; 218; 219; 220; 280; 538; 223;
    224; 225; 226; 259; 228; 263; 230; 231; 232; 233; 234; 235; 236; 237; 238; 239;
    273; 324; 242; 243; 244; 337; 246; 347; 369; 249; 250; 251; 252; 281; 539; 255
  ]%N.

Definition decode_byte (b : byte) : N :=
  List.nth (N.to_nat (Byte.to_N b)) iso8859_16_table 0%N.

Definition decode (bs : list byte) : pystr := List.map decode_byte bs.

(** [s.replace('\r', '')] *)
Definition remove_cr (s : pystr) : pystr :=
  List.filter (fun c => negb (N.eqb c CR)) s.

(** [s.split("\n", 1)]: [None] when the result has one element (no line
    feed in [s]), otherwise the two elements. *)
Fixpoint split_nl (s : pystr) : option (pystr * pystr) :=
  match s with
  | [] => None
  | c :: s' =>
      if N.eqb c LF then Some ([], s')
      else match split_nl s' with
           | Some (l, r) => Some (c :: l, r)
           | None => None
           end
  end.

(** [str(n)] and [int(s)] for decimal integers. *)
Definition digit_char (d : Z) : N := Z.to_N (d + 48).

Fixpoint dec_digits (fuel : nat) (n : Z) (acc : pystr) : pystr :=
  match fuel with
  | O => acc
  | S f =>
      let acc' := digit_char (n mod 10) :: acc in
      if n / 10 =? 0 then acc' else dec_digits f (n / 10) acc'
  end.

Definition str_of_int (n : Z) : pystr :=
  if n <? 0 then 45%N :: dec_digits (Z.to_nat (- n)) (- n) []
  else dec_digits (S (Z.to_nat n)) n [].

Definition is_digit (c : N) : bool := (48 <=? c)%N && (c <=? 57)%N.

(** [s.isdecimal()]: non-empty and every character a decimal digit.  Among
    the characters [decode] can produce, the decimal digits are '0'..'9'. *)
Definition isdecimal (s : pystr) : bool :=
  match s with
  | [] => false
  | _ => forallb is_digit s
  end.

Definition digits_value (s : pystr) : Z :=
  fold_left (fun acc c => acc * 10 + (Z.of_N c - 48)) s 0.

(** White space as [int] skips it around a number, restricted to the
    characters [decode] can produce: the ASCII characters TAB, LF, VT, FF, CR
    and SPACE, and beyond ASCII the Unicode white space NEL (U+0085) and
    NBSP (U+00A0), which [int] reads as spaces.  The separators U+001C to
    U+001F, white space for [str.isspace], are none for [int]. *)
Definition is_space (c : N) : bool :=
  ((9 <=? c) && (c <=? 13) || (c =? 32) || (c =? 133) || (c =? 160))%N.

Fixpoint lstrip (s : pystr) : pystr :=
  match s with
  | c :: s' => if is_space c then lstrip s' else s
  | [] => []
  end.

Definition strip (s : pystr) : pystr := rev (lstrip (rev (lstrip s))).

(** Digits with single underscores between them ([int] accepts "1_000"). *)
Fixpoint digit_groups (prev_digit : bool) (s : pystr) : option pystr :=
  match s with
  | [] => if prev_digit then Some [] else None
  | c :: s' =>
      if is_digit c then
        match digit_groups true s' with
        | Some ds => Some (c :: ds)
        | None => None
        end
      else if (c =? 95)%N && prev_digit then digit_groups false s'
      else None
  end.

(** The largest number of digits [int] converts: CPython's default
    [sys.int_max_str_digits], which the program leaves as it is. *)
Definition int_max_str_digits : Z := 4300.

(** The digits of a numeral, once [int] has found them well formed: the
    value, unless there are more digits than the limit allows. *)
Definition within_limit (ds : pystr) (n : Z) : option Z :=
  if Z.of_nat (length ds) <=? int_max_str_digits then Some n else None.

(** [int(s)]: [None] stands for [ValueError]. *)
Definition py_int (s : pystr) : option Z :=
  match strip s with
  | [] => None
  | c :: r =>
      if (c =? 45)%N then
        match digit_groups false r with
        | Some ds => within_limit ds (- digits_value ds)
        | None => None
        end
      else if (c =? 43)%N then
        match digit_groups false r with
        | Some ds => within_limit ds (digits_value ds)
        | None => None
        end
      else
        match digit_groups false (c :: r) with
        | Some ds => within_limit ds (digits_value ds)
        | None => None
        end
  end.

(** [s.startswith(p)] and [s[n:]]. *)
Definition startswith (p s : pystr) : bool :=
  bool_decide (take (length p) s = p).

(** [s.encode()] (UTF-8). *)
Definition byte_of_N (n : N) : byte :=
  match Byte.of_N n with Some b => b | None => x00 end.

Definition encode_char (c : N) : list byte :=
  (if c <? 128 then [byte_of_N c]
   else if c <? 2048 then
     [byte_of_N (192 + c / 64); byte_of_N (128 + c mod 64)]
   else if c <? 65536 then
     [byte_of_N (224 + c / 4096); byte_of_N (128 + (c / 64) mod 64);
      byte_of_N (128 + c mod 64)]
   else
     [byte_of_N (240 + c / 262144); byte_of_N (128 + (c / 4096) mod 64);
      byte_of_N (128 + (c / 64) mod 64); byte_of_N (128 + c mod 64)])%N.

Definition encode (s : pystr) : list byte := List.concat (List.map encode_char s).

(** [' '.join(xs)] *)
Fixpoint join_sp (xs : list pystr) : pystr :=
  match xs with
  | [] => []
  | [x] => x
  | x :: xs' => x ++ lit " " ++ join_sp xs'
  end.

(** ['{:06x}'.format(i)] *)
Definition hex_char (d : Z) : N :=
  if d <? 10 then Z.to_N (d + 48) else Z.to_N (d + 87).

Fixpoint hex_digits (fuel : nat) (n : Z) (acc : pystr) : pystr :=
  match fuel with
  | O => acc
  | S f =>
      let acc' := hex_char (n mod 16) :: acc in
      if n / 16 =? 0 then acc' else hex_digits f (n / 16) acc'
  end.

Definition zero_pad (width : nat) (s : pystr) : pystr :=
  replicate (width - length s) 48%N ++ s.

Definition format_06x (i : Z) : pystr :=
  if i <? 0 then 45%N :: zero_pad 5 (hex_digits (Z.to_nat (Z.log2 (- i)) + 1) (- i) [])
  else zero_pad 6 (hex_digits (Z.to_nat (Z.log2 i) + 1) i []).

(* ===================================================================== *)
(** * External collaborators *)

(** The part of Pillow the device session uses: [image.size] and the pure
    pipeline [image.convert("1").rotate(180).tobytes()].  [image.copy()]
    yields an equal image, so a buffered copy is the image value itself. *)
Class Pillow (Image : Type) := {
  size : Image -> Z * Z;
  convert1_rotate180_tobytes : Image -> list byte
}.

(** The constants of [inkkeys/protocol.py] used by the session ([.value] of
    the enumeration members). *)
Class Protocol := {
  KeyCode_JOG : pystr;
  CommandCode_INFO : pystr;
  CommandCode_ASSIGN : pystr;
  CommandCode_LED : pystr;
  CommandCode_ANIMATE : pystr;
  CommandCode_DISPLAY : pystr;
  CommandCode_REFRESH : pystr;
  RefreshTypeCode_FULL : pystr;
  RefreshTypeCode_PARTIAL : pystr;
  RefreshTypeCode_OFF : pystr;
  RefreshTypeCode_RESET : pystr
}.

(** A registered callback is identified by the mode that created it and a
    number.  What a callback does when called is the business of the mode
    that registered it: [poll] below goes as far as the call and returns
    it, and [run_poll] carries it out. *)
Record Handler := { h_owner : nat; h_id : nat }.

Inductive Call :=
| CallJog (h : Handler) (delta : Z)   (* [cb(int(input[1:]))] *)
| CallKey (h : Handler).              (* [cb()] *)

Inductive Exn := IndexError | ValueError | TypeError.

Definition CHUNK_SIZE : nat := 100.

(* ===================================================================== *)
(** * The device session ([inkkeys/device.py]) *)

(** An entry of [image_buffer]: [{"x": x, "y": y, "image": image.copy()}]. *)
Record Part (Image : Type) := mkPart {
  part_x : Z;
  part_y : Z;
  part_image : Image
}.
Arguments mkPart {Image}.
Arguments part_x {Image}.
Arguments part_y {Image}.
Arguments part_image {Image}.

(** The attributes of [Device] set in [__init__], followed by the
    environment of the session:
    - [ser_in]: what the serial port will deliver; the head is the content
      of the receive queue at the next [read_from_device] (the empty list
      when [in_waiting] is 0), and nothing arrives once the list is used up;
    - [ser_out]: the arguments of the [ser.write] calls so far, in order;
    - [clock]: the value of [time.time()]; it advances in [time.sleep]. *)
Record Device (Image : Type) := mkDevice {
  testmode : bool;
  inbuffer : pystr;
  num_of_leds : Z;
  display_width : Z;
  display_height : Z;
  rotation_circle_steps : Z;
  image_buffer : list (Part Image);
  callbacks : gmap pystr Handler;
  led_state : option (list Z);
  led_set_time : option Q;
  ser_in : list (list byte);
  ser_out : list (list byte);
  clock : Q
}.
Arguments mkDevice {Image}.
Arguments testmode {Image}.
Arguments inbuffer {Image}.
Arguments num_of_leds {Image}.
Arguments display_width {Image}.
Arguments display_height {Image}.
Arguments rotation_circle_steps {Image}.
Arguments image_buffer {Image}.
Arguments callbacks {Image}.
Arguments led_state {Image}.
Arguments led_set_time {Image}.
Arguments ser_in {Image}.
Arguments ser_out {Image}.
Arguments clock {Image}.

(** The result of a method that may raise or poll. *)
Inductive Res (Image A : Type) :=
| Ok (a : A) (d : Device Image)
| Raise (e : Exn) (d : Device Image)
| OutOfFuel.
Arguments Ok {Image A}.
Arguments Raise {Image A}.
Arguments OutOfFuel {Image A}.

(** What a Python function hands back when it returns [None] or a bool. *)
Inductive PyVal := PyNone | PyBool (b : bool).

Definition truthy (v : PyVal) : bool :=
  match v with PyNone => false | PyBool b => b end.

Section Session.
Context {Image : Type} `{Pillow Image} `{Protocol}.

Abbreviation Dev := (Device Image).

(** ** Attribute assignment *)

Definition with_testmode (v : bool) (d : Dev) : Dev :=
  mkDevice v (inbuffer d) (num_of_leds d) (display_width d) (display_height d)
    (rotation_circle_steps d) (image_buffer d) (callbacks d) (led_state d)
    (led_set_time d) (ser_in d) (ser_out d) (clock d).
Definition with_inbuffer (v : pystr) (d : Dev) : Dev :=
  mkDevice (testmode d) v (num_of_leds d) (display_width d) (display_height d)
    (rotation_circle_steps d) (image_buffer d) (callbacks d) (led_state d)
    (led_set_time d) (ser_in d) (ser_out d) (clock d).
Definition with_num_of_leds (v : Z) (d : Dev) : Dev :=
  mkDevice (testmode d) (inbuffer d) v (display_width d) (display_height d)
    (rotation_circle_steps d) (image_buffer d) (callbacks d) (led_state d)
    (led_set_time d) (ser_in d) (ser_out d) (clock d).
Definition with_display_width (v : Z) (d : Dev) : Dev :=
  mkDevice (testmode d) (inbuffer d) (num_of_leds d) v (display_height d)
    (rotation_circle_steps d) (image_buffer d) (callbacks d) (led_state d)
    (led_set_time d) (ser_in d) (ser_out d) (clock d).
Definition with_display_height (v : Z) (d : Dev) : Dev :=
  mkDevice (testmode d) (inbuffer d) (num_of_leds d) (display_width d) v
    (rotation_circle_steps d) (image_buffer d) (callbacks d) (led_state d)
    (led_set_time d) (ser_in d) (ser_out d) (clock d).
Definition with_rotation_circle_steps (v : Z) (d : Dev) : Dev :=
  mkDevice (testmode d) (inbuffer d) (num_of_leds d) (display_width d)
    (display_height d) v (image_buffer d) (callbacks d) (led_state d)
    (led_set_time d) (ser_in d) (ser_out d) (clock d).
Definition with_image_buffer (v : list (Part Image)) (d : Dev) : Dev :=
  mkDevice (testmode d) (inbuffer d) (num_of_leds d) (display_width d)
    (display_height d) (rotation_circle_steps d) v (callbacks d) (led_state d)
    (led_set_time d) (ser_in d) (ser_out d) (clock d).
Definition with_callbacks (v : gmap pystr Handler) (d : Dev) : Dev :=
  mkDevice (testmode d) (inbuffer d) (num_of_leds d) (display_width d)
    (display_height d) (rotation_circle_steps d) (image_buffer d) v (led_state d)
    (led_set_time d) (ser_in d) (ser_out d) (clock d).
Definition with_led_state (v : option (list Z)) (d : Dev) : Dev :=
  mkDevice (testmode d) (inbuffer d) (num_of_leds d) (display_width d)
    (display_height d) (rotation_circle_steps d) (image_buffer d) (callbacks d) v
    (led_set_time d) (ser_in d) (ser_out d) (clock d).
Definition with_led_set_time (v : option Q) (d : Dev) : Dev :=
  mkDevice (testmode d) (inbuffer d) (num_of_leds d) (display_width d)
    (display_height d) (rotation_circle_steps d) (image_buffer d) (callbacks d)
    (led_state d) v (ser_in d) (ser_out d) (clock d).
Definition with_ser_in (v : list (list byte)) (d : Dev) : Dev :=
  mkDevice (testmode d) (inbuffer d) (num_of_leds d) (display_width d)
    (display_height d) (rotation_circle_steps d) (image_buffer d) (callbacks d)
    (led_state d) (led_set_time d) v (ser_out d) (clock d).
Definition with_ser_out (v : list (list byte)) (d : Dev) : Dev :=
  mkDevice (testmode d) (inbuffer d) (num_of_leds d) (display_width d)
    (display_height d) (rotation_circle_steps d) (image_buffer d) (callbacks d)
    (led_state d) (led_set_time d) (ser_in d) v (clock d).
Definition with_clock (v : Q) (d : Dev) : Dev :=
  mkDevice (testmode d) (inbuffer d) (num_of_leds d) (display_width d)
    (display_height d) (rotation_circle_steps d) (image_buffer d) (callbacks d)
    (led_state d) (led_set_time d) (ser_in d) (ser_out d) v.

(** [Device.__init__], on a port that will deliver [rx], at time [t]. *)
Definition new_device (rx : list (list byte)) (t : Q) : Dev :=
  mkDevice false [] 0 0 0 0 [] ∅ None None rx [] t.

(** ** Environment *)

(** [self.ser.write(data)] *)
Definition ser_write (data : list byte) (d : Dev) : Dev :=
  with_ser_out (ser_out d ++ [data]) d.

(** [time.sleep(secs)] *)
Definition time_sleep (secs : Q) (d : Dev) : Dev :=
  with_clock (clock d + secs)%Q d.

(** [a > b] on times. *)
Definition Qgtb (a b : Q) : bool := negb (Qle_bool a b).

(** ** Transport and framing *)

Definition send_to_device (command : pystr) (d : Dev) : Dev :=
  ser_write (encode (command ++ [LF])) d.

(** [data[startIx:endIx]] for [0 <= startIx <= endIx]. *)
Definition slice {A} (startIx endIx : nat) (data : list A) : list A :=
  take (endIx - startIx) (drop startIx data).

(** The [while startIx < len(data)] loop; [len(data)] iterations suffice.
    Writes to the open port succeed: the [SerialException] handler is not
    modelled. *)
Fixpoint send_chunks (fuel startIx endIx : nat) (data : list byte) (d : Dev) : Dev :=
  match fuel with
  | O => d
  | S fuel' =>
      if (startIx <? length data)%nat then
        send_chunks fuel' (startIx + CHUNK_SIZE) (endIx + CHUNK_SIZE) data
          (ser_write (slice startIx endIx data) d)
      else d
  end.

Definition send_binary_to_device (data : list byte) (d : Dev) : Dev :=
  send_chunks (length data) 0 CHUNK_SIZE data d.

Definition read_from_device (d : Dev) : option pystr * Dev :=
  let d1 :=
    match ser_in d with
    | [] => d
    | waiting :: later =>
        let d0 := with_ser_in later d in
        if (0 <? length waiting)%nat then
          with_inbuffer (inbuffer d0 ++ remove_cr (decode waiting)) d0
        else d0
    end in
  match split_nl (inbuffer d1) with
  | Some (cmd, rest) => (Some cmd, with_inbuffer rest d1)
  | None => (None, d1)
  end.

(** ** Event dispatcher *)

(** The condition of the [if] in [poll]; [None] when evaluating it raises
    [IndexError] ([input[0]] or [input[1]] out of range). *)
Definition is_jog_line (input : pystr) : option bool :=
  match input with
  | [] => None
  | c0 :: rest =>
      if bool_decide ([c0] = KeyCode_JOG) then
        if isdecimal rest then Some true
        else match rest with
             | [] => None
             | c1 :: rest2 => Some (bool_decide (c1 = 45%N) && isdecimal rest2)
             end
      else Some false
  end.

Definition dispatch (input : pystr) (d : Dev) : Res Image (option Call) :=
  match is_jog_line input with
  | None => Raise IndexError d
  | Some true =>
      match callbacks d !! KeyCode_JOG with
      | Some cb =>
          match py_int (drop 1 input) with
          | Some n => Ok (Some (CallJog cb n)) d
          | None => Raise ValueError d
          end
      | None => Ok None d
      end
  | Some false =>
      match callbacks d !! input with
      | Some cb => Ok (Some (CallKey cb)) d
      | None => Ok None d
      end
  end.

Definition poll (d : Dev) : Res Image (option Call) :=
  let '(input, d1) := read_from_device d in
  match input with
  | Some input => dispatch input d1
  | None => Ok None d1
  end.

Definition register_callback (cb : Handler) (key : pystr) (d : Dev) : Dev :=
  with_callbacks (<[key := cb]> (callbacks d)) d.

Definition clear_callback (key : pystr) (d : Dev) : Dev :=
  with_callbacks (delete key (callbacks d)) d.

Definition clear_callbacks (d : Dev) : Dev :=
  with_callbacks ∅ d.

(** ** Commands *)

Definition assign_key (key : pystr) (sequence : list pystr) (d : Dev) : Dev :=
  send_to_device
    (CommandCode_ASSIGN ++ lit " " ++ key ++
     (if (0 <? length sequence)%nat then lit " " ++ join_sp sequence else []))
    d.

Definition send_led (colors : list pystr) (d : Dev) : Dev :=
  send_to_device (CommandCode_LED ++ lit " " ++ join_sp colors) d.

Definition send_led_animation
    (animation steps delay brightness r g b iteration : Z) (d : Dev) : Dev :=
  send_to_device
    (join_sp (CommandCode_ANIMATE ::
              List.map str_of_int [animation; steps; delay; brightness; r; g; b; iteration]))
    d.

Definition reset_display (d : Dev) : Dev :=
  send_to_device (CommandCode_REFRESH ++ lit " " ++ RefreshTypeCode_RESET) d.

(** ** Waiting for a reply line *)

(** The loop
    [while line != target: if time.time() - start > timeout: return False;
     if line is None: time.sleep(0.1); line = read(); continue;
     line = read()]
    which [request_info] (header) and [update_display] (both "ok" waits)
    spell out with the same body.  The result tells whether the loop was
    left through its condition ([true]) or through [return False]. *)
Fixpoint await_line (fuel : nat) (target : pystr) (start timeout : Q)
    (line : option pystr) (d : Dev) : Res Image bool :=
  if bool_decide (line = Some target) then Ok true d
  else
    match fuel with
    | O => OutOfFuel
    | S fuel' =>
        if Qgtb (clock d - start) timeout then Ok false d
        else
          match line with
          | None =>
              let '(line', d') := read_from_device (time_sleep (1 # 10) d) in
              await_line fuel' target start timeout line' d'
          | Some _ =>
              let '(line', d') := read_from_device d in
              await_line fuel' target start timeout line' d'
          end
    end.

(** ** Handshake *)

(** The [if]/[elif] chain on one info line. *)
Definition handle_info (line : pystr) (d : Dev) : Exn + Dev :=
  if startswith (lit "TEST ") line then
    match line !! 5%nat with
    | Some c => inr (with_testmode (negb (bool_decide (c = 48%N))) d)
    | None => inl IndexError
    end
  else if startswith (lit "N_LED ") line then
    match py_int (drop 6 line) with
    | Some n => inr (with_num_of_leds n d)
    | None => inl ValueError
    end
  else if startswith (lit "DISP_W ") line then
    match py_int (drop 7 line) with
    | Some n => inr (with_display_width n d)
    | None => inl ValueError
    end
  else if startswith (lit "DISP_H ") line then
    match py_int (drop 7 line) with
    | Some n => inr (with_display_height n d)
    | None => inl ValueError
    end
  else if startswith (lit "ROT_CIRCLE_STEPS ") line then
    match py_int (drop 17 line) with
    | Some n => inr (with_rotation_circle_steps n d)
    | None => inl ValueError
    end
  else inr d.

(** The second loop of [request_info]. *)
Fixpoint read_infos (fuel : nat) (start timeout : Q)
    (line : option pystr) (d : Dev) : Res Image bool :=
  if bool_decide (line = Some (lit "Done")) then Ok true d
  else
    match fuel with
    | O => OutOfFuel
    | S fuel' =>
        if Qgtb (clock d - start) timeout then Ok false d
        else
          match line with
          | None =>
              let '(line', d') := read_from_device (time_sleep (1 # 10) d) in
              read_infos fuel' start timeout line' d'
          | Some l =>
              match handle_info l d with
              | inl e => Raise e d
              | inr d1 =>
                  let '(line', d') := read_from_device d1 in
                  read_infos fuel' start timeout line' d'
              end
          end
    end.

Definition request_info (fuel : nat) (timeout : Q) (d : Dev) : Res Image bool :=
  let start := clock d in
  let d1 := send_to_device CommandCode_INFO d in
  let '(line, d2) := read_from_device d1 in
  match await_line fuel (lit "Inkkeys") start timeout line d2 with
  | Ok true d3 =>
      let '(line', d4) := read_from_device d3 in
      read_infos fuel start timeout line' d4
  | r => r
  end.

(** ** Display *)

(** The header line and payload both [send_image] and [resend_image_data]
    compute from [x], [y] and the image. *)
Definition display_command (x y : Z) (image : Image) : pystr :=
  let '(w, h) := size image in
  CommandCode_DISPLAY ++ lit " " ++ str_of_int x ++ lit " " ++ str_of_int y
    ++ lit " " ++ str_of_int w ++ lit " " ++ str_of_int h.

Definition send_image (x y : Z) (image : Image) (d : Dev) : bool * Dev :=
  let d1 := with_image_buffer (image_buffer d ++ [mkPart x y image]) d in
  let data := convert1_rotate180_tobytes image in
  let d2 := send_to_device (display_command x y image) d1 in
  (true, send_binary_to_device data d2).

(** One iteration of the [for part in self.image_buffer] loop. *)
Definition resend_part (d : Dev) (part : Part Image) : Dev :=
  let image := part_image part in
  let x := part_x part in
  let y := part_y part in
  let data := convert1_rotate180_tobytes image in
  send_binary_to_device data (send_to_device (display_command x y image) d).

Definition resend_image_data (d : Dev) : Dev :=
  with_image_buffer [] (fold_left resend_part (image_buffer d) d).

Definition update_display (fuel : nat) (full_refresh : bool) (timeout : Q)
    (buffer_data : bool) (d : Dev) : Res Image PyVal :=
  let start := clock d in
  let d1 :=
    send_to_device
      (CommandCode_REFRESH ++ lit " " ++
       (if full_refresh then RefreshTypeCode_FULL else RefreshTypeCode_PARTIAL))
      d in
  let '(line, d2) := read_from_device d1 in
  match await_line fuel (lit "ok") start timeout line d2 with
  | Ok false d3 => Ok (PyBool false) d3
  | Ok true d3 =>
      if buffer_data then
        let d4 := resend_image_data d3 in
        let d5 := send_to_device (CommandCode_REFRESH ++ lit " " ++ RefreshTypeCode_OFF) d4 in
        let start' := clock d5 in
        let '(line', d6) := read_from_device d5 in
        match await_line fuel (lit "ok") start' timeout line' d6 with
        | Ok false d7 => Ok (PyBool false) d7
        | Ok true d7 => Ok PyNone d7
        | Raise e d7 => Raise e d7
        | OutOfFuel => OutOfFuel
        end
      else Ok PyNone d3
  | Raise e d3 => Raise e d3
  | OutOfFuel => OutOfFuel
  end.

(** ** LEDs *)

Definition set_leds (leds : list Z) (d : Dev) : Dev :=
  let ledStr := List.map format_06x leds in
  let d1 := with_led_set_time (Some (clock d)) d in
  let d2 := with_led_state (Some leds) d1 in
  send_led ledStr d2.

(** [int(x)] on a float: truncation towards zero. *)
Definition int_of_Q (q : Q) : Z :=
  if Qle_bool 0 q then Qfloor q else Qceiling q.

(** One element of the [dimmed_leds] comprehension. *)
Definition dim_led (p : Q) (i : Z) : Z :=
  Z.lor
    (Z.lor (Z.land (int_of_Q (inject_Z (Z.land i 0xff0000) * p)) 0xff0000)
           (Z.land (int_of_Q (inject_Z (Z.land i 0xff00) * p)) 0xff00))
    (Z.land (int_of_Q (inject_Z (Z.land i 0xff) * p)) 0xff).

(** The value of [p] in [fade_leds] when [elapsed] seconds have passed. *)
Definition fade_factor (elapsed : Q) : Q := ((35 # 10) - elapsed) / (5 # 10).

Definition fade_leds (d : Dev) : Res Image unit :=
  match led_state d with
  | None => Ok tt d
  | Some leds =>
      match led_set_time d with
      | None => Raise TypeError d
      | Some t0 =>
          let p := fade_factor (clock d - t0) in
          if Qle_bool 1 p then Ok tt d
          else if Qle_bool p 0 then
            let d1 := with_led_state None d in
            Ok tt (send_led (replicate (Z.to_nat (num_of_leds d1)) (lit "000000")) d1)
          else
            let dimmed_leds := List.map (dim_led p) leds in
            let led_str := List.map format_06x dimmed_leds in
            Ok tt (send_led led_str d)
      end
  end.

End Session.

(* ===================================================================== *)
(** * Modes ([modes.py]) and the main loop ([controller.py]) *)

(** A mode object: its identity (what [!=] compares) and its overridable
    methods.  [poll] and [animate] play no part in the properties below and
    are left out. *)
Record Mode (Image : Type) := mkMode {
  mode_id : nat;
  activate : Device Image -> Res Image unit;
  deactivate : Device Image -> Res Image unit
}.
Arguments mkMode {Image}.
Arguments mode_id {Image}.
Arguments activate {Image}.
Arguments deactivate {Image}.

(** An entry of the [modes] list: [{"mode": m}], optionally with a
    ["process"] name and an ["activeWindow"] compiled pattern.  A pattern is
    represented by the truth value of [pattern.match(s)] on strings. *)
Record ModeRule (Image : Type) := mkRule {
  rule_mode : Mode Image;
  rule_process : option pystr;
  rule_activeWindow : option (pystr -> bool)
}.
Arguments mkRule {Image}.
Arguments rule_mode {Image}.
Arguments rule_process {Image}.
Arguments rule_activeWindow {Image}.

(** The local variables of [work] that the mode check reads and writes.
    [poll_interval] is [None] for [False]. *)
Record Loop (Image : Type) := mkLoop {
  current_mode : option (Mode Image);
  poll_interval : option Q;
  active_window : option pystr
}.
Arguments mkLoop {Image}.
Arguments current_mode {Image}.
Arguments poll_interval {Image}.
Arguments active_window {Image}.

Section Orchestrator.
Context {Image : Type} `{Pillow Image} `{Protocol}.

Abbreviation Dev := (Device Image).

(** [ModeBase.deactivate], which every class of [modes.py] inherits. *)
Definition ModeBase_deactivate (d : Dev) : Res Image unit :=
  Ok tt (clear_callbacks d).

(** ["k" in mode] for the two optional keys of a rule. *)
Definition has_key {A} (o : option A) : bool :=
  match o with Some _ => true | None => false end.

(** [if_matching_mode]; [pattern.match(None)] raises [TypeError]. *)
Definition if_matching_mode (processes : gset pystr) (active_window : option pystr)
    (mode : ModeRule Image) : Exn + bool :=
  let no_predicate :=
    negb (has_key (rule_process mode) || has_key (rule_activeWindow mode)) in
  if match rule_process mode with
     | Some p => bool_decide (p ∈ processes)
     | None => false
     end
  then inr true
  else
    match rule_activeWindow mode with
    | Some pattern =>
        match active_window with
        | Some w => if pattern w then inr true else inr no_predicate
        | None => inl TypeError
        end
    | None => inr no_predicate
    end.

(** [list(filter(if_matching_mode, modes))] *)
Fixpoint filter_modes (processes : gset pystr) (active_window : option pystr)
    (modes : list (ModeRule Image)) : Exn + list (ModeRule Image) :=
  match modes with
  | [] => inr []
  | mode :: modes' =>
      match if_matching_mode processes active_window mode with
      | inl e => inl e
      | inr keep =>
          match filter_modes processes active_window modes' with
          | inl e => inl e
          | inr ms => inr (if keep then mode :: ms else ms)
          end
      end
  end.

(** [list(filter(if_matching_mode, modes))[0]] *)
Definition first_matching_mode (processes : gset pystr) (active_window : option pystr)
    (modes : list (ModeRule Image)) : Exn + ModeRule Image :=
  match filter_modes processes active_window modes with
  | inl e => inl e
  | inr [] => inl IndexError
  | inr (m :: _) => inr m
  end.

(** The part of the transition that runs before [activate]. *)
Definition leave_mode (cur : option (Mode Image)) (d : Dev) : Res Image unit :=
  match cur with
  | Some m =>
      match deactivate m d with
      | Ok _ d1 => Ok tt (reset_display (send_led_animation 2 50 20 0 0 0 255 2 d1))
      | r => r
      end
  | None => Ok tt d
  end.

(** The body of [if first_matching_mode["mode"] != current_mode]. *)
Definition switch_mode (l : Loop Image) (new : Mode Image) (d : Dev)
  : Res Image (Loop Image) :=
  match leave_mode (current_mode l) d with
  | Ok _ d1 =>
      match activate new d1 with
      | Ok _ d2 => Ok (mkLoop (Some new) (Some 0%Q) (active_window l)) d2
      | Raise e d2 => Raise e d2
      | OutOfFuel => OutOfFuel
      end
  | Raise e d1 => Raise e d1
  | OutOfFuel => OutOfFuel
  end.

Definition same_mode (cur : option (Mode Image)) (m : Mode Image) : bool :=
  match cur with
  | Some c => Nat.eqb (mode_id c) (mode_id m)
  | None => false
  end.

(** The body of [if now - last_mode_check > GET_ACTIVE_WINDOW_INTERVAL],
    given what [get_active_window()] returned and the current [processes]. *)
Definition mode_check (window : option pystr) (processes : gset pystr)
    (modes : list (ModeRule Image)) (l : Loop Image) (d : Dev)
  : Res Image (Loop Image) :=
  let l1 :=
    match window with
    | Some w => mkLoop (current_mode l) (poll_interval l) (Some w)
    | None => l
    end in
  match first_matching_mode processes (active_window l1) modes with
  | inl e => Raise e d
  | inr rule =>
      if negb (same_mode (current_mode l1) (rule_mode rule))
      then switch_mode l1 (rule_mode rule) d
      else Ok l1 d
  end.

(** The end of a tick: [now] is the time read at its start. *)
Definition frame_sleep_duration (now : Q) (d : Dev) : option Q :=
  let time_to_30_fps := (clock d - now + (333 # 10000))%Q in
  if Qgtb time_to_30_fps 0 then Some time_to_30_fps else None.

Definition frame_sleep (now : Q) (d : Dev) : Dev :=
  match frame_sleep_duration now d with
  | Some secs => time_sleep secs d
  | None => d
  end.

End Orchestrator.

(* ===================================================================== *)
(** * Notions used to state the properties *)

(** The number of decimal digits in a text. *)
Definition digit_count (s : pystr) : Z :=
  Z.of_nat (length (List.filter is_digit s)).

(** The integer a jog line's remainder denotes: decimal digits, optionally
    preceded by a minus sign; [None] for any other remainder. *)
Definition jog_delta (rest : pystr) : option Z :=
  if isdecimal rest then Some (digits_value rest)
  else
    match rest with
    | c :: ds =>
        if (c =? 45)%N && isdecimal ds then Some (- digits_value ds) else None
    | [] => None
    end.

(** A 24-bit colour and its channels; a channel scaled by [p] and cut to
    an integer. *)
Definition channel (k : Z) (i : Z) : Z := Z.land (Z.shiftr i k) 0xff.

Definition rgb (r g b : Z) : Z :=
  Z.lor (Z.lor (Z.shiftl r 16) (Z.shiftl g 8)) b.

Definition scale_channel (p : Q) (c : Z) : Z := Qfloor (inject_Z c * p).

Definition faded (p : Q) (i : Z) : Z :=
  rgb (scale_channel p (channel 16 i)) (scale_channel p (channel 8 i))
      (scale_channel p (channel 0 i)).

(** The complete (line-feed terminated) lines of a text, in order. *)
Fixpoint complete_lines (s : pystr) : list pystr :=
  match s with
  | [] => []
  | c :: s' =>
      if N.eqb c LF then [] :: complete_lines s'
      else match complete_lines s' with
           | l :: ls => (c :: l) :: ls
           | [] => []
           end
  end.

(** Lines put back on the wire, each followed by a line feed. *)
Definition unlines (ls : list pystr) : pystr :=
  List.concat (List.map (fun l => l ++ [LF]) ls).

Definition no_lf (l : pystr) : Prop := LF ∉ l.

Section Notions.
Context {Image : Type} `{Pillow Image} `{Protocol}.

Abbreviation Dev := (Device Image).

(** Everything the session can still read: the line buffer followed by the
    decoded future deliveries of the port. *)
Definition pending_text (d : Dev) : pystr :=
  inbuffer d ++ remove_cr (decode (List.concat (ser_in d))).

(** The same, seen from inside a wait loop that holds [line]. *)
Definition stream_from (line : option pystr) (d : Dev) : pystr :=
  match line with
  | Some l => l ++ LF :: pending_text d
  | None => pending_text d
  end.

(** The three polling loops of the session share one shape; [body] is what
    the loop does with a line that is not the awaited one. *)
Fixpoint wait_loop (body : pystr -> Dev -> Exn + Dev) (target : pystr)
    (fuel : nat) (start timeout : Q) (line : option pystr) (d : Dev)
  : Res Image bool :=
  if bool_decide (line = Some target) then Ok true d
  else
    match fuel with
    | O => OutOfFuel
    | S fuel' =>
        if Qgtb (clock d - start) timeout then Ok false d
        else
          match line with
          | None =>
              let '(line', d') := read_from_device (time_sleep (1 # 10) d) in
              wait_loop body target fuel' start timeout line' d'
          | Some l =>
              match body l d with
              | inl e => Raise e d
              | inr d1 =>
                  let '(line', d') := read_from_device d1 in
                  wait_loop body target fuel' start timeout line' d'
              end
          end
    end.

(** The environment fields a loop body must leave alone. *)
Definition env_stable (body : pystr -> Dev -> Exn + Dev) : Prop :=
  forall l d d1, body l d = inr d1 ->
    inbuffer d1 = inbuffer d /\ ser_in d1 = ser_in d /\ clock d1 = clock d.

(** The session attributes and the write log agree; only the line buffer,
    the pending deliveries and the clock may differ. *)
Definition same_session (d d' : Dev) : Prop :=
  testmode d' = testmode d /\
  num_of_leds d' = num_of_leds d /\
  display_width d' = display_width d /\
  display_height d' = display_height d /\
  rotation_circle_steps d' = rotation_circle_steps d /\
  image_buffer d' = image_buffer d /\
  callbacks d' = callbacks d /\
  led_state d' = led_state d /\
  led_set_time d' = led_set_time d /\
  ser_out d' = ser_out d.

(** The pieces [send_binary_to_device] writes for [data]. *)
Fixpoint chunks (fuel : nat) (data : list byte) : list (list byte) :=
  match fuel with
  | O => []
  | S fuel' =>
      match data with
      | [] => []
      | _ => take CHUNK_SIZE data :: chunks fuel' (drop CHUNK_SIZE data)
      end
  end.

(** The writes one image region causes: header line, then payload chunks. *)
Definition part_writes (part : Part Image) : list (list byte) :=
  let data := convert1_rotate180_tobytes (part_image part) in
  encode (display_command (part_x part) (part_y part) (part_image part) ++ [LF])
    :: chunks (length data) data.

(** The refresh command lines of [update_display]. *)
Definition refresh_line (full_refresh : bool) : list byte :=
  encode (CommandCode_REFRESH ++ lit " " ++
          (if full_refresh then RefreshTypeCode_FULL else RefreshTypeCode_PARTIAL)
          ++ [LF]).

Definition refresh_off_line : list byte :=
  encode (CommandCode_REFRESH ++ lit " " ++ RefreshTypeCode_OFF ++ [LF]).

(** The first and second "ok" wait of [update_display], from the state in
    which the respective command is about to be sent. *)
Definition first_ok_wait (fuel : nat) (full_refresh : bool) (timeout : Q) (d : Dev)
  : Res Image bool :=
  let d1 :=
    send_to_device
      (CommandCode_REFRESH ++ lit " " ++
       (if full_refresh then RefreshTypeCode_FULL else RefreshTypeCode_PARTIAL))
      d in
  let '(line, d2) := read_from_device d1 in
  await_line fuel (lit "ok") (clock d) timeout line d2.

Definition second_ok_wait (fuel : nat) (timeout : Q) (d3 : Dev) : Res Image bool :=
  let d5 :=
    send_to_device (CommandCode_REFRESH ++ lit " " ++ RefreshTypeCode_OFF)
      (resend_image_data d3) in
  let '(line, d6) := read_from_device d5 in
  await_line fuel (lit "ok") (clock d5) timeout line d6.

End Notions.

Section HandshakeScenario.
Context {Image : Type} `{Pillow Image} `{Protocol}.



End HandshakeScenario.

(** The handler a dispatched call goes to. *)
Definition call_handler (c : Call) : Handler :=
  match c with CallJog h _ => h | CallKey h => h end.

Section ModeNotions.
Context {Image : Type} `{Pillow Image} `{Protocol}.

(** A mode whose [activate] leaves in the callback table only handlers of
    its own besides those it found there. *)
Definition registers_own (m : Mode Image) : Prop :=
  forall (d d' : Device Image) (k : pystr) (h : Handler),
    activate m d = Ok tt d' ->
    callbacks d' !! k = Some h ->
    h_owner h = mode_id m \/ callbacks d !! k = Some h.

(** A rule's predicate on a known window title: process-name membership,
    or window-title pattern match, or no predicate at all. *)
Definition rule_matches (processes : gset pystr) (w : pystr)
    (rule : ModeRule Image) : bool :=
  match rule_process rule with
  | Some p => bool_decide (p ∈ processes)
  | None => false
  end
  || match rule_activeWindow rule with
     | Some pattern => pattern w
     | None => false
     end
  || negb (has_key (rule_process rule) || has_key (rule_activeWindow rule)).

End ModeNotions.

(* ===================================================================== *)
(** * Sample instances, for evaluating the model on concrete inputs *)

(** A stand-in image: its size and the bytes of its 1-bit, rotated form. *)
Record RawImage := mkRaw { raw_size : Z * Z; raw_bytes : list byte }.

#[export] Instance RawImage_Pillow : Pillow RawImage :=
  {| size := raw_size; convert1_rotate180_tobytes := raw_bytes |}.

(** Single-letter protocol codes in the style of the firmware's protocol. *)
#[export] Instance sample_protocol : Protocol :=
  {| KeyCode_JOG := lit "R";
     CommandCode_INFO := lit "I";
     CommandCode_ASSIGN := lit "A";
     CommandCode_LED := lit "L";
     CommandCode_ANIMATE := lit "T";
     CommandCode_DISPLAY := lit "D";
     CommandCode_REFRESH := lit "R";
     RefreshTypeCode_FULL := lit "f";
     RefreshTypeCode_PARTIAL := lit "p";
     RefreshTypeCode_OFF := lit "o";
     RefreshTypeCode_RESET := lit "r" |}.

(** A mode that registers one handler of its own under the key ["4p"]. *)
Definition sample_mode (id : nat) : Mode RawImage :=
  mkMode id
    (fun d => Ok tt (register_callback {| h_owner := id; h_id := 0 |} (lit "4p") d))
    ModeBase_deactivate.

(** The shape of the [modes] list of [controller.py]: two window-title
    rules and the fallback.  The patterns stand for [".*Zoom"] (any title
    containing "Zoom") and ["^gimp.*"] (any title starting with "gimp"). *)
Fixpoint contains (p s : pystr) : bool :=
  startswith p s || match s with [] => false | _ :: s' => contains p s' end.

Definition sample_modes : list (ModeRule RawImage) :=
  [ mkRule (sample_mode 1) None (Some (contains (lit "Zoom")));
    mkRule (sample_mode 2) None (Some (startswith (lit "gimp")));
    mkRule (sample_mode 3) None None ].

(* ===================================================================== *)
(** * Further parts of the session *)

(** The [function] argument of [get_area_for]: the string ["title"] or a
    button number. *)
Inductive Function := Title | Button (n : Z).

(** [self.banner_height], set to 20 in [__init__] and never assigned
    again. *)
Definition banner_height : Z := 20.

Section FurtherSession.
Context {Image : Type} `{Pillow Image} `{Protocol}.

(** [Device.connect] from the point where the port has been opened.  The
    result pairs the returned bool with whether the port is still open:
    [disconnect] closes it when the handshake fails, and only then. *)
Definition connect (fuel : nat) (d : Device Image) : Res Image (bool * bool) :=
  match request_info fuel 3 d with
  | Ok false d1 => Ok (false, false) d1
  | Ok true d1 =>
      if testmode d1 then Ok (false, true) d1 else Ok (true, true) d1
  | Raise e d1 => Raise e d1
  | OutOfFuel => OutOfFuel
  end.

(** [poll] together with the handler it calls.  [poll] above stops where
    the handler is about to be called, in the state reached by then, and
    returns the call; here the call is carried out, as the last thing
    [Device.poll] does.  [run c d] is the outcome of running the call [c]
    in the state [d]: whatever the handler writes, registers, buffers or
    waits for, and the exception it may raise, which leaves [poll]. *)
Definition run_poll (run : Call -> Device Image -> Res Image unit)
    (d : Device Image) : Res Image unit :=
  match poll d with
  | Ok (Some c) d1 => run c d1
  | Ok None d1 => Ok tt d1
  | Raise e d1 => Raise e d1
  | OutOfFuel => OutOfFuel
  end.

(** [get_area_for]: the area [(x, y, w, h)]. *)
Definition get_area_for (function : Function) (d : Device Image) : Z * Z * Z * Z :=
  let banner_space := banner_height / 2 in
  let tile_height := display_height d / 4 in
  let tile_width := display_width d / 2 - banner_space in
  match function with
  | Title => (tile_width, 0, 40, display_height d)
  | Button f =>
      if f =? 1 then
        (0, tile_width, display_height d, display_width d / 2 + banner_height)
      else if f <=? 5 then
        (tile_width + banner_height, (5 - f) * tile_height, tile_width + 2, tile_height)
      else
        (0, (9 - f) * tile_height, tile_width + 2, tile_height)
  end.

(** [n] successive calls of [read_from_device], keeping the lines they
    return. *)
Fixpoint read_lines (n : nat) (d : Device Image) : list pystr * Device Image :=
  match n with
  | O => ([], d)
  | S n' =>
      let '(line, d1) := read_from_device d in
      let '(ls, d2) := read_lines n' d1 in
      (match line with Some l => l :: ls | None => ls end, d2)
  end.

(** The capabilities the handshake negotiates. *)
Definition capabilities (d : Device Image) : bool * Z * Z * Z * Z :=
  (testmode d, num_of_leds d, display_width d, display_height d,
   rotation_circle_steps d).

(** [handle_info] on a run of info lines. *)
Fixpoint handle_infos (ls : list pystr) (d : Device Image) : Exn + Device Image :=
  match ls with
  | [] => inr d
  | l :: ls' =>
      match handle_info l d with
      | inl e => inl e
      | inr d1 => handle_infos ls' d1
      end
  end.

(** What is known while the info lines [ls] are still to be handled. *)
Definition infos_inv (caps : bool * Z * Z * Z * Z) (ls : list pystr)
    (d : Device Image) : Prop :=
  exists dy, handle_infos ls d = inr dy /\ capabilities dy = caps.

End FurtherSession.

(** Two areas [(x, y, w, h)] that share no pixel. *)
Definition areas_disjoint (a b : Z * Z * Z * Z) : Prop :=
  let '(x1, y1, w1, h1) := a in
  let '(x2, y2, w2, h2) := b in
  x1 + w1 <= x2 \/ x2 + w2 <= x1 \/ y1 + h1 <= y2 \/ y2 + h2 <= y1.

(** The poll scheduling of [work]: the condition
    [poll_interval is not False and now - last_poll > poll_interval >= 0]. *)
Definition poll_due (now last_poll : Q) (poll_interval : option Q) : bool :=
  match poll_interval with
  | None => false
  | Some p => Qgtb (now - last_poll) p && Qle_bool 0 p
  end.

(** The scheduling over the ticks that start at the times [nows], while the
    mode stays the same: [mode_poll now] stands for the value that the
    mode's [poll] returns in the tick started at [now] ([None] for
    [False]); the result lists the ticks in which it is called. *)
Fixpoint poll_calls (mode_poll : Q -> option Q) (nows : list Q)
    (last_poll : Q) (poll_interval : option Q) : list Q :=
  match nows with
  | [] => []
  | now :: rest =>
      if poll_due now last_poll poll_interval
      then now :: poll_calls mode_poll rest now (mode_poll now)
      else poll_calls mode_poll rest last_poll poll_interval
  end.

(** Reading a hexadecimal numeral. *)
Definition hex_digit_value (c : N) : Z :=
  if (c <? 58)%N then Z.of_N c - 48 else Z.of_N c - 87.

Definition hex_value (s : pystr) : Z :=
  fold_left (fun acc c => acc * 16 + hex_digit_value c) s 0.

Definition is_hex (c : N) : bool :=
  ((48 <=? c) && (c <=? 57) || (97 <=? c) && (c <=? 102))%N.

(* ===================================================================== *)
(** * The helpers on sample values *)

Example str_of_int_200 : str_of_int 200 = lit "200". Proof. reflexivity. Qed.
Example str_of_int_0 : str_of_int 0 = lit "0". Proof. reflexivity. Qed.
Example str_of_int_neg : str_of_int (-17) = lit "-17". Proof. reflexivity. Qed.
Example py_int_16 : py_int (lit "16") = Some 16. Proof. reflexivity. Qed.
Example py_int_neg : py_int (lit " -1_000 ") = Some (-1000). Proof. reflexivity. Qed.
Example py_int_bad : py_int (lit "1__0") = None. Proof. reflexivity. Qed.
Example py_int_empty : py_int (lit "") = None. Proof. reflexivity. Qed.
Example py_int_spaces :
  py_int ([9; 160] ++ lit "16" ++ [133; 32])%N = Some 16. Proof. reflexivity. Qed.
Example py_int_separator : py_int (28%N :: lit "16") = None. Proof. reflexivity. Qed.
Example split_nl_ex : split_nl (lit "ab
cd
e") = Some (lit "ab", lit "cd
e").
Proof. reflexivity. Qed.
Example encode_ascii : encode (lit "D 0 0 8 1") = bytes_lit "D 0 0 8 1".
Proof. reflexivity. Qed.
Example format_06x_ff0000 : format_06x 0xff0000 = lit "ff0000". Proof. reflexivity. Qed.
Example format_06x_0 : format_06x 0 = lit "000000". Proof. reflexivity. Qed.
Example format_06x_7f : format_06x 0x7f = lit "00007f". Proof. reflexivity. Qed.
Example format_06x_big : format_06x 0x1234567 = lit "1234567". Proof. reflexivity. Qed.
Example format_06x_neg : format_06x (-255) = lit "-000ff". Proof. reflexivity. Qed.

(* ===================================================================== *)
(** * Properties of the Python string helpers *)

Lemma split_nl_Some (s l r : pystr) :
  split_nl s = Some (l, r) -> s = l ++ LF :: r /\ LF ∉ l.
Proof.
  revert l r. induction s as [|c s IH]; intros l r Hs; simpl in Hs; [done|].
  destruct (N.eqb_spec c LF) as [->|Hc].
  - injection Hs as <- <-. split; [done|]. apply not_elem_of_nil.
  - destruct (split_nl s) as [[l' r']|] eqn:E; [|done].
    injection Hs as <- <-. destruct (IH _ _ eq_refl) as [-> Hl].
    split; [done|]. rewrite not_elem_of_cons. auto.
Qed.

Lemma split_nl_None (s : pystr) : split_nl s = None -> LF ∉ s.
Proof.
  induction s as [|c s IH]; simpl; intros Hs; [apply not_elem_of_nil|].
  destruct (N.eqb_spec c LF) as [->|Hc]; [done|].
  destruct (split_nl s) as [[l' r']|]; [done|].
  rewrite not_elem_of_cons. auto.
Qed.

Lemma split_nl_app (l r : pystr) :
  LF ∉ l -> split_nl (l ++ LF :: r) = Some (l, r).
Proof.
  induction l as [|c l IH]; simpl; intros Hl.
  - reflexivity.
  - apply not_elem_of_cons in Hl as [Hc Hl].
    destruct (N.eqb_spec c LF) as [->|_]; [done|]. by rewrite IH.
Qed.

Lemma split_nl_no_lf (s : pystr) : LF ∉ s -> split_nl s = None.
Proof.
  intros Hs. destruct (split_nl s) as [[l r]|] eqn:E; [|done].
  apply split_nl_Some in E as [-> _].
  exfalso. apply Hs. rewrite elem_of_app, elem_of_cons. auto.
Qed.

(** Two texts that start with a line-feed-free line and a line feed agree
    on that line and on what follows. *)
Lemma first_line_unique (l1 l2 r1 r2 : pystr) :
  LF ∉ l1 -> LF ∉ l2 -> l1 ++ LF :: r1 = l2 ++ LF :: r2 -> l1 = l2 /\ r1 = r2.
Proof.
  intros H1 H2 E.
  pose proof (split_nl_app l1 r1 H1) as E1.
  rewrite E, (split_nl_app l2 r2 H2) in E1. by injection E1 as -> ->.
Qed.

Lemma complete_lines_split (s : pystr) :
  complete_lines s =
  match split_nl s with
  | Some (l, r) => l :: complete_lines r
  | None => []
  end.
Proof.
  induction s as [|c s IH]; simpl; [done|].
  destruct (N.eqb c LF); [done|].
  rewrite IH. by destruct (split_nl s) as [[l r]|].
Qed.

Lemma complete_lines_app (l r : pystr) :
  LF ∉ l -> complete_lines (l ++ LF :: r) = l :: complete_lines r.
Proof. intros Hl. by rewrite complete_lines_split, split_nl_app. Qed.

Lemma remove_cr_app (s t : pystr) : remove_cr (s ++ t) = remove_cr s ++ remove_cr t.
Proof. unfold remove_cr. apply List.filter_app. Qed.

Lemma decode_app (a b : list byte) : decode (a ++ b) = decode a ++ decode b.
Proof. unfold decode. apply List.map_app. Qed.

(* ===================================================================== *)
(** * Transport and framing *)

Section TransportFacts.
Context {Image : Type} `{Pillow Image} `{Protocol}.

Abbreviation Dev := (Device Image).

(** [read_from_device] in one piece: the delivery at the head of [ser_in]
    is decoded into the line buffer, which is then cut at its first line
    feed. *)
Lemma read_from_device_unfold (d : Dev) :
  read_from_device d =
  let buf := inbuffer d ++ remove_cr (decode (hd [] (ser_in d))) in
  let d1 := with_ser_in (tail (ser_in d)) d in
  match split_nl buf with
  | Some (cmd, rest) => (Some cmd, with_inbuffer rest d1)
  | None => (None, with_inbuffer buf d1)
  end.
Proof.
  unfold read_from_device. destruct d as [tm ib nl dw dh rs im cb ls lt si so ck].
  destruct si as [|[|b bs] later]; simpl; rewrite ?app_nil_r;
    by destruct (split_nl _) as [[cmd rest]|].
Qed.

(** A read only moves text from the port into the line buffer. *)
Lemma read_from_device_shape (d : Dev) :
  exists buf,
    (read_from_device d).2 = with_inbuffer buf (with_ser_in (tail (ser_in d)) d).
Proof.
  unfold read_from_device. destruct d as [tm ib nl dw dh rs im cb ls lt si so ck].
  destruct si as [|waiting later]; simpl.
  - destruct (split_nl ib) as [[cmd rest]|]; simpl; eauto.
  - destruct waiting as [|b bs]; simpl.
    + destruct (split_nl ib) as [[cmd rest]|]; simpl; eauto.
    + destruct (split_nl _) as [[cmd rest]|]; simpl; eauto.
Qed.

Lemma read_from_device_stream (d : Dev) :
  stream_from (read_from_device d).1 (read_from_device d).2 = pending_text d.
Proof.
  unfold read_from_device, stream_from, pending_text.
  destruct d as [tm ib nl dw dh rs im cb ls lt si so ck]; simpl.
  destruct si as [|waiting later]; simpl.
  - destruct (split_nl ib) as [[cmd rest]|] eqn:E; simpl; [|done].
    apply split_nl_Some in E as [-> _]. by rewrite <- !app_assoc.
  - rewrite decode_app, remove_cr_app, app_assoc.
    destruct waiting as [|b bs]; simpl.
    + rewrite app_nil_r.
      destruct (split_nl ib) as [[cmd rest]|] eqn:E; simpl; [|done].
      apply split_nl_Some in E as [-> _]. by rewrite <- !app_assoc.
    + destruct (split_nl _) as [[cmd rest]|] eqn:E; simpl; [|done].
      apply split_nl_Some in E as [E _].
      change (remove_cr (decode (b :: bs))) with
        (remove_cr (decode_byte b :: decode bs)).
      rewrite E. by rewrite <- !app_assoc.
Qed.

Lemma read_from_device_line (d d' : Dev) (l : pystr) :
  read_from_device d = (Some l, d') -> LF ∉ l.
Proof.
  unfold read_from_device.
  destruct (split_nl _) as [[cmd rest]|] eqn:E; [|done].
  intros [= <- _]. by apply split_nl_Some in E as [_ ?].
Qed.

Lemma read_from_device_None (d d' : Dev) :
  read_from_device d = (None, d') -> LF ∉ inbuffer d'.
Proof.
  unfold read_from_device.
  destruct (split_nl _) as [[cmd rest]|] eqn:E; [done|].
  intros [= <-]. by apply split_nl_None.
Qed.

End TransportFacts.

(** ** Decoding *)

Lemma table_length : length iso8859_16_table = 256%nat.
Proof. reflexivity. Qed.

Lemma table_NoDup : NoDup iso8859_16_table.
Proof. apply (bool_decide_unpack (NoDup iso8859_16_table)). vm_compute. exact I. Qed.

Lemma decode_byte_lookup (b : byte) :
  iso8859_16_table !! N.to_nat (Byte.to_N b) = Some (decode_byte b).
Proof.
  unfold decode_byte.
  assert (N.to_nat (Byte.to_N b) < length iso8859_16_table)%nat as Hlt.
  { rewrite table_length. pose proof (Byte.to_N_bounded b). lia. }
  apply lookup_lt_is_Some in Hlt as [c Hc].
  rewrite Hc. f_equal. symmetry. by apply nth_lookup_Some with (d := 0%N) in Hc.
Qed.

Lemma decode_byte_inj (b1 b2 : byte) :
  decode_byte b1 = decode_byte b2 -> b1 = b2.
Proof.
  intros E.
  pose proof (decode_byte_lookup b1) as H1.
  pose proof (decode_byte_lookup b2) as H2.
  rewrite E in H1.
  pose proof (NoDup_lookup _ _ _ _ table_NoDup H1 H2) as Hi.
  apply N2Nat.inj in Hi.
  pose proof (Byte.of_to_N b1) as E1. rewrite Hi, Byte.of_to_N in E1.
  by injection E1.
Qed.

Lemma decode_byte_cr (b : byte) : N.eqb (decode_byte b) CR = Byte.eqb b x0d.
Proof. destruct b; reflexivity. Qed.

Lemma decode_byte_lf (b : byte) : N.eqb (decode_byte b) LF = Byte.eqb b x0a.
Proof. destruct b; reflexivity. Qed.

Lemma decode_ascii (b : byte) :
  (Byte.to_N b < 128)%N -> decode_byte b = Byte.to_N b.
Proof. destruct b; try reflexivity; vm_compute; intros [=]. Qed.

Lemma remove_cr_decode_length (bs : list byte) :
  length (remove_cr (decode bs)) =
  length (List.filter (fun b => negb (Byte.eqb b x0d)) bs).
Proof.
  induction bs as [|b bs IH]; simpl; [done|].
  rewrite decode_byte_cr. destruct (Byte.eqb b x0d); simpl; by rewrite ?IH.
Qed.

Section Decoding.
Context {Image : Type} `{Pillow Image} `{Protocol}.

Abbreviation Dev := (Device Image).

(** C4, as amended.  The ISO-8859-16 decoding maps every byte value to
    exactly one character, injectively, and only byte 0x0A to the line
    feed; [read_from_device] then deletes the carriage returns, so a
    delivery [bs] adds one character to the line buffer for every byte
    other than 0x0D and none for 0x0D, and the line returned is cut at the
    first line feed of the buffered text. *)
Theorem read_from_device_decoding (d : Dev) (bs : list byte) (later : list (list byte)) :
  let received := remove_cr (decode bs) in
  length (decode bs) = length bs /\
  (forall b1 b2 : byte, decode_byte b1 = decode_byte b2 -> b1 = b2) /\
  (forall b : byte, decode_byte b = LF <-> b = x0a) /\
  length received = length (List.filter (fun b => negb (Byte.eqb b x0d)) bs) /\
  match read_from_device (with_ser_in (bs :: later) d) with
  | (Some cmd, d') => inbuffer d ++ received = cmd ++ LF :: inbuffer d' /\ LF ∉ cmd
  | (None, d') => inbuffer d' = inbuffer d ++ received /\ LF ∉ inbuffer d'
  end.
Proof.
  intros received. split_and!.
  - unfold decode. apply List.length_map.
  - apply decode_byte_inj.
  - intros b. rewrite <- N.eqb_eq, decode_byte_lf. split.
    + apply Byte.byte_dec_bl.
    + apply Byte.byte_dec_lb.
  - apply remove_cr_decode_length.
  - rewrite read_from_device_unfold. simpl.
    destruct (split_nl _) as [[cmd rest]|] eqn:E; simpl.
    + apply split_nl_Some in E as [E ?]. by split.
    + apply split_nl_None in E. by split.
Qed.

End Decoding.

(** C4, counterexample.  Three received bytes, 'A', carriage return, 'B',
    leave two characters in the line buffer: the byte 0x0D does not come
    out as a character. *)
Lemma read_from_device_drops_cr :
  let d := new_device (Image := RawImage) [[x41; x0d; x42]] 0 in
  inbuffer (read_from_device d).2 = lit "AB" /\
  length (inbuffer (read_from_device d).2) <> length [x41; x0d; x42].
Proof. split; [reflexivity|vm_compute; lia]. Qed.

(* ===================================================================== *)
(** * Chunked binary transfer and image resend *)

Lemma chunks_concat (fuel : nat) (data : list byte) :
  (length data <= fuel)%nat -> List.concat (chunks fuel data) = data.
Proof.
  revert data. induction fuel as [|fuel IH]; intros data Hlen.
  - destruct data; [done|simpl in Hlen; lia].
  - destruct data as [|b data']; [done|].
    change (chunks (S fuel) (b :: data')) with
      (take CHUNK_SIZE (b :: data') :: chunks fuel (drop CHUNK_SIZE (b :: data'))).
    cbn [List.concat]. rewrite IH.
    + apply take_drop.
    + rewrite length_drop. unfold CHUNK_SIZE. simpl in *. lia.
Qed.

Lemma chunks_lookup (fuel : nat) (data : list byte) (i : nat) (c : list byte) :
  (length data <= fuel)%nat ->
  chunks fuel data !! i = Some c ->
  c = slice (i * CHUNK_SIZE) (i * CHUNK_SIZE + CHUNK_SIZE) data /\
  (i * CHUNK_SIZE < length data)%nat.
Proof.
  revert data i c. induction fuel as [|fuel IH]; intros data i c Hlen Hi; [done|].
  destruct data as [|b data']; [done|].
  change (chunks (S fuel) (b :: data')) with
    (take CHUNK_SIZE (b :: data') :: chunks fuel (drop CHUNK_SIZE (b :: data'))) in Hi.
  destruct i as [|i].
  - injection Hi as <-. split; [|simpl; lia].
    unfold slice. by rewrite Nat.add_0_l, Nat.sub_0_r.
  - cbn [lookup list_lookup] in Hi. apply IH in Hi as [-> Hi].
    + rewrite length_drop in Hi. split; [|lia].
      unfold slice. rewrite drop_drop.
      replace (S i * CHUNK_SIZE)%nat with (CHUNK_SIZE + i * CHUNK_SIZE)%nat by lia.
      f_equal; lia.
    + rewrite length_drop. unfold CHUNK_SIZE. simpl in *. lia.
Qed.

Lemma chunks_length (fuel : nat) (data : list byte) :
  (length data <= fuel)%nat ->
  (length (chunks fuel data) * CHUNK_SIZE < length data + CHUNK_SIZE)%nat.
Proof.
  revert data. induction fuel as [|fuel IH]; intros data Hlen.
  - simpl. unfold CHUNK_SIZE. lia.
  - destruct data as [|b data']; [simpl; unfold CHUNK_SIZE; lia|].
    change (chunks (S fuel) (b :: data')) with
      (take CHUNK_SIZE (b :: data') :: chunks fuel (drop CHUNK_SIZE (b :: data'))).
    cbn [length].
    assert (length (drop CHUNK_SIZE (b :: data')) <= fuel)%nat as Hd.
    { rewrite length_drop. unfold CHUNK_SIZE. simpl in *. lia. }
    specialize (IH _ Hd). rewrite length_drop in IH.
    destruct (decide (length (b :: data') <= CHUNK_SIZE)%nat) as [Hs|Hs].
    + rewrite drop_ge by done.
      destruct fuel; simpl chunks; cbn [length]; simpl in *; unfold CHUNK_SIZE; lia.
    + unfold CHUNK_SIZE in *. cbn [length] in *. lia.
Qed.

Section Chunking.
Context {Image : Type} `{Pillow Image} `{Protocol}.

Abbreviation Dev := (Device Image).

Lemma with_ser_out_same (d : Dev) : with_ser_out (ser_out d ++ []) d = d.
Proof. destruct d. unfold with_ser_out. simpl. by rewrite app_nil_r. Qed.

Lemma send_chunks_out (fuel startIx : nat) (data : list byte) (d : Dev) :
  send_chunks fuel startIx (startIx + CHUNK_SIZE) data d =
  with_ser_out (ser_out d ++ chunks fuel (drop startIx data)) d.
Proof.
  revert startIx d. induction fuel as [|fuel IH]; intros startIx d.
  - simpl. by rewrite with_ser_out_same.
  - cbn [send_chunks]. destruct (Nat.ltb_spec startIx (length data)) as [Hlt|Hge].
    + rewrite IH. unfold ser_write, with_ser_out. simpl. f_equal.
      rewrite <- app_assoc. f_equal.
      destruct (drop startIx data) as [|b rest] eqn:E.
      { apply (f_equal length) in E. rewrite length_drop in E. simpl in E. lia. }
      change (chunks (S fuel) (b :: rest)) with
        (take CHUNK_SIZE (b :: rest) :: chunks fuel (drop CHUNK_SIZE (b :: rest))).
      rewrite <- E, drop_drop. unfold slice. simpl. repeat f_equal. lia.
    + rewrite drop_ge by lia. simpl. by rewrite with_ser_out_same.
Qed.

Lemma send_binary_to_device_out (data : list byte) (d : Dev) :
  send_binary_to_device data d =
  with_ser_out (ser_out d ++ chunks (length data) data) d.
Proof. unfold send_binary_to_device. apply (send_chunks_out _ 0). Qed.

Lemma resend_part_out (d : Dev) (part : Part Image) :
  resend_part d part = with_ser_out (ser_out d ++ part_writes part) d.
Proof.
  unfold resend_part. rewrite send_binary_to_device_out.
  unfold send_to_device, ser_write, with_ser_out, part_writes. simpl.
  by rewrite <- app_assoc.
Qed.

Lemma fold_resend_out (parts : list (Part Image)) (d : Dev) :
  fold_left resend_part parts d =
  with_ser_out (ser_out d ++ List.concat (List.map part_writes parts)) d.
Proof.
  revert d. induction parts as [|p parts IH]; intros d; simpl.
  - by rewrite with_ser_out_same.
  - rewrite IH, resend_part_out. unfold with_ser_out. simpl.
    by rewrite <- app_assoc.
Qed.

Lemma resend_image_data_out (d : Dev) :
  resend_image_data d =
  with_image_buffer []
    (with_ser_out (ser_out d ++ List.concat (List.map part_writes (image_buffer d))) d).
Proof. unfold resend_image_data. by rewrite fold_resend_out. Qed.

Lemma send_image_out (x y : Z) (image : Image) (d : Dev) :
  (send_image x y image d).2 =
  with_ser_out (ser_out d ++ part_writes (mkPart x y image))
    (with_image_buffer (image_buffer d ++ [mkPart x y image]) d).
Proof.
  unfold send_image. cbn [snd]. rewrite send_binary_to_device_out.
  unfold send_to_device, ser_write, with_ser_out, part_writes. simpl.
  by rewrite <- app_assoc.
Qed.

End Chunking.

Section ImageRoundTrip.
Context {Image : Type} `{Pillow Image} `{Protocol}.

Abbreviation Dev := (Device Image).

(** C9.  What [send_image] writes for a region is the display header line
    followed by the bitmap bytes cut into pieces; a following
    [resend_image_data] writes, after the regions buffered earlier, exactly
    the same header and pieces again.  The pieces concatenate to the bitmap
    bytes, piece [i] is [data[100*i : 100*i+100]], pieces are non-empty and
    at most 100 bytes long, and all but the last are exactly 100 bytes. *)
Theorem send_then_resend_identical (x y : Z) (image : Image) (d : Dev) :
  let data := convert1_rotate180_tobytes image in
  let pieces := chunks (length data) data in
  let out := encode (display_command x y image ++ [LF]) :: pieces in
  let d1 := (send_image x y image d).2 in
  ser_out d1 = ser_out d ++ out /\
  ser_out (resend_image_data d1) =
    ser_out d1 ++ List.concat (List.map part_writes (image_buffer d)) ++ out /\
  List.concat pieces = data /\
  (forall (i : nat) (c : list byte), pieces !! i = Some c ->
     c = slice (i * 100) (i * 100 + 100) data /\
     (0 < length c <= 100)%nat /\
     ((S i < length pieces)%nat -> length c = 100%nat)).
Proof.
  intros data pieces out d1. split_and!.
  - subst d1. by rewrite send_image_out.
  - subst d1. rewrite resend_image_data_out, send_image_out. simpl.
    by rewrite List.map_app, List.concat_app; simpl; rewrite app_nil_r.
  - by apply chunks_concat.
  - intros i c Hc.
    destruct (chunks_lookup _ _ _ _ (le_n _) Hc) as [Hslice Hlt].
    unfold CHUNK_SIZE in *. split; [done|].
    assert (length c = (length data - i * 100) `min` 100)%nat as Hlen.
    { rewrite Hslice. unfold slice. rewrite length_take, length_drop. lia. }
    split; [lia|]. intros Hnext.
    apply lookup_lt_is_Some in Hnext as [c' Hc'].
    apply chunks_lookup in Hc' as [_ Hlt']; [|done].
    unfold CHUNK_SIZE in *. lia.
Qed.

End ImageRoundTrip.

Example send_then_resend_sample :
  let img := mkRaw (8, 1) [x81] in
  let d1 := (send_image 0 0 img (new_device [] 0)).2 in
  ser_out d1 = [bytes_lit "D 0 0 8 1
"; [x81]] /\
  ser_out (resend_image_data d1) = ser_out d1 ++ ser_out d1.
Proof. split; reflexivity. Qed.

(* ===================================================================== *)
(** * Waiting for a reply line *)

Lemma Qgtb_true (a b : Q) : Qgtb a b = true <-> (b < a)%Q.
Proof.
  unfold Qgtb. rewrite negb_true_iff, <- not_true_iff_false, Qle_bool_iff.
  split; [apply Qnot_le_lt|apply Qlt_not_le].
Qed.

Lemma Qgtb_false (a b : Q) : Qgtb a b = false <-> (a <= b)%Q.
Proof. unfold Qgtb. by rewrite negb_false_iff, Qle_bool_iff. Qed.

Lemma inject_nat_S (k : nat) :
  (inject_Z (Z.of_nat (S k)) == inject_Z (Z.of_nat k) + 1)%Q.
Proof. rewrite Nat2Z.inj_succ. unfold Z.succ. by rewrite inject_Z_plus. Qed.

Lemma inject_nat_nonneg (k : nat) : (0 <= inject_Z (Z.of_nat k))%Q.
Proof. change 0%Q with (inject_Z 0). rewrite <- Zle_Qle. lia. Qed.

Lemma inject_nat_le (j k : nat) :
  (j <= k)%nat -> (inject_Z (Z.of_nat j) <= inject_Z (Z.of_nat k))%Q.
Proof. intros. rewrite <- Zle_Qle. lia. Qed.

Lemma unlines_cons (l : pystr) (ls : list pystr) :
  unlines (l :: ls) = l ++ LF :: unlines ls.
Proof. unfold unlines. simpl. by rewrite <- app_assoc. Qed.

Lemma unlines_app (ls1 ls2 : list pystr) :
  unlines (ls1 ++ ls2) = unlines ls1 ++ unlines ls2.
Proof. unfold unlines. by rewrite List.map_app, List.concat_app. Qed.

Lemma complete_lines_unlines (ls : list pystr) (rest : pystr) :
  Forall no_lf ls ->
  complete_lines (unlines ls ++ rest) = ls ++ complete_lines rest.
Proof.
  induction 1 as [|l ls Hl _ IH]; [done|].
  rewrite unlines_cons. simpl. rewrite <- app_assoc. simpl.
  by rewrite complete_lines_app, IH.
Qed.

Section WaitLoop.
Context {Image : Type} `{Pillow Image} `{Protocol}.

Abbreviation Dev := (Device Image).

Lemma await_line_wait_loop (fuel : nat) (target : pystr) (start timeout : Q)
    (line : option pystr) (d : Dev) :
  await_line fuel target start timeout line d =
  wait_loop (fun _ d => inr d) target fuel start timeout line d.
Proof.
  revert line d. induction fuel as [|fuel IH]; intros line d; simpl; [done|].
  destruct (bool_decide _); [done|]. destruct (Qgtb _ _); [done|].
  destruct line; by destruct (read_from_device _).
Qed.

Lemma read_infos_wait_loop (fuel : nat) (start timeout : Q)
    (line : option pystr) (d : Dev) :
  read_infos fuel start timeout line d =
  wait_loop handle_info (lit "Done") fuel start timeout line d.
Proof.
  revert line d. induction fuel as [|fuel IH]; intros line d; simpl; [done|].
  destruct (bool_decide _); [done|]. destruct (Qgtb _ _); [done|].
  destruct line as [l|]; [destruct (handle_info l d)|];
    by try destruct (read_from_device _).
Qed.

Lemma pending_text_env (d d1 : Dev) :
  inbuffer d1 = inbuffer d -> ser_in d1 = ser_in d ->
  pending_text d1 = pending_text d.
Proof. unfold pending_text. by intros -> ->. Qed.

Lemma read_from_device_clock (d : Dev) : clock (read_from_device d).2 = clock d.
Proof. by destruct (read_from_device_shape d) as [buf ->]. Qed.

Lemma read_from_device_ser_in (d : Dev) :
  ser_in (read_from_device d).2 = tail (ser_in d).
Proof. by destruct (read_from_device_shape d) as [buf ->]. Qed.

Variable body : pystr -> Dev -> Exn + Dev.
Variable target : pystr.
Variables start timeout : Q.
Hypothesis body_stable : env_stable body.

(** Whatever the port delivers, the loop ends once it has enough fuel: with
    [true] only if the awaited line is among the lines still to come (and
    then what follows it is what remains to be read), with
    [false] only once more than [timeout] seconds have passed since
    [start], and with an exception only if the body raised it on a line. *)
Lemma wait_loop_outcome (fuel n k : nat) (line : option pystr) (d : Dev) :
  (forall l, line = Some l -> LF ∉ l) ->
  (length (complete_lines (stream_from line d)) <= n)%nat ->
  (timeout - (clock d - start) < inject_Z (Z.of_nat k) * (1 # 10))%Q ->
  (n + k < fuel)%nat ->
  match wait_loop body target fuel start timeout line d with
  | Ok true d' =>
      exists ls, Forall no_lf ls /\ (LF ∉ target) /\
        stream_from line d = unlines ls ++ target ++ LF :: pending_text d'
  | Ok false d' => Qgtb (clock d' - start) timeout = true
  | Raise e _ =>
      exists l d0, l ∈ complete_lines (stream_from line d) /\ body l d0 = inl e
  | OutOfFuel => False
  end.
Proof.
  revert n k line d. induction fuel as [|fuel IH]; intros n k line d Hline Hn Hk Hfuel;
    [lia|].
  cbn [wait_loop]. case_bool_decide as Ht.
  { subst line. exists []. split_and!; [done|auto|done]. }
  destruct (Qgtb (clock d - start) timeout) eqn:Hto; [done|].
  apply Qgtb_false in Hto.
  destruct line as [l|].
  - assert (complete_lines (stream_from (Some l) d) =
            l :: complete_lines (pending_text d)) as Hl.
    { cbn [stream_from]. rewrite complete_lines_app by auto. done. }
    rewrite Hl in *. cbn [length] in Hn.
    destruct (body l d) as [e|d1] eqn:Hb.
    { exists l, d. split; [set_solver|done]. }
    destruct (body_stable _ _ _ Hb) as (Hib & Hsi & Hck).
    destruct (read_from_device d1) as [line' d'] eqn:Hr.
    pose proof (read_from_device_stream d1) as Hs. rewrite Hr in Hs. cbn [fst snd] in Hs.
    rewrite (pending_text_env d d1) in Hs by done.
    pose proof (read_from_device_clock d1) as Hc. rewrite Hr in Hc. cbn [snd] in Hc.
    specialize (IH (n - 1)%nat k line' d').
    rewrite Hs in IH.
    assert (forall l', line' = Some l' -> LF ∉ l') as Hline'.
    { intros l' ->. eapply read_from_device_line, Hr. }
    assert (timeout - (clock d' - start) < inject_Z (Z.of_nat k) * (1 # 10))%Q as Hk'.
    { rewrite Hc, Hck. done. }
    specialize (IH Hline' ltac:(lia) Hk' ltac:(lia)).
    destruct (wait_loop _ _ _ _ _ _ _) as [[|] ?|e ?|]; try done.
    + destruct IH as (ls & Hls & Htg & Hst). exists (l :: ls).
      split_and!; [constructor; [apply Hline; done|done]|done|].
      cbn [stream_from]. rewrite Hst, unlines_cons. by rewrite <- app_assoc.
    + destruct IH as (l0 & dr & Hin & Hraise). exists l0, dr. split; [set_solver|done].
  - destruct k as [|k].
    { exfalso. change (inject_Z (Z.of_nat 0)) with 0%Q in Hk. lra. }
    destruct (read_from_device (time_sleep (1 # 10) d)) as [line' d'] eqn:Hr.
    pose proof (read_from_device_stream (time_sleep (1 # 10) d)) as Hs.
    rewrite Hr in Hs. cbn [fst snd] in Hs.
    pose proof (read_from_device_clock (time_sleep (1 # 10) d)) as Hc.
    rewrite Hr in Hc. cbn [snd] in Hc.
    specialize (IH n k line' d').
    change (pending_text (time_sleep (1 # 10) d)) with (stream_from None d) in Hs.
    rewrite Hs in IH.
    assert (forall l', line' = Some l' -> LF ∉ l') as Hline'.
    { intros l' ->. eapply read_from_device_line, Hr. }
    assert (timeout - (clock d' - start) < inject_Z (Z.of_nat k) * (1 # 10))%Q as Hk'.
    { rewrite Hc. simpl. rewrite inject_nat_S in Hk. lra. }
    exact (IH Hline' Hn Hk' ltac:(lia)).
Qed.

End WaitLoop.

Lemma sleep_bound_exists (q : Q) :
  exists k : nat, (q < inject_Z (Z.of_nat k) * (1 # 10))%Q.
Proof.
  exists (Z.to_nat (Qfloor (q * 10) + 1)).
  pose proof (Qlt_floor (q * 10)) as Hf.
  assert (inject_Z (Qfloor (q * 10) + 1) <=
          inject_Z (Z.of_nat (Z.to_nat (Qfloor (q * 10) + 1))))%Q as Hle.
  { rewrite <- Zle_Qle. lia. }
  lra.
Qed.

Lemma elem_of_unlines_lf (ls : list pystr) (target rest : pystr) :
  LF ∈ (unlines ls ++ target ++ LF :: rest).
Proof. rewrite !elem_of_app, elem_of_cons. auto. Qed.

Section WaitLoopFinds.
Context {Image : Type} `{Pillow Image} `{Protocol}.

Abbreviation Dev := (Device Image).

Variable body : pystr -> Dev -> Exn + Dev.
Variable target : pystr.
Variables start timeout : Q.
Hypothesis target_no_lf : LF ∉ target.

(** What is known of the device while the lines [ls] are still to be
    handled by the body. *)
Variable Inv : list pystr -> Dev -> Prop.
Hypothesis Inv_sleep : forall ls d s, Inv ls d -> Inv ls (time_sleep s d).
Hypothesis Inv_read : forall ls d, Inv ls d -> Inv ls (read_from_device d).2.
Hypothesis Inv_body : forall l ls d, Inv (l :: ls) d ->
  exists d1, body l d = inr d1 /\ Inv ls d1 /\
    inbuffer d1 = inbuffer d /\ ser_in d1 = ser_in d /\ clock d1 = clock d.

(** If the text still to come consists of lines [ls] other than the awaited
    one, then the awaited line, and if a tenth of a second per outstanding
    delivery still fits in the time budget, the loop finds the line. *)
Lemma wait_loop_finds (fuel : nat) (ls : list pystr) (rest : pystr)
    (line : option pystr) (d : Dev) :
  Forall (fun l => (LF ∉ l) /\ l <> target) ls ->
  stream_from line d = unlines ls ++ target ++ LF :: rest ->
  (forall l, line = Some l -> LF ∉ l) ->
  (line = None -> LF ∉ inbuffer d) ->
  (clock d - start + inject_Z (Z.of_nat (length (ser_in d))) * (1 # 10) <= timeout)%Q ->
  Inv ls d ->
  (length ls + length (ser_in d) < fuel)%nat ->
  exists d',
    wait_loop body target fuel start timeout line d = Ok true d' /\
    pending_text d' = rest /\
    Inv [] d' /\
    (clock d' - start + inject_Z (Z.of_nat (length (ser_in d'))) * (1 # 10) <= timeout)%Q.
Proof.
  revert ls line d. induction fuel as [|fuel IH];
    intros ls line d Hls Hstream Hline Hnone Hbudget HInv Hfuel; [lia|].
  cbn [wait_loop].
  pose proof (inject_nat_nonneg (length (ser_in d))) as Hnn.
  destruct line as [l|].
  - cbn [stream_from] in Hstream. specialize (Hline l eq_refl).
    destruct ls as [|l0 ls].
    + simpl in Hstream.
      apply first_line_unique in Hstream as [-> Hrest]; [|done..].
      rewrite bool_decide_true by done. eauto.
    + rewrite unlines_cons in Hstream. simpl in Hstream. rewrite <- app_assoc in Hstream.
      apply Forall_cons in Hls as [[Hl0 Hne] Hls].
      apply first_line_unique in Hstream as [-> Hrest]; [|done..].
      rewrite bool_decide_false by congruence.
      assert (Qgtb (clock d - start) timeout = false) as -> by (apply Qgtb_false; lra).
      destruct (Inv_body _ _ _ HInv) as (d1 & -> & HInv1 & Hib & Hsi & Hck).
      destruct (read_from_device d1) as [line' d'] eqn:Hr.
      pose proof (read_from_device_stream d1) as Hs. rewrite Hr in Hs. cbn [fst snd] in Hs.
      rewrite (pending_text_env d d1), Hrest in Hs by done.
      pose proof (read_from_device_clock d1) as Hc. rewrite Hr in Hc. cbn [snd] in Hc.
      pose proof (read_from_device_ser_in d1) as Hin. rewrite Hr in Hin. cbn [snd] in Hin.
      pose proof (Inv_read _ _ HInv1) as HInv'. rewrite Hr in HInv'. cbn [snd] in HInv'.
      assert (length (ser_in d') <= length (ser_in d))%nat as Hlen.
      { rewrite Hin, Hsi. destruct (ser_in d); simpl; lia. }
      apply (IH ls line' d'); try done.
      * intros l' ->. eapply read_from_device_line, Hr.
      * intros ->. eapply read_from_device_None, Hr.
      * pose proof (inject_nat_le _ _ Hlen). rewrite Hc, Hck. lra.
      * simpl in Hfuel. lia.
  - rewrite bool_decide_false by done. cbn [stream_from] in Hstream.
    assert (Qgtb (clock d - start) timeout = false) as -> by (apply Qgtb_false; lra).
    destruct (ser_in d) as [|waiting later] eqn:Hsi.
    { exfalso. apply (Hnone eq_refl).
      unfold pending_text in Hstream. rewrite Hsi in Hstream. simpl in Hstream.
      rewrite app_nil_r in Hstream. rewrite Hstream. apply elem_of_unlines_lf. }
    destruct (read_from_device (time_sleep (1 # 10) d)) as [line' d'] eqn:Hr.
    pose proof (read_from_device_stream (time_sleep (1 # 10) d)) as Hs.
    rewrite Hr in Hs. cbn [fst snd] in Hs.
    change (pending_text (time_sleep (1 # 10) d)) with (pending_text d) in Hs.
    rewrite Hstream in Hs.
    pose proof (read_from_device_clock (time_sleep (1 # 10) d)) as Hc.
    rewrite Hr in Hc. cbn [snd] in Hc.
    pose proof (read_from_device_ser_in (time_sleep (1 # 10) d)) as Hin.
    rewrite Hr in Hin. cbn [snd] in Hin.
    change (ser_in (time_sleep (1 # 10) d)) with (ser_in d) in Hin.
    rewrite Hsi in Hin. simpl in Hin.
    pose proof (Inv_read _ _ (Inv_sleep _ _ (1 # 10) HInv)) as HInv'.
    rewrite Hr in HInv'. cbn [snd] in HInv'.
    apply (IH ls line' d'); try done.
    + intros l' ->. eapply read_from_device_line, Hr.
    + intros ->. eapply read_from_device_None, Hr.
    + rewrite Hc, Hin. cbn [length] in Hbudget. rewrite inject_nat_S in Hbudget.
      simpl. lra.
    + rewrite Hin. simpl in Hfuel. lia.
Qed.

End WaitLoopFinds.

Section Frames.
Context {Image : Type} `{Pillow Image} `{Protocol}.

Abbreviation Dev := (Device Image).

Lemma same_session_refl (d : Dev) : same_session d d.
Proof. by repeat split. Qed.

Lemma same_session_trans (d1 d2 d3 : Dev) :
  same_session d1 d2 -> same_session d2 d3 -> same_session d1 d3.
Proof. unfold same_session. intros ? ?. destruct_and!. split_and!; congruence. Qed.

Lemma same_session_sleep (d : Dev) (s : Q) : same_session d (time_sleep s d).
Proof. by repeat split. Qed.

Lemma same_session_read (d : Dev) : same_session d (read_from_device d).2.
Proof. destruct (read_from_device_shape d) as [buf ->]. by repeat split. Qed.

Lemma await_line_same_session (fuel : nat) (target : pystr) (start timeout : Q)
    (line : option pystr) (d : Dev) :
  match await_line fuel target start timeout line d with
  | Ok _ d' | Raise _ d' => same_session d d'
  | OutOfFuel => True
  end.
Proof.
  revert line d. induction fuel as [|fuel IH]; intros line d; cbn [await_line].
  - case_bool_decide; [apply same_session_refl|done].
  - case_bool_decide; [apply same_session_refl|].
    destruct (Qgtb _ _); [apply same_session_refl|].
    destruct line as [l|].
    + destruct (read_from_device d) as [line' d'] eqn:Hr.
      pose proof (same_session_read d) as Hs. rewrite Hr in Hs.
      specialize (IH line' d').
      destruct (await_line _ _ _ _ _ _) as [? ?|? ?|]; [| |done];
        eapply same_session_trans; eauto.
    + destruct (read_from_device _) as [line' d'] eqn:Hr.
      pose proof (same_session_read (time_sleep (1 # 10) d)) as Hs. rewrite Hr in Hs.
      specialize (IH line' d').
      destruct (await_line _ _ _ _ _ _) as [? ?|? ?|]; [| |done];
        (eapply same_session_trans; [|by eauto]);
        (eapply same_session_trans; [apply (same_session_sleep d (1 # 10))|done]).
Qed.

End Frames.

Section WaitLoopTotal.
Context {Image : Type} `{Pillow Image} `{Protocol}.

Abbreviation Dev := (Device Image).

(** More fuel does not change a result. *)
Lemma wait_loop_mono (body : pystr -> Dev -> Exn + Dev) (target : pystr)
    (fuel fuel' : nat) (start timeout : Q) (line : option pystr) (d : Dev) :
  (fuel <= fuel')%nat ->
  wait_loop body target fuel start timeout line d <> OutOfFuel ->
  wait_loop body target fuel' start timeout line d =
  wait_loop body target fuel start timeout line d.
Proof.
  revert fuel' line d. induction fuel as [|fuel IH]; intros fuel' line d Hle Hres.
  - cbn [wait_loop] in *. destruct (bool_decide _) eqn:E; [|done].
    destruct fuel'; cbn [wait_loop]; by rewrite E.
  - destruct fuel' as [|fuel']; [lia|]. cbn [wait_loop] in *.
    destruct (bool_decide _); [done|]. destruct (Qgtb _ _); [done|].
    destruct line as [l|].
    + destruct (body l d) as [e|d1]; [done|].
      destruct (read_from_device d1) as [line' d']. apply IH; [lia|done].
    + destruct (read_from_device _) as [line' d']. apply IH; [lia|done].
Qed.

Lemma await_line_mono (target : pystr) (fuel fuel' : nat) (start timeout : Q)
    (line : option pystr) (d : Dev) :
  (fuel <= fuel')%nat ->
  await_line fuel target start timeout line d <> OutOfFuel ->
  await_line fuel' target start timeout line d =
  await_line fuel target start timeout line d.
Proof. rewrite !await_line_wait_loop. apply wait_loop_mono. Qed.

Lemma env_stable_inr : env_stable (fun (_ : pystr) (d : Dev) => inr d).
Proof. by intros l d d1 [= <-]. Qed.

(** An "ok"-style wait always ends: with [true] only if the line was among
    those to come, with [false] only after the timeout; it changes nothing
    of the session but the line buffer, the port and the clock. *)
Lemma await_line_total (target : pystr) (start timeout : Q)
    (line : option pystr) (d : Dev) :
  (forall l, line = Some l -> LF ∉ l) ->
  exists (fuel0 : nat) (r : bool) (d' : Dev),
    (forall fuel, (fuel0 <= fuel)%nat ->
       await_line fuel target start timeout line d = Ok r d') /\
    same_session d d' /\
    (if r then target ∈ complete_lines (stream_from line d)
     else Qgtb (clock d' - start) timeout = true).
Proof.
  intros Hline.
  destruct (sleep_bound_exists (timeout - (clock d - start))) as [k Hk].
  set (n := length (complete_lines (stream_from line d))).
  pose proof (wait_loop_outcome _ target start timeout env_stable_inr
                (S (n + k)) n k line d Hline (le_n _) Hk (Nat.lt_succ_diag_r _)) as Hout.
  pose proof (await_line_same_session (S (n + k)) target start timeout line d) as Hsame.
  rewrite await_line_wait_loop in Hsame.
  destruct (wait_loop _ _ (S (n + k)) _ _ _ _) as [r d'|e d'|] eqn:E.
  - exists (S (n + k)), r, d'. split; [|split; [done|]].
    2:{ destruct r; [|done]. destruct Hout as (ls & Hls & Htg & ->).
        rewrite complete_lines_unlines, complete_lines_app by done. set_solver. }
    intros fuel Hfuel. rewrite await_line_wait_loop.
    rewrite (wait_loop_mono _ _ (S (n + k)) fuel) by (rewrite ?E; done). done.
  - by destruct Hout as (l & d0 & _ & ?).
  - done.
Qed.

End WaitLoopTotal.

(* ===================================================================== *)
(** * Display refresh *)

Section UpdateDisplay.
Context {Image : Type} `{Pillow Image} `{Protocol}.

Abbreviation Dev := (Device Image).

(** [update_display] is its first wait, then, with [buffer_data], the
    resend and the second wait. *)
Lemma update_display_unfold (fuel : nat) (full buf : bool) (timeout : Q) (d : Dev) :
  update_display fuel full timeout buf d =
  match first_ok_wait fuel full timeout d with
  | Ok false d3 => Ok (PyBool false) d3
  | Ok true d3 =>
      if buf then
        match second_ok_wait fuel timeout d3 with
        | Ok false d7 => Ok (PyBool false) d7
        | Ok true d7 => Ok PyNone d7
        | Raise e d7 => Raise e d7
        | OutOfFuel => OutOfFuel
        end
      else Ok PyNone d3
  | Raise e d3 => Raise e d3
  | OutOfFuel => OutOfFuel
  end.
Proof.
  unfold update_display, first_ok_wait, second_ok_wait.
  destruct (read_from_device _) as [line d2].
  destruct (await_line _ _ _ _ _ _) as [[|] d3|e d3|]; try done.
  destruct buf; [|done]. by destruct (read_from_device _) as [line' d6].
Qed.

Lemma first_ok_wait_total (full : bool) (timeout : Q) (d : Dev) :
  exists (fuel0 : nat) (r : bool) (d3 : Dev),
    (forall fuel, (fuel0 <= fuel)%nat ->
       first_ok_wait fuel full timeout d = Ok r d3) /\
    ser_out d3 = ser_out d ++ [refresh_line full] /\
    image_buffer d3 = image_buffer d /\
    (if r then lit "ok" ∈ complete_lines (pending_text d)
     else Qgtb (clock d3 - clock d) timeout = true).
Proof.
  unfold first_ok_wait.
  set (d1 := send_to_device _ d).
  destruct (read_from_device d1) as [line d2] eqn:Hr.
  pose proof (read_from_device_stream d1) as Hs. rewrite Hr in Hs. cbn [fst snd] in Hs.
  pose proof (same_session_read d1) as Hsame. rewrite Hr in Hsame. cbn [snd] in Hsame.
  destruct (await_line_total (lit "ok") (clock d) timeout line d2)
    as (fuel0 & r & d3 & Hrun & Hsame' & Hr').
  { intros l ->. eapply read_from_device_line, Hr. }
  exists fuel0, r, d3. split; [done|].
  pose proof (same_session_trans _ _ _ Hsame Hsame') as Hss.
  unfold same_session in Hss. destruct_and!.
  split_and!; [| |].
  - replace (ser_out d3) with (ser_out d1) by done.
    subst d1. unfold refresh_line. simpl. by rewrite <- !app_assoc.
  - by replace (image_buffer d3) with (image_buffer d1).
  - by rewrite Hs in Hr'.
Qed.

Lemma second_ok_wait_total (timeout : Q) (d3 : Dev) :
  exists (fuel0 : nat) (r : bool) (d7 : Dev),
    (forall fuel, (fuel0 <= fuel)%nat ->
       second_ok_wait fuel timeout d3 = Ok r d7) /\
    ser_out d7 = ser_out d3 ++ List.concat (List.map part_writes (image_buffer d3))
                   ++ [refresh_off_line] /\
    image_buffer d7 = [] /\
    (if r then lit "ok" ∈ complete_lines (pending_text d3)
     else Qgtb (clock d7 - clock d3) timeout = true).
Proof.
  unfold second_ok_wait.
  set (d5 := send_to_device _ (resend_image_data d3)).
  destruct (read_from_device d5) as [line d6] eqn:Hr.
  pose proof (read_from_device_stream d5) as Hs. rewrite Hr in Hs. cbn [fst snd] in Hs.
  pose proof (same_session_read d5) as Hsame. rewrite Hr in Hsame. cbn [snd] in Hsame.
  destruct (await_line_total (lit "ok") (clock d5) timeout line d6)
    as (fuel0 & r & d7 & Hrun & Hsame' & Hr').
  { intros l ->. eapply read_from_device_line, Hr. }
  exists fuel0, r, d7. split; [done|].
  pose proof (same_session_trans _ _ _ Hsame Hsame') as Hss.
  unfold same_session in Hss. destruct_and!.
  assert (d5 = with_ser_out
                 (ser_out d3 ++ List.concat (List.map part_writes (image_buffer d3))
                    ++ [refresh_off_line])
                 (with_image_buffer [] d3)) as Hd5.
  { subst d5. rewrite resend_image_data_out.
    unfold send_to_device, ser_write, with_ser_out, refresh_off_line. simpl.
    by rewrite <- !app_assoc. }
  split_and!; [| |].
  - replace (ser_out d7) with (ser_out d5) by done. by rewrite Hd5.
  - replace (image_buffer d7) with (image_buffer d5) by done. by rewrite Hd5.
  - rewrite Hs in Hr'. by rewrite Hd5 in Hr'.
Qed.

End UpdateDisplay.

(** On a port that answers "ok" at once the result is [None]; on a silent
    port it is [False], 5.1 seconds later. *)
Example update_display_ok_sample :
  exists d', update_display 10 true 5 false
               (new_device (Image := RawImage) [bytes_lit "ok
"] 0) = Ok PyNone d'.
Proof. eexists. vm_compute. reflexivity. Qed.

Example update_display_silent_sample :
  exists d', update_display 100 true 5 false (new_device (Image := RawImage) [] 0)
             = Ok (PyBool false) d' /\ (clock d' == 51 # 10)%Q.
Proof. eexists. split; [vm_compute; reflexivity|vm_compute; reflexivity]. Qed.

Section UpdateDisplayResend.
Context {Image : Type} `{Pillow Image} `{Protocol}.

Abbreviation Dev := (Device Image).

Lemma lit_ok_no_lf : LF ∉ lit "ok".
Proof. refine (bool_decide_unpack _ _). vm_compute. exact I. Qed.

Lemma first_ok_wait_finds (full : bool) (timeout : Q) (d : Dev)
    (noise : list pystr) (rest : pystr) :
  Forall (fun l => (LF ∉ l) /\ l <> lit "ok") noise ->
  pending_text d = unlines noise ++ lit "ok" ++ LF :: rest ->
  (inject_Z (Z.of_nat (length (ser_in d))) * (1 # 10) <= timeout)%Q ->
  exists (fuel0 : nat) (d3 : Dev),
    (forall fuel, (fuel0 <= fuel)%nat ->
       first_ok_wait fuel full timeout d = Ok true d3) /\
    pending_text d3 = rest /\
    ser_out d3 = ser_out d ++ [refresh_line full] /\
    image_buffer d3 = image_buffer d.
Proof.
  intros Hnoise Hstream Hbudget. unfold first_ok_wait.
  set (d1 := send_to_device _ d).
  destruct (read_from_device d1) as [line d2] eqn:Hr.
  pose proof (read_from_device_stream d1) as Hs. rewrite Hr in Hs. cbn [fst snd] in Hs.
  change (pending_text d1) with (pending_text d) in Hs. rewrite Hstream in Hs.
  pose proof (same_session_read d1) as Hsame. rewrite Hr in Hsame. cbn [snd] in Hsame.
  pose proof (read_from_device_clock d1) as Hc. rewrite Hr in Hc. cbn [snd] in Hc.
  pose proof (read_from_device_ser_in d1) as Hin. rewrite Hr in Hin. cbn [snd] in Hin.
  change (ser_in d1) with (ser_in d) in Hin. change (clock d1) with (clock d) in Hc.
  set (fuel0 := S (length noise + length (ser_in d2))).
  assert (forall (ls : list pystr) (d0 : Dev) (s : Q),
            same_session d1 d0 -> same_session d1 (time_sleep s d0)) as Hsl.
  { intros. eapply same_session_trans; [eassumption|apply same_session_sleep]. }
  assert (forall (ls : list pystr) (d0 : Dev),
            same_session d1 d0 -> same_session d1 (read_from_device d0).2) as Hrd.
  { intros. eapply same_session_trans; [eassumption|apply same_session_read]. }
  assert (forall (l : pystr) (ls : list pystr) (d0 : Dev),
            same_session d1 d0 ->
            exists d', @inr Exn Dev d0 = inr d' /\ same_session d1 d' /\
              inbuffer d' = inbuffer d0 /\ ser_in d' = ser_in d0 /\ clock d' = clock d0)
    as Hbd.
  { intros. eauto 10. }
  destruct (wait_loop_finds (fun _ d => inr d) (lit "ok") (clock d) timeout lit_ok_no_lf
              (fun _ d' => same_session d1 d') Hsl Hrd Hbd fuel0 noise rest line d2)
    as (d3 & Hrun & Hrest & Hsame' & _); try done.
  - intros l ->. eapply read_from_device_line, Hr.
  - intros ->. eapply read_from_device_None, Hr.
  - assert (length (ser_in d2) <= length (ser_in d))%nat as Hlen.
    { rewrite Hin. destruct (ser_in d); simpl; lia. }
    pose proof (inject_nat_le _ _ Hlen). rewrite Hc. lra.
  - subst fuel0. lia.
  - exists fuel0, d3. split_and!; [|done| |].
    + intros fuel Hfuel. rewrite await_line_wait_loop.
      rewrite (wait_loop_mono _ _ fuel0 fuel) by (rewrite ?Hrun; done). done.
    + unfold same_session in Hsame'. destruct_and!.
      replace (ser_out d3) with (ser_out d1) by done.
      subst d1. unfold refresh_line. simpl. by rewrite <- !app_assoc.
    + unfold same_session in Hsame'. destruct_and!.
      by replace (image_buffer d3) with (image_buffer d1).
Qed.

Lemma first_ok_wait_frame (fuel : nat) (full : bool) (timeout : Q) (d d3 : Dev)
    (r : bool) :
  first_ok_wait fuel full timeout d = Ok r d3 ->
  ser_out d3 = ser_out d ++ [refresh_line full] /\
  image_buffer d3 = image_buffer d.
Proof.
  unfold first_ok_wait. set (d1 := send_to_device _ d).
  destruct (read_from_device d1) as [line d2] eqn:Hr.
  pose proof (same_session_read d1) as Hsame. rewrite Hr in Hsame. cbn [snd] in Hsame.
  pose proof (await_line_same_session fuel (lit "ok") (clock d) timeout line d2) as Hsame'.
  intros Hrun. rewrite Hrun in Hsame'.
  pose proof (same_session_trans _ _ _ Hsame Hsame') as Hss.
  unfold same_session in Hss. destruct_and!. split.
  - replace (ser_out d3) with (ser_out d1) by done.
    subst d1. unfold refresh_line. simpl. by rewrite <- !app_assoc.
  - by replace (image_buffer d3) with (image_buffer d1).
Qed.

Lemma second_ok_wait_frame (fuel : nat) (timeout : Q) (d3 d7 : Dev) (r : bool) :
  second_ok_wait fuel timeout d3 = Ok r d7 ->
  ser_out d7 = ser_out d3 ++ List.concat (List.map part_writes (image_buffer d3))
                 ++ [refresh_off_line] /\
  image_buffer d7 = [].
Proof.
  unfold second_ok_wait.
  set (d5 := send_to_device _ (resend_image_data d3)).
  destruct (read_from_device d5) as [line d6] eqn:Hr.
  pose proof (same_session_read d5) as Hsame. rewrite Hr in Hsame. cbn [snd] in Hsame.
  pose proof (await_line_same_session fuel (lit "ok") (clock d5) timeout line d6) as Hsame'.
  intros Hrun. rewrite Hrun in Hsame'.
  pose proof (same_session_trans _ _ _ Hsame Hsame') as Hss.
  unfold same_session in Hss. destruct_and!.
  assert (d5 = with_ser_out
                 (ser_out d3 ++ List.concat (List.map part_writes (image_buffer d3))
                    ++ [refresh_off_line])
                 (with_image_buffer [] d3)) as Hd5.
  { subst d5. rewrite resend_image_data_out.
    unfold send_to_device, ser_write, with_ser_out, refresh_off_line. simpl.
    by rewrite <- !app_assoc. }
  split.
  - replace (ser_out d7) with (ser_out d5) by done. by rewrite Hd5.
  - replace (image_buffer d7) with (image_buffer d5) by done. by rewrite Hd5.
Qed.

(** C1, as amended.  With [buffer_data] set:
    - whenever the first wait ends by timeout, the call returns [False]
      having written the refresh command only, and the image buffer is
      untouched: nothing is retransmitted before the first "ok";
    - whenever the first wait gets its "ok" and the second ends by timeout,
      the call returns [False]; by then the buffered regions have been
      retransmitted in insertion order right after the refresh command,
      followed by the refresh-off command, and the image buffer is empty:
      [resend_image_data] empties it as soon as the regions are resent;
    - the first case occurs if no "ok" line ever arrives;
    - the second case occurs if an "ok" line arrives (after lines [noise],
      within the time the outstanding deliveries may take) and no further
      "ok" line follows. *)
Theorem update_display_resend (full : bool) (timeout : Q) (d : Dev) :
  (forall (fuel : nat) (d' : Dev),
     first_ok_wait fuel full timeout d = Ok false d' ->
     update_display fuel full timeout true d = Ok (PyBool false) d' /\
     ser_out d' = ser_out d ++ [refresh_line full] /\
     image_buffer d' = image_buffer d) /\
  (forall (fuel : nat) (d3 d' : Dev),
     first_ok_wait fuel full timeout d = Ok true d3 ->
     second_ok_wait fuel timeout d3 = Ok false d' ->
     update_display fuel full timeout true d = Ok (PyBool false) d' /\
     ser_out d' =
       ser_out d ++ [refresh_line full]
         ++ List.concat (List.map part_writes (image_buffer d))
         ++ [refresh_off_line] /\
     image_buffer d' = []) /\
  (lit "ok" ∉ complete_lines (pending_text d) ->
   exists (fuel0 : nat) (d' : Dev),
     (forall fuel, (fuel0 <= fuel)%nat ->
        update_display fuel full timeout true d = Ok (PyBool false) d') /\
     ser_out d' = ser_out d ++ [refresh_line full] /\
     image_buffer d' = image_buffer d) /\
  (forall (noise : list pystr) (rest : pystr),
     Forall (fun l => (LF ∉ l) /\ l <> lit "ok") noise ->
     pending_text d = unlines noise ++ lit "ok" ++ LF :: rest ->
     lit "ok" ∉ complete_lines rest ->
     (inject_Z (Z.of_nat (length (ser_in d))) * (1 # 10) <= timeout)%Q ->
     exists (fuel0 : nat) (d' : Dev),
       (forall fuel, (fuel0 <= fuel)%nat ->
          update_display fuel full timeout true d = Ok (PyBool false) d') /\
       ser_out d' =
         ser_out d ++ [refresh_line full]
           ++ List.concat (List.map part_writes (image_buffer d))
           ++ [refresh_off_line] /\
       image_buffer d' = []).
Proof.
  split_and!.
  - intros fuel d' Hrun1.
    destruct (first_ok_wait_frame _ _ _ _ _ _ Hrun1) as [Hout Hbuf].
    split_and!; [|done..]. rewrite update_display_unfold. by rewrite Hrun1.
  - intros fuel d3 d' Hrun1 Hrun2.
    destruct (first_ok_wait_frame _ _ _ _ _ _ Hrun1) as [Hout Hbuf].
    destruct (second_ok_wait_frame _ _ _ _ _ Hrun2) as [Hout2 Hbuf2].
    split_and!; [| |done].
    + rewrite update_display_unfold. by rewrite Hrun1, Hrun2.
    + rewrite Hout2, Hout, Hbuf. by rewrite <- !app_assoc.
  - intros Hno.
    destruct (first_ok_wait_total full timeout d) as (f1 & r1 & d3 & Hrun1 & Hout & Hbuf & Hr1).
    destruct r1; [done|].
    exists f1, d3. split_and!; [|done..].
    intros fuel Hfuel. rewrite update_display_unfold. by rewrite Hrun1.
  - intros noise rest Hnoise Hstream Hno Hbudget.
    destruct (first_ok_wait_finds full timeout d noise rest Hnoise Hstream Hbudget)
      as (f1 & d3 & Hrun1 & Hrest & Hout & Hbuf).
    destruct (second_ok_wait_total timeout d3) as (f2 & r2 & d7 & Hrun2 & Hout2 & Hbuf2 & Hr2).
    destruct r2; [by rewrite Hrest in Hr2|].
    exists (f1 `max` f2)%nat, d7. split_and!; [| |done].
    + intros fuel Hfuel. rewrite update_display_unfold.
      by rewrite Hrun1, Hrun2 by lia.
    + rewrite Hout2, Hout, Hbuf. by rewrite <- !app_assoc.
Qed.

End UpdateDisplayResend.

(** C1, counterexample.  One region is buffered by [send_image]; the device
    answers the refresh with a single "ok" and then stays silent.
    [update_display(buffer_data=True)] returns [False] after the second
    wait timed out, and the image buffer, non-empty before the call, is
    empty after it. *)
Lemma update_display_timeout_empties_buffer :
  let img := mkRaw (8, 1) [x81] in
  let d := (send_image 0 0 img (new_device [[]; bytes_lit "ok
"] 0)).2 in
  exists d',
    update_display 100 true 5 true d = Ok (PyBool false) d' /\
    image_buffer d = [mkPart 0 0 img] /\
    image_buffer d' = [].
Proof. eexists. split_and!; vm_compute; reflexivity. Qed.

Lemma eventually_unique {A : Type} (g : nat -> A) (f1 f2 : nat) (a b : A) :
  (forall fuel, (f1 <= fuel)%nat -> g fuel = a) ->
  (forall fuel, (f2 <= fuel)%nat -> g fuel = b) ->
  a = b.
Proof.
  intros Ha Hb. rewrite <- (Ha (f1 `max` f2)%nat), <- (Hb (f1 `max` f2)%nat) by lia. done.
Qed.

Section UpdateDisplayResult.
Context {Image : Type} `{Pillow Image} `{Protocol}.

Abbreviation Dev := (Device Image).

(** A wait loop only ever takes deliveries from the port. *)
Lemma wait_loop_ser_in (body : pystr -> Dev -> Exn + Dev) (target : pystr)
    (fuel : nat) (start timeout : Q) (line : option pystr) (d : Dev) :
  env_stable body ->
  match wait_loop body target fuel start timeout line d with
  | Ok _ d' | Raise _ d' => (length (ser_in d') <= length (ser_in d))%nat
  | OutOfFuel => True
  end.
Proof.
  intros Hbody. revert line d. induction fuel as [|fuel IH]; intros line d;
    cbn [wait_loop].
  - case_bool_decide; [lia|done].
  - case_bool_decide; [lia|].
    destruct (Qgtb (clock d - start) timeout); [lia|].
    destruct line as [l|].
    + destruct (body l d) as [e|d1] eqn:Hb; [lia|].
      destruct (Hbody _ _ _ Hb) as (_ & Hsi & _).
      destruct (read_from_device d1) as [line' d'] eqn:Hr.
      pose proof (read_from_device_ser_in d1) as Hin. rewrite Hr in Hin. cbn [snd] in Hin.
      specialize (IH line' d'). rewrite Hin, Hsi in IH.
      destruct (wait_loop _ _ _ _ _ _ _) as [? d''|? d''|]; [| |done];
        destruct (ser_in d); simpl in *; lia.
    + destruct (read_from_device _) as [line' d'] eqn:Hr.
      pose proof (read_from_device_ser_in (time_sleep (1 # 10) d)) as Hin.
      rewrite Hr in Hin. cbn [snd] in Hin.
      change (ser_in (time_sleep (1 # 10) d)) with (ser_in d) in Hin.
      specialize (IH line' d'). rewrite Hin in IH.
      destruct (wait_loop _ _ _ _ _ _ _) as [? d''|? d''|]; [| |done];
        destruct (ser_in d); simpl in *; lia.
Qed.

(** The wait for a line ends; with [true] it has read the line, and what
    is left to read is what followed it; with [false] the time is up. *)
Lemma await_line_read (target : pystr) (start timeout : Q)
    (line : option pystr) (d : Dev) :
  (forall l, line = Some l -> LF ∉ l) ->
  exists (fuel0 : nat) (r : bool) (d' : Dev),
    (forall fuel, (fuel0 <= fuel)%nat ->
       await_line fuel target start timeout line d = Ok r d') /\
    (length (ser_in d') <= length (ser_in d))%nat /\
    (if r then
       exists ls, Forall no_lf ls /\
         stream_from line d = unlines ls ++ target ++ LF :: pending_text d'
     else Qgtb (clock d' - start) timeout = true).
Proof.
  intros Hline.
  destruct (sleep_bound_exists (timeout - (clock d - start))) as [k Hk].
  set (n := length (complete_lines (stream_from line d))).
  pose proof (wait_loop_outcome _ target start timeout env_stable_inr
                (S (n + k)) n k line d Hline (le_n _) Hk (Nat.lt_succ_diag_r _)) as Hout.
  pose proof (wait_loop_ser_in (fun _ d => inr d) target (S (n + k)) start timeout
                line d env_stable_inr) as Hlen.
  destruct (wait_loop _ _ (S (n + k)) _ _ _ _) as [r d'|e d'|] eqn:E.
  - exists (S (n + k)), r, d'. split_and!; [|done|].
    + intros fuel Hfuel. rewrite await_line_wait_loop.
      rewrite (wait_loop_mono _ _ (S (n + k)) fuel) by (rewrite ?E; done). done.
    + destruct r; [|done]. destruct Hout as (ls & Hls & _ & Hst). eauto.
  - by destruct Hout as (l & d0 & _ & ?).
  - done.
Qed.

Lemma first_ok_wait_read (full : bool) (timeout : Q) (d : Dev) :
  exists (fuel0 : nat) (r : bool) (d3 : Dev),
    (forall fuel, (fuel0 <= fuel)%nat ->
       first_ok_wait fuel full timeout d = Ok r d3) /\
    (length (ser_in d3) <= length (ser_in d))%nat /\
    (if r then
       exists ls, Forall no_lf ls /\
         pending_text d = unlines ls ++ lit "ok" ++ LF :: pending_text d3
     else Qgtb (clock d3 - clock d) timeout = true).
Proof.
  unfold first_ok_wait. set (d1 := send_to_device _ d).
  destruct (read_from_device d1) as [line d2] eqn:Hr.
  pose proof (read_from_device_stream d1) as Hs. rewrite Hr in Hs. cbn [fst snd] in Hs.
  change (pending_text d1) with (pending_text d) in Hs.
  pose proof (read_from_device_ser_in d1) as Hin. rewrite Hr in Hin. cbn [snd] in Hin.
  change (ser_in d1) with (ser_in d) in Hin.
  destruct (await_line_read (lit "ok") (clock d) timeout line d2)
    as (fuel0 & r & d3 & Hrun & Hlen & Hr').
  { intros l ->. eapply read_from_device_line, Hr. }
  exists fuel0, r, d3. split_and!; [done| |by rewrite Hs in Hr'].
  rewrite Hin in Hlen. destruct (ser_in d); simpl in *; lia.
Qed.

Lemma second_ok_wait_start (d3 : Dev) :
  let d5 := send_to_device (CommandCode_REFRESH ++ lit " " ++ RefreshTypeCode_OFF)
              (resend_image_data d3) in
  pending_text d5 = pending_text d3 /\ ser_in d5 = ser_in d3 /\ clock d5 = clock d3.
Proof. intros d5. subst d5. by rewrite resend_image_data_out. Qed.

Lemma second_ok_wait_read (timeout : Q) (d3 : Dev) :
  exists (fuel0 : nat) (r : bool) (d7 : Dev),
    (forall fuel, (fuel0 <= fuel)%nat ->
       second_ok_wait fuel timeout d3 = Ok r d7) /\
    (if r then
       exists ls, Forall no_lf ls /\
         pending_text d3 = unlines ls ++ lit "ok" ++ LF :: pending_text d7
     else Qgtb (clock d7 - clock d3) timeout = true).
Proof.
  unfold second_ok_wait.
  destruct (second_ok_wait_start d3) as (Hp5 & _ & Hc5). cbv zeta in Hp5, Hc5.
  set (d5 := send_to_device _ (resend_image_data d3)) in *.
  destruct (read_from_device d5) as [line d6] eqn:Hr.
  pose proof (read_from_device_stream d5) as Hs. rewrite Hr in Hs. cbn [fst snd] in Hs.
  destruct (await_line_read (lit "ok") (clock d5) timeout line d6)
    as (fuel0 & r & d7 & Hrun & _ & Hr').
  { intros l ->. eapply read_from_device_line, Hr. }
  exists fuel0, r, d7. split; [done|].
  rewrite Hs, Hp5, Hc5 in Hr'. done.
Qed.

(** The second wait finds its "ok" under the same condition as the first. *)
Lemma second_ok_wait_finds (timeout : Q) (d3 : Dev)
    (noise : list pystr) (rest : pystr) :
  Forall (fun l => (LF ∉ l) /\ l <> lit "ok") noise ->
  pending_text d3 = unlines noise ++ lit "ok" ++ LF :: rest ->
  (inject_Z (Z.of_nat (length (ser_in d3))) * (1 # 10) <= timeout)%Q ->
  exists (fuel0 : nat) (d7 : Dev),
    (forall fuel, (fuel0 <= fuel)%nat ->
       second_ok_wait fuel timeout d3 = Ok true d7) /\
    pending_text d7 = rest.
Proof.
  intros Hnoise Hstream Hbudget. unfold second_ok_wait.
  destruct (second_ok_wait_start d3) as (Hp5 & Hi5 & _). cbv zeta in Hp5, Hi5.
  set (d5 := send_to_device _ (resend_image_data d3)) in *.
  destruct (read_from_device d5) as [line d6] eqn:Hr.
  pose proof (read_from_device_stream d5) as Hs. rewrite Hr in Hs. cbn [fst snd] in Hs.
  rewrite Hp5, Hstream in Hs.
  pose proof (read_from_device_clock d5) as Hc. rewrite Hr in Hc. cbn [snd] in Hc.
  pose proof (read_from_device_ser_in d5) as Hin. rewrite Hr in Hin. cbn [snd] in Hin.
  rewrite Hi5 in Hin.
  assert (forall l, line = Some l -> LF ∉ l) as Hline.
  { intros l ->. eapply read_from_device_line, Hr. }
  set (fuel0 := S (length noise + length (ser_in d6))).
  destruct (wait_loop_finds (fun _ d => inr d) (lit "ok") (clock d5) timeout
              lit_ok_no_lf (fun _ _ => True)
              ltac:(done) ltac:(done) ltac:(intros; eauto 10)
              fuel0 noise _ line d6 Hnoise Hs Hline)
    as (d7 & Hrun & Hrest & _ & _); try done.
  { intros ->. eapply read_from_device_None, Hr. }
  { assert (length (ser_in d6) <= length (ser_in d3))%nat as Hlen.
    { rewrite Hin. destruct (ser_in d3); simpl; lia. }
    pose proof (inject_nat_le _ _ Hlen). rewrite Hc. lra. }
  { subst fuel0. lia. }
  exists fuel0, d7. split; [|done].
  intros fuel Hfuel. rewrite await_line_wait_loop.
  rewrite (wait_loop_mono _ _ fuel0 fuel) by (rewrite ?Hrun; done). done.
Qed.

Lemma ok_among_lines (ls : list pystr) (rest : pystr) :
  Forall no_lf ls ->
  lit "ok" ∈ complete_lines (unlines ls ++ lit "ok" ++ LF :: rest).
Proof.
  intros Hls. rewrite complete_lines_unlines by done.
  rewrite complete_lines_app by apply lit_ok_no_lf.
  rewrite elem_of_app, elem_of_cons. auto.
Qed.

(** C10.  Given enough fuel, [update_display] returns, and what it returns
    is [False] or [None], never [True]: [False] exactly when the first wait
    ended by timeout, or, with [buffer_data], the first wait got its "ok"
    and the second ended by timeout (more than [timeout] seconds after the
    wait started); [None] exactly when every wait it ran got its "ok".
    Either value is falsy.
    In terms of what the port delivers: if no "ok" line is among the lines
    to come, the result is [False]; the result is [None] only if an "ok"
    line was read (with [buffer_data], a second one after it), and what is
    left to read is what followed it; and if the "ok" arrives within the
    time the outstanding deliveries may take, the result is [None] without
    [buffer_data], and with [buffer_data] it is [None] if a second "ok"
    follows and [False] if none does. *)
Theorem update_display_result (full buf : bool) (timeout : Q) (d : Dev) :
  exists (fuel0 : nat) (v : PyVal) (d' : Dev),
    (forall fuel, (fuel0 <= fuel)%nat ->
       update_display fuel full timeout buf d = Ok v d') /\
    truthy v = false /\
    match v with
    | PyBool false =>
        ((forall fuel, (fuel0 <= fuel)%nat ->
            first_ok_wait fuel full timeout d = Ok false d') /\
         Qgtb (clock d' - clock d) timeout = true) \/
        (buf = true /\
         exists d3,
           (forall fuel, (fuel0 <= fuel)%nat ->
              first_ok_wait fuel full timeout d = Ok true d3 /\
              second_ok_wait fuel timeout d3 = Ok false d') /\
           Qgtb (clock d' - clock d3) timeout = true)
    | PyNone =>
        exists d3,
          forall fuel, (fuel0 <= fuel)%nat ->
            first_ok_wait fuel full timeout d = Ok true d3 /\
            (if buf then second_ok_wait fuel timeout d3 = Ok true d' else d' = d3)
    | PyBool true => False
    end /\
    (lit "ok" ∉ complete_lines (pending_text d) -> v = PyBool false) /\
    (v = PyNone ->
     exists (ls : list pystr) (rest : pystr),
       Forall no_lf ls /\
       pending_text d = unlines ls ++ lit "ok" ++ LF :: rest /\
       if buf then
         exists ls2, Forall no_lf ls2 /\
           rest = unlines ls2 ++ lit "ok" ++ LF :: pending_text d'
       else rest = pending_text d') /\
    (forall (noise : list pystr) (rest : pystr),
       Forall (fun l => (LF ∉ l) /\ l <> lit "ok") noise ->
       pending_text d = unlines noise ++ lit "ok" ++ LF :: rest ->
       (inject_Z (Z.of_nat (length (ser_in d))) * (1 # 10) <= timeout)%Q ->
       if buf then
         (lit "ok" ∉ complete_lines rest -> v = PyBool false) /\
         (forall (noise2 : list pystr) (rest2 : pystr),
            Forall (fun l => (LF ∉ l) /\ l <> lit "ok") noise2 ->
            rest = unlines noise2 ++ lit "ok" ++ LF :: rest2 ->
            v = PyNone /\ pending_text d' = rest2)
       else v = PyNone /\ pending_text d' = rest).
Proof.
  destruct (first_ok_wait_read full timeout d) as (f1 & r1 & d3 & Hrun1 & Hlen1 & Hr1).
  assert (forall (noise : list pystr) (rest : pystr),
            Forall (fun l => (LF ∉ l) /\ l <> lit "ok") noise ->
            pending_text d = unlines noise ++ lit "ok" ++ LF :: rest ->
            (inject_Z (Z.of_nat (length (ser_in d))) * (1 # 10) <= timeout)%Q ->
            r1 = true /\ pending_text d3 = rest /\
            (inject_Z (Z.of_nat (length (ser_in d3))) * (1 # 10) <= timeout)%Q)
    as Hfound.
  { intros noise rest Hnoise Hstream Hbudget.
    destruct (first_ok_wait_finds full timeout d noise rest Hnoise Hstream Hbudget)
      as (f0 & d3' & Hrun' & Hrest' & _).
    pose proof (eventually_unique _ _ _ _ _ Hrun1 Hrun') as [= -> ->].
    split_and!; [done..|].
    pose proof (inject_nat_le _ _ Hlen1). lra. }
  destruct r1.
  - destruct Hr1 as (ls1 & Hls1 & Hst1). destruct buf.
    + destruct (second_ok_wait_read timeout d3) as (f2 & r2 & d7 & Hrun2 & Hr2).
      exists (f1 `max` f2)%nat, (if r2 then PyNone else PyBool false), d7.
      split_and!.
      * intros fuel Hfuel. rewrite update_display_unfold.
        rewrite Hrun1, Hrun2 by lia. by destruct r2.
      * by destruct r2.
      * destruct r2.
        -- exists d3. intros fuel Hfuel. rewrite Hrun1, Hrun2 by lia. done.
        -- right. split; [done|]. exists d3. split; [|done].
           intros fuel Hfuel. rewrite Hrun1, Hrun2 by lia. done.
      * intros Hno. exfalso. apply Hno. rewrite Hst1. by apply ok_among_lines.
      * intros Hv. destruct r2; [|done]. destruct Hr2 as (ls2 & Hls2 & Hst2).
        exists ls1, (pending_text d3). split_and!; [done..|]. by exists ls2.
      * intros noise rest Hnoise Hstream Hbudget.
        destruct (Hfound noise rest Hnoise Hstream Hbudget) as (_ & Hrest & Hbudget3).
        split.
        -- intros Hno. destruct r2; [|done]. exfalso. apply Hno.
           destruct Hr2 as (ls2 & Hls2 & Hst2). rewrite <- Hrest, Hst2.
           by apply ok_among_lines.
        -- intros noise2 rest2 Hnoise2 Hrest2. rewrite Hrest2 in Hrest.
           destruct (second_ok_wait_finds timeout d3 noise2 rest2 Hnoise2 Hrest Hbudget3)
             as (f0 & d7' & Hrun' & Hrest').
           pose proof (eventually_unique _ _ _ _ _ Hrun2 Hrun') as [= -> ->]. done.
    + exists f1, PyNone, d3. split_and!; [|done| | | |].
      * intros fuel Hfuel. rewrite update_display_unfold. by rewrite Hrun1.
      * exists d3. intros fuel Hfuel. by rewrite Hrun1.
      * intros Hno. exfalso. apply Hno. rewrite Hst1. by apply ok_among_lines.
      * intros _. exists ls1, (pending_text d3). done.
      * intros noise rest Hnoise Hstream Hbudget.
        destruct (Hfound noise rest Hnoise Hstream Hbudget) as (_ & Hrest & _). done.
  - exists f1, (PyBool false), d3. split_and!; [|done| |done|done|].
    + intros fuel Hfuel. rewrite update_display_unfold. by rewrite Hrun1.
    + left. split; [|done]. intros fuel Hfuel. by rewrite Hrun1.
    + intros noise rest Hnoise Hstream Hbudget.
      by destruct (Hfound noise rest Hnoise Hstream Hbudget) as (? & _).
Qed.

End UpdateDisplayResult.

(* ===================================================================== *)
(** * Handshake *)

Section Handshake.
Context {Image : Type} `{Pillow Image} `{Protocol}.

Abbreviation Dev := (Device Image).

Lemma handle_info_stable : env_stable (handle_info (Image := Image)).
Proof.
  intros l d d1. unfold handle_info.
  repeat case_match; intros [= <-]; done.
Qed.


Lemma lit_Inkkeys_no_lf : LF ∉ lit "Inkkeys".
Proof. refine (bool_decide_unpack _ _). vm_compute. exact I. Qed.

Lemma lit_Done_no_lf : LF ∉ lit "Done".
Proof. refine (bool_decide_unpack _ _). vm_compute. exact I. Qed.



End Handshake.


Section HandshakeTheorem.
Context {Image : Type} `{Pillow Image} `{Protocol}.

Abbreviation Dev := (Device Image).



End HandshakeTheorem.

(** A port that never sends the header, and one that sends the header and
    an info line but no "Done": [False] after a little more than the three
    seconds, in the second case with the value that was read. *)
Example request_info_failure_sample :
  (exists d', request_info 100 3 (new_device (Image := RawImage) [bytes_lit "boot
"] 0) = Ok false d' /\ (clock d' == 31 # 10)%Q) /\
  (exists d', request_info 100 3 (new_device (Image := RawImage) [bytes_lit "Inkkeys
N_LED 16
"] 0) = Ok false d' /\ (clock d' == 31 # 10)%Q /\ num_of_leds d' = 16).
Proof.
  split; eexists; (split; [vm_compute; reflexivity|]); [|split]; vm_compute; reflexivity.
Qed.

(* ===================================================================== *)
(** * Event dispatcher *)

Lemma is_digit_not_space (c : N) : is_digit c = true -> is_space c = false.
Proof.
  unfold is_digit, is_space. intros Hd.
  apply andb_true_iff in Hd as [H1 H2]. apply N.leb_le in H1, H2.
  replace (c <=? 13)%N with false by (symmetry; apply N.leb_gt; lia).
  replace (c =? 32)%N with false by (symmetry; apply N.eqb_neq; lia).
  replace (c =? 133)%N with false by (symmetry; apply N.eqb_neq; lia).
  replace (c =? 160)%N with false by (symmetry; apply N.eqb_neq; lia).
  by rewrite !andb_false_r.
Qed.

Lemma is_digit_not_sign (c : N) :
  is_digit c = true -> (c =? 45)%N = false /\ (c =? 43)%N = false.
Proof.
  unfold is_digit. intros Hd.
  apply andb_true_iff in Hd as [H1 H2]. apply N.leb_le in H1, H2.
  split; apply N.eqb_neq; lia.
Qed.

Lemma lstrip_head (c : N) (s : pystr) : is_space c = false -> lstrip (c :: s) = c :: s.
Proof. intros Hc. simpl. by rewrite Hc. Qed.

(** A text that neither starts nor ends with white space is its own
    [strip]. *)
Lemma strip_id (c e : N) (s : pystr) :
  is_space c = false -> is_space e = false ->
  strip (c :: s ++ [e]) = c :: s ++ [e].
Proof.
  intros Hc He. unfold strip. rewrite lstrip_head by done.
  assert (rev (c :: s ++ [e]) = e :: rev (c :: s)) as ->.
  { change (c :: s ++ [e]) with ((c :: s) ++ [e]). by rewrite rev_app_distr. }
  rewrite lstrip_head by done.
  change (e :: rev (c :: s)) with ([e] ++ rev (c :: s)).
  by rewrite rev_app_distr, rev_involutive.
Qed.

Lemma strip_single (c : N) : is_space c = false -> strip [c] = [c].
Proof. intros Hc. unfold strip. simpl. rewrite Hc. simpl. by rewrite Hc. Qed.

Lemma digit_groups_digits (b : bool) (ds : pystr) :
  forallb is_digit ds = true -> ds <> [] \/ b = true ->
  digit_groups b ds = Some ds.
Proof.
  revert b. induction ds as [|c ds IH]; intros b Hd Hne.
  - destruct Hne as [?| ->]; done.
  - simpl in *. apply andb_true_iff in Hd as [Hc Hd]. rewrite Hc.
    rewrite IH; auto.
Qed.

Lemma isdecimal_inv (ds : pystr) :
  isdecimal ds = true -> ds <> [] /\ forallb is_digit ds = true.
Proof. destruct ds; [done|]. intros Hd. split; done. Qed.

Lemma last_digit (ds : pystr) :
  ds <> [] -> forallb is_digit ds = true ->
  exists s e, ds = s ++ [e] /\ is_digit e = true.
Proof.
  intros Hne Hd. destruct (exists_last Hne) as (s & e & ->).
  exists s, e. split; [done|].
  rewrite forallb_app in Hd. apply andb_true_iff in Hd as [_ Hd].
  simpl in Hd. by rewrite andb_true_r in Hd.
Qed.

Lemma strip_digits (ds : pystr) : isdecimal ds = true -> strip ds = ds.
Proof.
  intros Hd. apply isdecimal_inv in Hd as [Hne Hd].
  destruct (last_digit ds Hne Hd) as (s & e & -> & He).
  destruct s as [|c s].
  - apply strip_single. by apply is_digit_not_space.
  - simpl in Hd. apply andb_true_iff in Hd as [Hc _].
    apply strip_id; by apply is_digit_not_space.
Qed.

Lemma filter_digits (ds : pystr) :
  forallb is_digit ds = true -> List.filter is_digit ds = ds.
Proof.
  induction ds as [|c ds IH]; simpl; [done|].
  intros Hd. apply andb_true_iff in Hd as [-> Hd]. by rewrite IH.
Qed.

Lemma digit_count_digits (ds : pystr) :
  isdecimal ds = true -> digit_count ds = Z.of_nat (length ds).
Proof.
  intros Hd. apply isdecimal_inv in Hd as [_ Hd].
  unfold digit_count. by rewrite filter_digits.
Qed.

Lemma digit_count_minus (ds : pystr) : digit_count (45%N :: ds) = digit_count ds.
Proof. reflexivity. Qed.

Lemma py_int_digits (ds : pystr) :
  isdecimal ds = true ->
  py_int ds = within_limit ds (digits_value ds).
Proof.
  intros Hd. unfold py_int. rewrite strip_digits by done.
  apply isdecimal_inv in Hd as [Hne Hd].
  destruct ds as [|c r]; [done|].
  pose proof Hd as Hd'. simpl in Hd'. apply andb_true_iff in Hd' as [Hc _].
  destruct (is_digit_not_sign c Hc) as [-> ->].
  rewrite digit_groups_digits; auto.
Qed.

Lemma py_int_minus_digits (ds : pystr) :
  isdecimal ds = true ->
  py_int (45%N :: ds) = within_limit ds (- digits_value ds).
Proof.
  intros Hdec. unfold py_int.
  apply isdecimal_inv in Hdec as [Hne Hd].
  destruct (last_digit ds Hne Hd) as (s & e & -> & He).
  rewrite strip_id by (done || by apply is_digit_not_space).
  rewrite N.eqb_refl. rewrite digit_groups_digits; auto.
Qed.

(** A run of [n] equal digits: [int] converts it up to 4300 digits and
    refuses it beyond, leading zeros included. *)
Lemma py_int_repeated_digit (n : nat) (c : N) :
  is_digit c = true -> (0 < n)%nat ->
  py_int (replicate n c) =
    if (n <=? 4300)%nat then Some (digits_value (replicate n c)) else None.
Proof.
  intros Hc Hn.
  assert (isdecimal (replicate n c) = true) as Hd.
  { destruct n as [|n]; [lia|]. unfold isdecimal.
    change (replicate (S n) c) with (c :: replicate n c) at 1.
    cbv iota. apply forallb_forall. intros x Hx.
    apply list_elem_of_In, elem_of_replicate in Hx as [-> _]. done. }
  rewrite py_int_digits by done. unfold within_limit, int_max_str_digits.
  rewrite length_replicate.
  destruct (Nat.leb_spec n 4300).
  - by rewrite (proj2 (Z.leb_le _ _)) by lia.
  - by rewrite (proj2 (Z.leb_gt _ _)) by lia.
Qed.

(** On a run of decimal digits, optionally preceded by '-', [int] gives the
    number the digits denote when there are at most [int_max_str_digits] of
    them, and raises [ValueError] when there are more. *)
Lemma py_int_jog_delta (rest : pystr) (n : Z) :
  jog_delta rest = Some n ->
  py_int rest = if digit_count rest <=? int_max_str_digits then Some n else None.
Proof.
  unfold jog_delta. destruct (isdecimal rest) eqn:Hd.
  - intros [= <-]. rewrite py_int_digits, digit_count_digits by done. done.
  - destruct rest as [|c ds]; [done|].
    destruct (N.eqb_spec c 45) as [->|_]; [|done]. simpl.
    destruct (isdecimal ds) eqn:Hds; [|done].
    intros [= <-].
    rewrite py_int_minus_digits, digit_count_minus, digit_count_digits by done. done.
Qed.

Section Dispatcher.
Context {Image : Type} `{Pillow Image} `{Protocol}.

Abbreviation Dev := (Device Image).

Lemma is_jog_line_delta (j : N) (rest : pystr) :
  KeyCode_JOG = [j] ->
  is_jog_line (j :: rest) =
  match jog_delta rest with
  | Some _ => Some true
  | None => match rest with [] => None | _ => Some false end
  end.
Proof.
  intros Hj. unfold is_jog_line, jog_delta. rewrite Hj, bool_decide_true by done.
  destruct (isdecimal rest); [done|]. destruct rest as [|c ds]; [done|].
  destruct (N.eqb_spec c 45) as [->|Hc].
  - rewrite bool_decide_true by done. simpl. by destruct (isdecimal ds).
  - by rewrite bool_decide_false by done.
Qed.

(** C3, as amended.  Let the jog key code be the single character [j] and
    let [poll] read the line [j :: rest].
    - If [rest] is a non-empty run of decimal digits, optionally preceded
      by '-', and denotes the integer [n], then with at most 4300 digits
      the registered jog handler is called with exactly [n]; with more
      digits [int] refuses the conversion and [poll] raises [ValueError],
      no handler called.
    - If [rest] is non-empty and of any other form (a leading '+'
      included), the line is looked up as a discrete code: the handler
      registered for the whole line is called without arguments, and a
      line equal to no registered code is dropped, no handler called. *)
Theorem poll_jog_lines (d d1 : Dev) (j : N) (rest : pystr) :
  KeyCode_JOG = [j] ->
  read_from_device d = (Some (j :: rest), d1) ->
  (forall (n : Z) (cb : Handler),
     jog_delta rest = Some n ->
     callbacks d !! KeyCode_JOG = Some cb ->
     (digit_count rest <= int_max_str_digits ->
      poll d = Ok (Some (CallJog cb n)) d1) /\
     (int_max_str_digits < digit_count rest ->
      poll d = Raise ValueError d1)) /\
  (jog_delta rest = None -> rest <> [] ->
     (forall cb : Handler,
        callbacks d !! (j :: rest) = Some cb -> poll d = Ok (Some (CallKey cb)) d1) /\
     (callbacks d !! (j :: rest) = None -> poll d = Ok None d1)).
Proof.
  intros Hj Hr.
  assert (callbacks d1 = callbacks d) as Hcb.
  { pose proof (same_session_read d) as Hs. rewrite Hr in Hs.
    unfold same_session in Hs. by destruct_and!. }
  unfold poll. rewrite Hr. unfold dispatch.
  rewrite (is_jog_line_delta j rest Hj), Hcb. split.
  - intros n cb Hn Hreg. rewrite Hn, Hreg.
    change (drop 1 (j :: rest)) with rest. rewrite (py_int_jog_delta rest n Hn).
    split; intros Hlen.
    + by apply Z.leb_le in Hlen as ->.
    + by apply Z.leb_gt in Hlen as ->.
  - intros Hnone Hne. rewrite Hnone. destruct rest as [|c ds]; [done|].
    split; [intros cb Hreg|intros Hreg]; by rewrite Hreg.
Qed.

End Dispatcher.

(** C3, counterexample.  With a jog handler registered under the jog code
    "R": the line "R+5", whose remainder [int] reads as 5, calls no handler;
    and the line "R", whose remainder is empty, makes [poll] raise
    [IndexError] on [input[1]] instead of being looked up or dropped. *)
Lemma poll_plus_sign_and_bare_jog :
  let h := {| h_owner := 0; h_id := 0 |} in
  let dev rx := register_callback h KeyCode_JOG (new_device (Image := RawImage) rx 0) in
  py_int (lit "+5") = Some 5 /\
  (exists d', poll (dev [bytes_lit "R+5
"]) = Ok None d') /\
  (exists d', poll (dev [bytes_lit "R
"]) = Raise IndexError d').
Proof. split_and!; [reflexivity|eexists; vm_compute; reflexivity..]. Qed.

Example poll_jog_sample :
  let h := {| h_owner := 0; h_id := 0 |} in
  let dev rx := register_callback h KeyCode_JOG (new_device (Image := RawImage) rx 0) in
  (exists d', poll (dev [bytes_lit "R-12
"]) = Ok (Some (CallJog h (-12))) d') /\
  (exists d', poll (dev [bytes_lit "R7
"]) = Ok (Some (CallJog h 7)) d') /\
  (exists d', poll (dev [bytes_lit "Rx
"]) = Ok None d').
Proof. split_and!; eexists; vm_compute; reflexivity. Qed.

(* ===================================================================== *)
(** * LED fade *)

Lemma land_shifted_mask (x k : Z) :
  0 <= k -> Z.land x (Z.shiftl 0xff k) = Z.shiftl (channel k x) k.
Proof.
  intros Hk. unfold channel. apply Z.bits_inj'. intros n Hn.
  rewrite Z.land_spec. destruct (Z.ltb_spec n k) as [Hlt|Hge].
  - rewrite !Z.shiftl_spec_low by done. apply andb_false_r.
  - rewrite !Z.shiftl_spec_high by lia.
    rewrite Z.land_spec, Z.shiftr_spec by lia. do 2 f_equal. lia.
Qed.

Lemma channel_range (k i : Z) : 0 <= channel k i < 256.
Proof.
  unfold channel. change 0xff with (Z.ones 8). rewrite Z.land_ones by lia.
  apply Z.mod_pos_bound. lia.
Qed.

(** Cutting [M*c*p] to an integer and dividing by [M] cuts [c*p]. *)
Lemma Qfloor_scaled (M c : Z) (p : Q) :
  0 < M -> Qfloor (inject_Z (c * M) * p) / M = Qfloor (inject_Z c * p).
Proof.
  intros HM. set (q := (inject_Z c * p)%Q).
  assert (inject_Z (c * M) * p == inject_Z M * q)%Q as Hq.
  { subst q. rewrite inject_Z_mult. ring. }
  rewrite Hq. pose proof (Qfloor_le q) as Hlo. pose proof (Qlt_floor q) as Hhi.
  set (z := Qfloor q) in *.
  assert (0 < inject_Z M)%Q as HMq by (change 0%Q with (inject_Z 0); by rewrite <- Zlt_Qlt).
  assert (M * z <= Qfloor (inject_Z M * q)) as H1.
  { rewrite <- (Qfloor_Z (M * z)). apply Qfloor_resp_le.
    rewrite inject_Z_mult. nra. }
  assert (Qfloor (inject_Z M * q) < M * (z + 1)) as H2.
  { rewrite Zlt_Qlt. eapply Qle_lt_trans; [apply Qfloor_le|].
    rewrite inject_Z_mult. rewrite inject_Z_plus in *. nra. }
  symmetry. apply Z.div_unique with (r := Qfloor (inject_Z M * q) - M * z); lia.
Qed.

Lemma scale_channel_range (p : Q) (c : Z) :
  (0 < p)%Q -> (p < 1)%Q -> 0 <= c < 256 -> 0 <= scale_channel p c < 256.
Proof.
  intros Hp0 Hp1 Hc. unfold scale_channel.
  assert (0 <= inject_Z c)%Q as Hc0 by (change 0%Q with (inject_Z 0); rewrite <- Zle_Qle; lia).
  assert (inject_Z c <= 255)%Q as Hc1 by (change 255%Q with (inject_Z 255); rewrite <- Zle_Qle; lia).
  split.
  - rewrite <- (Qfloor_Z 0). apply Qfloor_resp_le.
    change (inject_Z 0) with 0%Q. nra.
  - assert (Qfloor (inject_Z c * p) <= Qfloor (inject_Z 255))%Z as Hle.
    { apply Qfloor_resp_le. change (inject_Z 255) with 255%Q. nra. }
    rewrite Qfloor_Z in Hle. lia.
Qed.

(** One channel of [dim_led]: mask, scale, truncate, mask again. *)
Lemma dim_channel (p : Q) (i k : Z) :
  (0 < p)%Q -> (p < 1)%Q -> 0 <= k ->
  Z.land (int_of_Q (inject_Z (Z.land i (Z.shiftl 0xff k)) * p)) (Z.shiftl 0xff k) =
  Z.shiftl (scale_channel p (channel k i)) k.
Proof.
  intros Hp0 Hp1 Hk.
  rewrite (land_shifted_mask i k Hk), Z.shiftl_mul_pow2 by done.
  pose proof (channel_range k i) as Hc. set (c := channel k i) in *.
  assert (0 < 2 ^ k) as HM by (apply Z.pow_pos_nonneg; lia).
  assert (0 <= inject_Z (c * 2 ^ k) * p)%Q as Hnn.
  { assert (0 <= inject_Z (c * 2 ^ k))%Q
      by (change 0%Q with (inject_Z 0); rewrite <- Zle_Qle; nia).
    nra. }
  unfold int_of_Q. apply Qle_bool_iff in Hnn as ->.
  rewrite land_shifted_mask by done. f_equal.
  unfold channel at 1. rewrite Z.shiftr_div_pow2, Qfloor_scaled by done.
  pose proof (scale_channel_range p c Hp0 Hp1 Hc) as Hs. fold (scale_channel p c).
  change 0xff with (Z.ones 8). rewrite Z.land_ones by lia.
  apply Z.mod_small. lia.
Qed.

Lemma dim_led_faded (p : Q) (i : Z) :
  (0 < p)%Q -> (p < 1)%Q -> dim_led p i = faded p i.
Proof.
  intros Hp0 Hp1. unfold dim_led, faded, rgb.
  pose proof (dim_channel p i 16 Hp0 Hp1 ltac:(lia)) as H16.
  pose proof (dim_channel p i 8 Hp0 Hp1 ltac:(lia)) as H8.
  pose proof (dim_channel p i 0 Hp0 Hp1 ltac:(lia)) as H0.
  change (Z.shiftl 255 16) with 0xff0000 in H16.
  change (Z.shiftl 255 8) with 0xff00 in H8.
  change (Z.shiftl 255 0) with 0xff in H0.
  rewrite H16, H8, H0. by rewrite Z.shiftl_0_r.
Qed.

Section Fade.
Context {Image : Type} `{Pillow Image} `{Protocol}.

Abbreviation Dev := (Device Image).

(** C6.  With a frame [leds] stored at time [t0] and
    [p = (3.0 + 0.5 - elapsed) / 0.5]:
    - if [p >= 1], [fade_leds] changes nothing and writes nothing;
    - if [p <= 0], it clears the stored frame and writes one LED command of
      [num_of_leds] all-zero colours, after which [fade_leds] is a no-op at
      any later time;
    - otherwise it writes one LED command with the frame in which every
      channel of every colour is scaled by [p] and cut to an integer, and
      the stored frame and its time stamp stay as they were.
    In each case the bytes written to the port are given. *)
Theorem fade_leds_spec (d : Dev) (leds : list Z) (t0 : Q) :
  led_state d = Some leds ->
  led_set_time d = Some t0 ->
  let p := fade_factor (clock d - t0) in
  (p == (3 + (5 # 10) - (clock d - t0)) / (5 # 10))%Q /\
  ((1 <= p)%Q -> fade_leds d = Ok tt d) /\
  ((p <= 0)%Q ->
     let d1 := send_led (replicate (Z.to_nat (num_of_leds d)) (lit "000000"))
                 (with_led_state None d) in
     fade_leds d = Ok tt d1 /\ led_state d1 = None /\
     ser_out d1 =
       ser_out d ++
         [encode (CommandCode_LED ++ lit " " ++
                  join_sp (replicate (Z.to_nat (num_of_leds d)) (lit "000000")) ++
                  [LF])] /\
     forall s : Q, fade_leds (time_sleep s d1) = Ok tt (time_sleep s d1)) /\
  ((0 < p)%Q /\ (p < 1)%Q ->
     let d1 := send_led (List.map format_06x (List.map (faded p) leds)) d in
     fade_leds d = Ok tt d1 /\ led_state d1 = Some leds /\ led_set_time d1 = Some t0 /\
     ser_out d1 =
       ser_out d ++
         [encode (CommandCode_LED ++ lit " " ++
                  join_sp (List.map format_06x (List.map (faded p) leds)) ++ [LF])]).
Proof.
  intros Hst Ht p. split_and!.
  - subst p. unfold fade_factor. field.
  - intros Hp. unfold fade_leds. rewrite Hst, Ht. fold p.
    by apply Qle_bool_iff in Hp as ->.
  - intros Hp d1. split_and!; [|done| |done].
    2:{ subst d1. unfold send_led, send_to_device, ser_write. cbn [ser_out with_ser_out].
        by rewrite <- !app_assoc. }
    unfold fade_leds. rewrite Hst, Ht. fold p.
    assert (Qle_bool 1 p = false) as ->.
    { apply not_true_iff_false. rewrite Qle_bool_iff. lra. }
    by apply Qle_bool_iff in Hp as ->.
  - intros [Hp0 Hp1] d1. split_and!; [|done|done|].
    2:{ subst d1. unfold send_led, send_to_device, ser_write. cbn [ser_out with_ser_out].
        by rewrite <- !app_assoc. }
    unfold fade_leds. rewrite Hst, Ht. fold p.
    assert (Qle_bool 1 p = false) as ->.
    { apply not_true_iff_false. rewrite Qle_bool_iff. lra. }
    assert (Qle_bool p 0 = false) as ->.
    { apply not_true_iff_false. rewrite Qle_bool_iff. lra. }
    subst d1. do 3 f_equal. apply List.map_ext. intros i. by apply dim_led_faded.
Qed.

End Fade.

(** The frame [0xFF0000] set at time 0 on a one-LED device: untouched after
    1 s, sent at half brightness after 3.25 s, cleared and sent as zero
    after 3.6 s. *)
Example fade_leds_sample :
  let d0 := set_leds [0xff0000]
              (with_num_of_leds 1 (new_device (Image := RawImage) [] 0)) in
  let at_time t := with_clock t d0 in
  fade_leds (at_time 1%Q) = Ok tt (at_time 1%Q) /\
  (exists d', fade_leds (at_time (325 # 100)) = Ok tt d' /\
     ser_out d' = ser_out d0 ++ [bytes_lit "L 7f0000
"] /\ led_state d' = Some [0xff0000]) /\
  (exists d', fade_leds (at_time (36 # 10)) = Ok tt d' /\
     ser_out d' = ser_out d0 ++ [bytes_lit "L 000000
"] /\ led_state d' = None).
Proof. split_and!; [reflexivity|eexists; split_and!; reflexivity..]. Qed.

(* ===================================================================== *)
(** * Mode orchestrator *)

Section ModeSelection.
Context {Image : Type} `{Pillow Image} `{Protocol}.

Abbreviation Dev := (Device Image).

Lemma if_matching_mode_window (processes : gset pystr) (w : pystr)
    (rule : ModeRule Image) :
  if_matching_mode processes (Some w) rule = inr (rule_matches processes w rule).
Proof.
  unfold if_matching_mode, rule_matches.
  destruct (rule_process rule) as [p|]; simpl.
  - destruct (bool_decide (p ∈ processes)); simpl; [done|].
    destruct (rule_activeWindow rule) as [pattern|]; simpl; [|done].
    destruct (pattern w); by simpl.
  - destruct (rule_activeWindow rule) as [pattern|]; simpl; [|done].
    destruct (pattern w); by simpl.
Qed.

Lemma filter_modes_window (processes : gset pystr) (w : pystr)
    (modes : list (ModeRule Image)) :
  filter_modes processes (Some w) modes =
  inr (List.filter (rule_matches processes w) modes).
Proof.
  induction modes as [|rule modes IH]; simpl; [done|].
  rewrite if_matching_mode_window, IH. by destruct (rule_matches _ _ _).
Qed.

(** Once a window title is known, the mode check selects the first rule of
    the list whose predicate matches; the rules behind it play no part. *)
Lemma first_matching_mode_window (processes : gset pystr) (w : pystr)
    (before after : list (ModeRule Image)) (rule : ModeRule Image) :
  Forall (fun r => rule_matches processes w r = false) before ->
  rule_matches processes w rule = true ->
  first_matching_mode processes (Some w) (before ++ rule :: after) = inr rule.
Proof.
  intros Hbefore Hrule. unfold first_matching_mode. rewrite filter_modes_window.
  rewrite List.filter_app. simpl. rewrite Hrule.
  induction Hbefore as [|r before Hr _ IH]; simpl; [done|]. by rewrite Hr.
Qed.

(** With a predicate-free rule at the end, some rule is always selected,
    and it is the fallback when no other rule matches. *)
Lemma first_matching_mode_fallback (processes : gset pystr) (w : pystr)
    (rules : list (ModeRule Image)) (m : Mode Image) :
  Forall (fun r => rule_matches processes w r = false) rules ->
  first_matching_mode processes (Some w) (rules ++ [mkRule m None None]) =
  inr (mkRule m None None).
Proof. intros Hr. by apply first_matching_mode_window. Qed.

End ModeSelection.

(** C7, at the failing input.  On the first mode check [active_window] is
    still [None] when [get_active_window()] failed: evaluating the first
    window-title rule calls [pattern.match(None)], and the check ends in
    [TypeError] although the list ends in the fallback rule. *)
Lemma mode_check_without_window_raises :
  let d := new_device (Image := RawImage) [] 0 in
  first_matching_mode ∅ None sample_modes = inl TypeError /\
  mode_check None ∅ sample_modes (mkLoop None (Some 0%Q) None) d = Raise TypeError d.
Proof. split; reflexivity. Qed.

Example mode_check_first_match :
  let d := new_device (Image := RawImage) [] 0 in
  (exists l' d', mode_check (Some (lit "gimp Zoom")) ∅ sample_modes
                   (mkLoop None (Some 0%Q) None) d = Ok l' d' /\
                 mode_id <$> current_mode l' = Some 1%nat) /\
  (exists l' d', mode_check (Some (lit "xterm")) ∅ sample_modes
                   (mkLoop None (Some 0%Q) None) d = Ok l' d' /\
                 mode_id <$> current_mode l' = Some 3%nat).
Proof. split; do 2 eexists; (split; [vm_compute; reflexivity|reflexivity]). Qed.

Section ModeTransition.
Context {Image : Type} `{Pillow Image} `{Protocol}.

Abbreviation Dev := (Device Image).

Lemma dispatch_handler (line : pystr) (d d' : Dev) (c : Call) :
  dispatch line d = Ok (Some c) d' ->
  exists k, callbacks d !! k = Some (call_handler c).
Proof.
  unfold dispatch. destruct (is_jog_line line) as [[|]|]; [| |done].
  - destruct (callbacks d !! KeyCode_JOG) as [cb|] eqn:E; [|done].
    destruct (py_int _); [|done]. intros [= <- _]. eauto.
  - destruct (callbacks d !! line) as [cb|] eqn:E; [|done].
    intros [= <- _]. eauto.
Qed.

Lemma poll_handler (d d' : Dev) (c : Call) :
  poll d = Ok (Some c) d' ->
  exists k, callbacks d !! k = Some (call_handler c).
Proof.
  unfold poll. destruct (read_from_device d) as [[line|] d1] eqn:Hr; [|done].
  intros Hd. apply dispatch_handler in Hd as [k Hk]. exists k.
  pose proof (same_session_read d) as Hs. rewrite Hr in Hs. cbn [snd] in Hs.
  unfold same_session in Hs. destruct_and!. congruence.
Qed.

(** C8.  When the loop leaves a mode [old] that inherits
    [ModeBase.deactivate], the transition is: [deactivate] (which empties
    the callback table), the LED acknowledgement, [reset_display], and only
    then [activate] of the new mode, which therefore starts from an empty
    callback table.  If the new mode registers handlers of its own only,
    every handler in the table after the transition is one of the new
    mode's, and so is every handler a later [poll] calls. *)
Theorem switch_mode_clears_handlers (l : Loop Image) (old new : Mode Image) (d : Dev) :
  current_mode l = Some old ->
  deactivate old = ModeBase_deactivate ->
  let d1 := reset_display (send_led_animation 2 50 20 0 0 0 255 2 (clear_callbacks d)) in
  callbacks d1 = ∅ /\
  switch_mode l new d =
    match activate new d1 with
    | Ok _ d2 => Ok (mkLoop (Some new) (Some 0%Q) (active_window l)) d2
    | Raise e d2 => Raise e d2
    | OutOfFuel => OutOfFuel
    end /\
  (registers_own new ->
   forall (l' : Loop Image) (d2 : Dev),
     switch_mode l new d = Ok l' d2 ->
     (forall (k : pystr) (h : Handler),
        callbacks d2 !! k = Some h -> h_owner h = mode_id new) /\
     (forall (c : Call) (d3 : Dev),
        poll d2 = Ok (Some c) d3 -> h_owner (call_handler c) = mode_id new)).
Proof.
  intros Hcur Hde d1.
  assert (switch_mode l new d =
          match activate new d1 with
          | Ok _ d2 => Ok (mkLoop (Some new) (Some 0%Q) (active_window l)) d2
          | Raise e d2 => Raise e d2
          | OutOfFuel => OutOfFuel
          end) as Hsw.
  { unfold switch_mode, leave_mode. rewrite Hcur, Hde. reflexivity. }
  split_and!; [done|done|].
  intros Hown l' d2 Hrun. rewrite Hsw in Hrun.
  destruct (activate new d1) as [[] d2'|e d2'|] eqn:Hact; [|done..].
  injection Hrun as _ <-.
  assert (forall k h, callbacks d2' !! k = Some h -> h_owner h = mode_id new) as Htable.
  { intros k h Hk. destruct (Hown d1 d2' k h Hact Hk) as [?|Hold]; [done|].
    change (callbacks d1) with (∅ : gmap pystr Handler) in Hold.
    by rewrite lookup_empty in Hold. }
  split; [done|].
  intros c d3 Hpoll. apply poll_handler in Hpoll as [k Hk]. eauto.
Qed.

End ModeTransition.

(** C2, at a failing input.  A tick that started at time 0 and took 0.05 s,
    more than the frame budget, is followed by a sleep of 0.0833 s; a tick
    that took 0.01 s is followed by a sleep of 0.0433 s, not of the
    remaining 0.0233 s: the code adds the time the tick consumed to the
    budget instead of subtracting it. *)
Lemma frame_sleep_adds_elapsed :
  let after t := with_clock t (new_device (Image := RawImage) [] 0) in
  (exists secs, frame_sleep_duration 0 (after (5 # 100)) = Some secs /\
                (secs == 833 # 10000)%Q) /\
  (exists secs, frame_sleep_duration 0 (after (1 # 100)) = Some secs /\
                (secs == 433 # 10000)%Q).
Proof. split; eexists; (split; [reflexivity|vm_compute; reflexivity]). Qed.

Section FrameSleep.
Context {Image : Type} `{Pillow Image} `{Protocol}.

(** Whatever a tick took, the loop then sleeps that time plus 0.0333 s. *)
Lemma frame_sleep_duration_elapsed (now : Q) (d : Device Image) :
  (now <= clock d)%Q ->
  exists secs, frame_sleep_duration now d = Some secs /\
    (secs == (clock d - now) + (333 # 10000))%Q.
Proof.
  intros Hnow. unfold frame_sleep_duration.
  assert (Qgtb (clock d - now + (333 # 10000)) 0 = true) as ->.
  { apply Qgtb_true. lra. }
  eexists. split; [done|]. reflexivity.
Qed.

End FrameSleep.

(* ===================================================================== *)
(** * The theorems at concrete inputs *)

Lemma sample_mode_registers_own (id : nat) : registers_own (sample_mode id).
Proof.
  intros d d' k h [= <-] Hk. simpl in Hk.
  apply lookup_insert_Some in Hk as [[_ <-]|[_ Hk]]; [by left|by right].
Qed.

(** C1: one buffered region, a single "ok" delivered at the second read. *)
Lemma update_display_resend_witness :
  let img := mkRaw (8, 1) [x81] in
  let d := (send_image 0 0 img (new_device [[]; bytes_lit "ok
"] 0)).2 in
  exists (fuel0 : nat) (d' : Device RawImage),
    (forall fuel, (fuel0 <= fuel)%nat ->
       update_display fuel true 5 true d = Ok (PyBool false) d') /\
    ser_out d' =
      ser_out d ++ [refresh_line true]
        ++ List.concat (List.map part_writes (image_buffer d))
        ++ [refresh_off_line] /\
    image_buffer d' = [].
Proof.
  intros img d.
  apply (proj2 (proj2 (proj2 (update_display_resend true 5 d))) [] []).
  - constructor.
  - reflexivity.
  - apply not_elem_of_nil.
  - vm_compute. discriminate.
Defined.

(** C3: the line "R-12" with a jog handler registered under "R". *)
Lemma poll_jog_lines_witness :
  let h := {| h_owner := 0; h_id := 0 |} in
  let d := register_callback h KeyCode_JOG
             (new_device (Image := RawImage) [bytes_lit "R-12
"] 0) in
  poll d = Ok (Some (CallJog h (-12))) (read_from_device d).2.
Proof.
  intros h d.
  assert (digit_count (lit "-12") <= int_max_str_digits) as Hlen
    by (vm_compute; discriminate).
  exact (proj1 (proj1 (poll_jog_lines d (read_from_device d).2 82%N (lit "-12")
                         eq_refl eq_refl) (-12) h eq_refl eq_refl) Hlen).
Defined.


(** C6: the frame [0xFF0000], 3.25 s after it was set. *)
Lemma fade_leds_spec_witness :
  let d := with_clock (325 # 100)
             (set_leds [0xff0000]
                (with_num_of_leds 1 (new_device (Image := RawImage) [] 0))) in
  exists d1,
    fade_leds d = Ok tt d1 /\ led_state d1 = Some [0xff0000] /\
    led_set_time d1 = Some 0%Q /\
    ser_out d1 = ser_out d ++ [bytes_lit "L 7f0000
"].
Proof.
  intros d.
  assert ((0 < fade_factor (clock d - 0))%Q /\ (fade_factor (clock d - 0) < 1)%Q) as Hp
    by (split; reflexivity).
  pose proof (proj2 (proj2 (proj2 (fade_leds_spec d [0xff0000] 0%Q eq_refl eq_refl))) Hp)
    as (Hrun & Hst & Ht & Hout).
  eexists. split_and!; [exact Hrun|exact Hst|exact Ht|].
  rewrite Hout. reflexivity.
Defined.

(** C8: leaving sample mode 1, with its handler registered, for mode 3. *)
Lemma switch_mode_clears_handlers_witness :
  let old := sample_mode 1 in
  let new := sample_mode 3 in
  let d := register_callback {| h_owner := 1; h_id := 0 |} (lit "4p")
             (new_device (Image := RawImage) [bytes_lit "4p
"] 0) in
  let l := mkLoop (Some old) (Some 10%Q) (Some (lit "xterm")) in
  exists (l' : Loop RawImage) (d2 : Device RawImage),
    switch_mode l new d = Ok l' d2 /\
    (forall (k : pystr) (h : Handler),
       callbacks d2 !! k = Some h -> h_owner h = 3%nat) /\
    (forall (c : Call) (d3 : Device RawImage),
       poll d2 = Ok (Some c) d3 -> h_owner (call_handler c) = 3%nat).
Proof.
  intros old new d l. eexists _, _. split; [reflexivity|].
  exact (proj2 (proj2 (switch_mode_clears_handlers l old new d eq_refl eq_refl))
           (sample_mode_registers_own 3) _ _ eq_refl).
Defined.

(* ===================================================================== *)
(** * Further properties: transport *)

Lemma complete_lines_nil (s : pystr) : complete_lines s = [] -> LF ∉ s.
Proof.
  rewrite complete_lines_split. destruct (split_nl s) as [[l r]|] eqn:E; [done|].
  intros _. by apply split_nl_None.
Qed.

Lemma chunks_count (fuel : nat) (data : list byte) :
  (length data <= fuel)%nat ->
  length (chunks fuel data) = ((length data + 99) / 100)%nat.
Proof.
  revert data. induction fuel as [|fuel IH]; intros data Hlen.
  - destruct data; [done|simpl in Hlen; lia].
  - destruct data as [|b data']; [done|].
    change (chunks (S fuel) (b :: data')) with
      (take CHUNK_SIZE (b :: data') :: chunks fuel (drop CHUNK_SIZE (b :: data'))).
    cbn [length]. rewrite IH by (rewrite length_drop; unfold CHUNK_SIZE; simpl in *; lia).
    rewrite length_drop. unfold CHUNK_SIZE. cbn [length].
    destruct (decide (S (length data') <= 100)%nat) as [Hs|Hs].
    + replace (S (length data') - 100)%nat with 0%nat by lia.
      change ((0 + 99) / 100)%nat with 0%nat.
      apply (Nat.div_unique _ _ _ (S (length data') + 99 - 100)); lia.
    + replace (S (length data') + 99)%nat
        with ((S (length data') - 100 + 99) + 1 * 100)%nat by lia.
      rewrite Nat.div_add by lia. lia.
Qed.

Lemma byte_of_N_lf (n : N) : byte_of_N n = x0a -> n = 10%N.
Proof.
  unfold byte_of_N. destruct (Byte.of_N n) as [b|] eqn:E; [|done].
  intros ->. by apply Byte.to_of_N in E.
Qed.

Lemma encode_char_no_lf (c : N) : c <> LF -> x0a ∉ encode_char c.
Proof.
  intros Hc Hin. unfold encode_char in Hin.
  repeat case_match;
    repeat (apply elem_of_cons in Hin as [Hin|Hin];
            [symmetry in Hin; apply byte_of_N_lf in Hin|]);
    try (by apply elem_of_nil in Hin);
    try (unfold LF in Hc; lia);
    match type of Hin with
    | (_ + ?x)%N = _ => pose proof (N.le_0_l x); lia
    end.
Qed.

Lemma encode_no_lf (s : pystr) : LF ∉ s -> x0a ∉ encode s.
Proof.
  induction s as [|c s IH]; intros Hs; unfold encode; simpl.
  - apply not_elem_of_nil.
  - apply not_elem_of_cons in Hs as [Hc Hs].
    rewrite not_elem_of_app. split; [by apply encode_char_no_lf|by apply IH].
Qed.

Lemma encode_app (s t : pystr) : encode (s ++ t) = encode s ++ encode t.
Proof. unfold encode. by rewrite List.map_app, List.concat_app. Qed.

Lemma decode_encode_ascii (s : pystr) :
  Forall (fun c => (c < 128)%N) s -> decode (encode s) = s /\ length (encode s) = length s.
Proof.
  induction 1 as [|c s Hc _ [IH1 IH2]]; [done|].
  change (encode (c :: s)) with (encode_char c ++ encode s).
  rewrite decode_app, length_app, IH1, IH2.
  unfold encode_char. apply N.ltb_lt in Hc as Hc'. rewrite Hc'.
  assert (decode_byte (byte_of_N c) = c) as Hd.
  { unfold byte_of_N. destruct (Byte.of_N c) as [b|] eqn:E.
    - apply Byte.to_of_N in E. subst c. by apply decode_ascii.
    - apply Byte.of_N_None_iff in E. lia. }
  simpl. by rewrite Hd.
Qed.

Section TransportExtras.
Context {Image : Type} `{Pillow Image} `{Protocol}.

Abbreviation Dev := (Device Image).

(** X1.  However the bytes are split into deliveries, enough successive
    reads return exactly the complete lines of the pending text, in order;
    then the port is drained and the line buffer holds the unterminated
    rest. *)
Theorem read_lines_complete (n : nat) (d : Dev) :
  (length (ser_in d) + length (complete_lines (pending_text d)) <= n)%nat ->
  (read_lines n d).1 = complete_lines (pending_text d) /\
  ser_in (read_lines n d).2 = [] /\
  (LF ∉ inbuffer (read_lines n d).2) /\
  pending_text d = unlines (read_lines n d).1 ++ inbuffer (read_lines n d).2.
Proof.
  revert d. induction n as [|n IH]; intros d Hn.
  - assert (ser_in d = []) as Hsi by (destruct (ser_in d); [done|simpl in Hn; lia]).
    assert (complete_lines (pending_text d) = []) as Hcl
      by (destruct (complete_lines _); [done|simpl in Hn; lia]).
    assert (pending_text d = inbuffer d) as Hp.
    { unfold pending_text. rewrite Hsi. simpl. by rewrite app_nil_r. }
    simpl. rewrite Hcl. split_and!; [done|done| |by rewrite Hp].
    rewrite <- Hp. by apply complete_lines_nil.
  - cbn [read_lines].
    destruct (read_from_device d) as [line d1] eqn:Hr.
    pose proof (read_from_device_stream d) as Hs. rewrite Hr in Hs. cbn [fst snd] in Hs.
    pose proof (read_from_device_ser_in d) as Hin. rewrite Hr in Hin. cbn [snd] in Hin.
    specialize (IH d1).
    destruct (read_lines n d1) as [ls d2] eqn:Hrl. cbn [fst snd] in *.
    destruct line as [l|]; cbn [stream_from] in Hs.
    + pose proof (read_from_device_line _ _ _ Hr) as Hl.
      rewrite <- Hs in *. rewrite complete_lines_app in * by done.
      destruct IH as (-> & ? & ? & Hp).
      { rewrite Hin. cbn [length] in Hn. destruct (ser_in d); simpl in *; lia. }
      split_and!; [done..|].
      rewrite unlines_cons, <- app_assoc. simpl. by rewrite <- Hp.
    + rewrite <- Hs in *.
      destruct IH as (-> & ? & ? & Hp); [|by rewrite <- Hp].
      rewrite Hin. destruct (ser_in d) as [|w later] eqn:Hsi; [|simpl in *; lia].
      assert (pending_text d1 = inbuffer d1) as Hp1.
      { unfold pending_text. rewrite Hin. simpl. by rewrite app_nil_r. }
      pose proof (read_from_device_None _ _ Hr) as Hno.
      rewrite Hp1. rewrite (complete_lines_split (inbuffer d1)), split_nl_no_lf by done.
      simpl. lia.
Qed.

(** X2.  [send_binary_to_device] issues exactly [ceil(len(data) / 100)]
    writes, none at all for empty data, and touches nothing but the port's
    output: with the output log put back, the device is as before. *)
Theorem send_binary_to_device_count (data : list byte) (d : Dev) :
  length (ser_out (send_binary_to_device data d)) =
    (length (ser_out d) + (length data + 99) / 100)%nat /\
  (data = [] -> send_binary_to_device data d = d) /\
  with_ser_out (ser_out d) (send_binary_to_device data d) = d.
Proof.
  rewrite send_binary_to_device_out. split_and!.
  - simpl. by rewrite length_app, chunks_count.
  - intros ->. simpl. apply with_ser_out_same.
  - by destruct d.
Qed.

(** X3.  A command without a line feed goes out as one line: the write is
    the UTF-8 encoding of the command ([str.encode()]) followed by the byte
    0x0A, and contains no other 0x0A; and an all-ASCII command is written
    byte for character, so that decoding what was written gives the command
    back. *)
Theorem send_to_device_one_line (command : pystr) (d : Dev) :
  LF ∉ command ->
  ser_out (send_to_device command d) = ser_out d ++ [encode command ++ [x0a]] /\
  (x0a ∉ encode command) /\
  (Forall (fun c => (c < 128)%N) command ->
   decode (encode command) = command /\ length (encode command) = length command).
Proof.
  intros Hc. split_and!.
  - unfold send_to_device, ser_write. simpl. by rewrite encode_app.
  - by apply encode_no_lf.
  - apply decode_encode_ascii.
Qed.

End TransportExtras.

(* ===================================================================== *)
(** * Further properties: event dispatcher *)

Section DispatcherExtras.
Context {Image : Type} `{Pillow Image} `{Protocol}.

Abbreviation Dev := (Device Image).

Lemma read_from_device_with_callbacks (c : gmap pystr Handler) (d : Dev) :
  read_from_device (with_callbacks c d) =
  ((read_from_device d).1, with_callbacks c (read_from_device d).2).
Proof.
  rewrite !read_from_device_unfold. simpl.
  by destruct (split_nl _) as [[cmd rest]|].
Qed.

Lemma with_callbacks_twice (c c' : gmap pystr Handler) (d : Dev) :
  with_callbacks c (with_callbacks c' d) = with_callbacks c d.
Proof. reflexivity. Qed.

Lemma callbacks_with_callbacks (c : gmap pystr Handler) (d : Dev) :
  callbacks (with_callbacks c d) = c.
Proof. reflexivity. Qed.

Lemma poll_with_callbacks (c : gmap pystr Handler) (d d1 : Dev) (line : pystr) :
  read_from_device d = (Some line, d1) ->
  poll (with_callbacks c d) = dispatch line (with_callbacks c d1).
Proof.
  intros Hr. unfold poll. rewrite read_from_device_with_callbacks, Hr. done.
Qed.

(** X4.  A non-empty line that does not start with the jog key code is
    matched as a whole against the registered codes: the handler
    registered for exactly this line is called without arguments, and if
    there is none the line is dropped. *)
Theorem poll_discrete_lines (d d1 : Dev) (c : N) (rest : pystr) :
  read_from_device d = (Some (c :: rest), d1) ->
  [c] <> KeyCode_JOG ->
  (forall cb : Handler,
     callbacks d !! (c :: rest) = Some cb -> poll d = Ok (Some (CallKey cb)) d1) /\
  (callbacks d !! (c :: rest) = None -> poll d = Ok None d1).
Proof.
  intros Hr Hc.
  assert (callbacks d1 = callbacks d) as Hcb.
  { pose proof (same_session_read d) as Hs. rewrite Hr in Hs. cbn [snd] in Hs.
    unfold same_session in Hs. by destruct_and!. }
  unfold poll. rewrite Hr. unfold dispatch, is_jog_line.
  rewrite bool_decide_false, Hcb by done.
  split; [intros cb Hreg|intros Hreg]; by rewrite Hreg.
Qed.

(** X5.  An empty line, and a line that consists of the jog key code
    alone, make [poll] raise [IndexError]; the line is consumed all the
    same. *)
Theorem poll_short_line_raises (d d1 : Dev) (line : pystr) :
  read_from_device d = (Some line, d1) ->
  line = [] \/ line = KeyCode_JOG /\ length line = 1%nat ->
  poll d = Raise IndexError d1 /\
  pending_text d = line ++ LF :: pending_text d1.
Proof.
  intros Hr Hline. split.
  - unfold poll. rewrite Hr. unfold dispatch, is_jog_line.
    destruct Hline as [->|[Hj Hlen]]; [done|].
    destruct line as [|j [|? ?]]; try done.
    by rewrite <- Hj, bool_decide_true.
  - pose proof (read_from_device_stream d) as Hs. by rewrite Hr in Hs.
Qed.

(** X6.  A well-formed jog line never reaches discrete matching: with no
    jog handler registered it is dropped, even when a handler is
    registered under the very text of the line. *)
Theorem poll_jog_line_unregistered (d d1 : Dev) (j : N) (rest : pystr)
    (n : Z) (cb : Handler) :
  KeyCode_JOG = [j] ->
  read_from_device d = (Some (j :: rest), d1) ->
  jog_delta rest = Some n ->
  callbacks d !! KeyCode_JOG = None ->
  callbacks d !! (j :: rest) = Some cb ->
  poll d = Ok None d1.
Proof.
  intros Hj Hr Hn Hnone _.
  assert (callbacks d1 = callbacks d) as Hcb.
  { pose proof (same_session_read d) as Hs. rewrite Hr in Hs. cbn [snd] in Hs.
    unfold same_session in Hs. by destruct_and!. }
  unfold poll. rewrite Hr. unfold dispatch.
  by rewrite (is_jog_line_delta j rest Hj), Hn, Hcb, Hnone.
Qed.

(** X7.  Registering and clearing, as the next received line sees them: a
    line [key] that is not a jog line calls the handler just registered
    for it (replacing any earlier one); after [clear_callback key], after
    registering and clearing, and after [clear_callbacks], it calls none;
    clearing another key leaves its handler in place. *)
Theorem callbacks_round_trip (d d1 : Dev) (key other : pystr) (cb : Handler) :
  read_from_device d = (Some key, d1) ->
  is_jog_line key = Some false ->
  poll (register_callback cb key d) =
    Ok (Some (CallKey cb)) (register_callback cb key d1) /\
  poll (clear_callback key d) = Ok None (clear_callback key d1) /\
  poll (clear_callback key (register_callback cb key d)) =
    Ok None (clear_callback key (register_callback cb key d1)) /\
  poll (clear_callbacks d) = Ok None (clear_callbacks d1) /\
  (other <> key ->
   poll (clear_callback other (register_callback cb key d)) =
     Ok (Some (CallKey cb)) (clear_callback other (register_callback cb key d1))).
Proof.
  intros Hr Hkey.
  assert (callbacks d1 = callbacks d) as Hcb.
  { pose proof (same_session_read d) as Hs. rewrite Hr in Hs. cbn [snd] in Hs.
    unfold same_session in Hs. by destruct_and!. }
  unfold register_callback, clear_callback, clear_callbacks.
  rewrite !with_callbacks_twice, !callbacks_with_callbacks, Hcb.
  split_and!; [| | | |intros Hne];
    rewrite (poll_with_callbacks _ d d1 key Hr); unfold dispatch;
    rewrite Hkey, callbacks_with_callbacks.
  - by rewrite lookup_insert_eq.
  - by rewrite lookup_delete_eq.
  - by rewrite lookup_delete_eq.
  - by rewrite lookup_empty.
  - by rewrite lookup_delete_ne, lookup_insert_eq.
Qed.

(** X8.  What [poll] does besides running a handler.  Whatever the
    handlers do, [poll] first reaches a state in which at most one delivery
    has been taken from the port, no time has passed, and nothing was
    written nor the callback table, the image buffer or the LED state
    changed; in that state it either returns, or raises [IndexError] or
    [ValueError], or runs exactly one handler, whose outcome is the outcome
    of [poll].  When the delivery at hand completes no line, no handler
    runs. *)
Theorem poll_frame (run : Call -> Dev -> Res Image unit) (d : Dev) :
  exists d1 : Dev,
    same_session d d1 /\ ser_in d1 = tail (ser_in d) /\ clock d1 = clock d /\
    (run_poll run d = Ok tt d1 \/
     (exists e, run_poll run d = Raise e d1 /\ (e = IndexError \/ e = ValueError)) \/
     (exists c, poll d = Ok (Some c) d1 /\ run_poll run d = run c d1)) /\
    (LF ∉ (inbuffer d ++ remove_cr (decode (hd [] (ser_in d)))) ->
     run_poll run d = Ok tt d1).
Proof.
  unfold run_poll, poll.
  pose proof (same_session_read d) as Hs.
  pose proof (read_from_device_ser_in d) as Hin.
  pose proof (read_from_device_clock d) as Hc.
  pose proof (read_from_device_unfold d) as Hu. cbv zeta in Hu.
  destruct (read_from_device d) as [[line|] d1]; cbn [snd] in *.
  - assert (LF ∉ (inbuffer d ++ remove_cr (decode (hd [] (ser_in d)))) -> False) as Hlf.
    { intros Hno. rewrite split_nl_no_lf in Hu by done. done. }
    exists d1. split_and!; [done..| |by intros ?%Hlf].
    unfold dispatch. destruct (is_jog_line line) as [[|]|].
    + destruct (callbacks d1 !! KeyCode_JOG) as [cb|]; [|by left].
      destruct (py_int _) as [n|].
      * right; right. by eexists.
      * right; left. exists ValueError. auto.
    + destruct (callbacks d1 !! line) as [cb|]; [|by left].
      right; right. by eexists.
    + right; left. exists IndexError. auto.
  - exists d1. split_and!; [done..|by left|done].
Qed.

End DispatcherExtras.

(* ===================================================================== *)
(** * Further properties: handshake and connect *)

Section WaitLoopRaises.
Context {Image : Type} `{Pillow Image} `{Protocol}.

Abbreviation Dev := (Device Image).

Variable body : pystr -> Dev -> Exn + Dev.
Variable target : pystr.
Variables start timeout : Q.

Variable Inv : list pystr -> Dev -> Prop.
Hypothesis Inv_sleep : forall ls d s, Inv ls d -> Inv ls (time_sleep s d).
Hypothesis Inv_read : forall ls d, Inv ls d -> Inv ls (read_from_device d).2.
Hypothesis Inv_body : forall l ls d, Inv (l :: ls) d ->
  exists d1, body l d = inr d1 /\ Inv ls d1 /\
    inbuffer d1 = inbuffer d /\ ser_in d1 = ser_in d /\ clock d1 = clock d.

(** If the text still to come consists of lines [ls] the body handles,
    none of them the awaited one, and then a line on which the body
    raises, the loop ends with that exception. *)
Lemma wait_loop_raises (fuel : nat) (ls : list pystr) (bad rest : pystr) (e : Exn)
    (line : option pystr) (d : Dev) :
  Forall (fun l => (LF ∉ l) /\ l <> target) ls ->
  LF ∉ bad -> bad <> target ->
  (forall d0, Inv [] d0 -> body bad d0 = inl e) ->
  stream_from line d = unlines ls ++ bad ++ LF :: rest ->
  (forall l, line = Some l -> LF ∉ l) ->
  (line = None -> LF ∉ inbuffer d) ->
  (clock d - start + inject_Z (Z.of_nat (length (ser_in d))) * (1 # 10) <= timeout)%Q ->
  Inv ls d ->
  (length ls + length (ser_in d) < fuel)%nat ->
  exists d',
    wait_loop body target fuel start timeout line d = Raise e d' /\ Inv [] d'.
Proof.
  intros Hls Hbad Hne Hraise. revert ls line d Hls.
  induction fuel as [|fuel IH];
    intros ls line d Hls Hstream Hline Hnone Hbudget HInv Hfuel; [lia|].
  cbn [wait_loop].
  pose proof (inject_nat_nonneg (length (ser_in d))) as Hnn.
  destruct line as [l|].
  - cbn [stream_from] in Hstream. specialize (Hline l eq_refl).
    destruct ls as [|l0 ls].
    + simpl in Hstream.
      apply first_line_unique in Hstream as [-> Hrest]; [|done..].
      rewrite bool_decide_false by congruence.
      assert (Qgtb (clock d - start) timeout = false) as -> by (apply Qgtb_false; lra).
      rewrite (Hraise d HInv). eauto.
    + rewrite unlines_cons in Hstream. simpl in Hstream. rewrite <- app_assoc in Hstream.
      apply Forall_cons in Hls as [[Hl0 Hne0] Hls].
      apply first_line_unique in Hstream as [-> Hrest]; [|done..].
      rewrite bool_decide_false by congruence.
      assert (Qgtb (clock d - start) timeout = false) as -> by (apply Qgtb_false; lra).
      destruct (Inv_body _ _ _ HInv) as (d1 & -> & HInv1 & Hib & Hsi & Hck).
      destruct (read_from_device d1) as [line' d'] eqn:Hr.
      pose proof (read_from_device_stream d1) as Hs. rewrite Hr in Hs. cbn [fst snd] in Hs.
      rewrite (pending_text_env d d1), Hrest in Hs by done.
      pose proof (read_from_device_clock d1) as Hc. rewrite Hr in Hc. cbn [snd] in Hc.
      pose proof (read_from_device_ser_in d1) as Hin. rewrite Hr in Hin. cbn [snd] in Hin.
      pose proof (Inv_read _ _ HInv1) as HInv'. rewrite Hr in HInv'. cbn [snd] in HInv'.
      assert (length (ser_in d') <= length (ser_in d))%nat as Hlen.
      { rewrite Hin, Hsi. destruct (ser_in d); simpl; lia. }
      apply (IH ls line' d'); try done.
      * intros l' ->. eapply read_from_device_line, Hr.
      * intros ->. eapply read_from_device_None, Hr.
      * pose proof (inject_nat_le _ _ Hlen). rewrite Hc, Hck. lra.
      * simpl in Hfuel. lia.
  - rewrite bool_decide_false by done. cbn [stream_from] in Hstream.
    assert (Qgtb (clock d - start) timeout = false) as -> by (apply Qgtb_false; lra).
    destruct (ser_in d) as [|waiting later] eqn:Hsi.
    { exfalso. apply (Hnone eq_refl).
      unfold pending_text in Hstream. rewrite Hsi in Hstream. simpl in Hstream.
      rewrite app_nil_r in Hstream. rewrite Hstream. apply elem_of_unlines_lf. }
    destruct (read_from_device (time_sleep (1 # 10) d)) as [line' d'] eqn:Hr.
    pose proof (read_from_device_stream (time_sleep (1 # 10) d)) as Hs.
    rewrite Hr in Hs. cbn [fst snd] in Hs.
    change (pending_text (time_sleep (1 # 10) d)) with (pending_text d) in Hs.
    rewrite Hstream in Hs.
    pose proof (read_from_device_clock (time_sleep (1 # 10) d)) as Hc.
    rewrite Hr in Hc. cbn [snd] in Hc.
    pose proof (read_from_device_ser_in (time_sleep (1 # 10) d)) as Hin.
    rewrite Hr in Hin. cbn [snd] in Hin.
    change (ser_in (time_sleep (1 # 10) d)) with (ser_in d) in Hin.
    rewrite Hsi in Hin. simpl in Hin.
    pose proof (Inv_read _ _ (Inv_sleep _ _ (1 # 10) HInv)) as HInv'.
    rewrite Hr in HInv'. cbn [snd] in HInv'.
    apply (IH ls line' d'); try done.
    + intros l' ->. eapply read_from_device_line, Hr.
    + intros ->. eapply read_from_device_None, Hr.
    + rewrite Hc, Hin. cbn [length] in Hbudget. rewrite inject_nat_S in Hbudget.
      simpl. lra.
    + rewrite Hin. simpl in Hfuel. lia.
Qed.

End WaitLoopRaises.

Section HandshakeExtras.
Context {Image : Type} `{Pillow Image} `{Protocol}.

Abbreviation Dev := (Device Image).

Lemma same_session_capabilities (d d' : Dev) :
  same_session d d' -> capabilities d' = capabilities d.
Proof. unfold same_session, capabilities. intros Hs. destruct_and!. congruence. Qed.

Lemma handle_info_caps (l : pystr) (d d' d1 : Dev) :
  capabilities d' = capabilities d ->
  handle_info l d = inr d1 ->
  exists d1', handle_info l d' = inr d1' /\ capabilities d1' = capabilities d1.
Proof.
  unfold capabilities. intros Hc. injection Hc as ? ? ? ? ?.
  unfold handle_info.
  repeat case_match; intros [= <-]; eexists; (split; [reflexivity|]);
    simpl; congruence.
Qed.

Lemma handle_infos_caps (ls : list pystr) (d d' dy : Dev) :
  capabilities d' = capabilities d ->
  handle_infos ls d = inr dy ->
  exists dy', handle_infos ls d' = inr dy' /\ capabilities dy' = capabilities dy.
Proof.
  revert d d'. induction ls as [|l ls IH]; intros d d' Hc Hrun; simpl in *.
  - injection Hrun as <-. eauto.
  - destruct (handle_info l d) as [e|d1] eqn:E; [done|].
    destruct (handle_info_caps l d d' d1 Hc E) as (d1' & -> & Hc1). eauto.
Qed.

Lemma infos_inv_session (caps : bool * Z * Z * Z * Z) (ls : list pystr) (d d' : Dev) :
  same_session d d' -> infos_inv caps ls d -> infos_inv caps ls d'.
Proof.
  intros Hs (dy & Hrun & Hc).
  destruct (handle_infos_caps ls d d' dy (same_session_capabilities _ _ Hs) Hrun)
    as (dy' & ? & ?).
  exists dy'. split; congruence.
Qed.

Lemma infos_inv_body (caps : bool * Z * Z * Z * Z) (l : pystr) (ls : list pystr) (d : Dev) :
  infos_inv caps (l :: ls) d ->
  exists d1, handle_info l d = inr d1 /\ infos_inv caps ls d1 /\
    inbuffer d1 = inbuffer d /\ ser_in d1 = ser_in d /\ clock d1 = clock d.
Proof.
  intros (dy & Hrun & Hc). simpl in Hrun.
  destruct (handle_info l d) as [e|d1] eqn:E; [done|].
  exists d1. split; [done|]. split; [by exists dy|]. by apply (handle_info_stable l).
Qed.

(** The handshake up to the point where the header has been found and the
    first line after it has been read. *)
Lemma request_info_header (timeout : Q) (d : Dev) (noise : list pystr) (rest : pystr) :
  Forall (fun l => (LF ∉ l) /\ l <> lit "Inkkeys") noise ->
  pending_text d = unlines noise ++ lit "Inkkeys" ++ LF :: rest ->
  (inject_Z (Z.of_nat (length (ser_in d))) * (1 # 10) <= timeout)%Q ->
  exists (f1 : nat) (line' : option pystr) (d4 : Dev),
    (forall fuel, (f1 <= fuel)%nat ->
       request_info fuel timeout d = read_infos fuel (clock d) timeout line' d4) /\
    stream_from line' d4 = rest /\
    (forall l, line' = Some l -> LF ∉ l) /\
    (line' = None -> LF ∉ inbuffer d4) /\
    (clock d4 - clock d + inject_Z (Z.of_nat (length (ser_in d4))) * (1 # 10)
       <= timeout)%Q /\
    same_session (send_to_device CommandCode_INFO d) d4.
Proof.
  intros Hnoise Hstream Hbudget. unfold request_info.
  set (d1 := send_to_device CommandCode_INFO d).
  destruct (read_from_device d1) as [line d2] eqn:Hr.
  pose proof (read_from_device_stream d1) as Hs. rewrite Hr in Hs. cbn [fst snd] in Hs.
  change (pending_text d1) with (pending_text d) in Hs. rewrite Hstream in Hs.
  pose proof (same_session_read d1) as Hsame. rewrite Hr in Hsame. cbn [snd] in Hsame.
  pose proof (read_from_device_clock d1) as Hc. rewrite Hr in Hc. cbn [snd] in Hc.
  pose proof (read_from_device_ser_in d1) as Hin. rewrite Hr in Hin. cbn [snd] in Hin.
  change (ser_in d1) with (ser_in d) in Hin. change (clock d1) with (clock d) in Hc.
  assert (forall (ls : list pystr) (d0 : Dev) (s : Q),
            same_session d1 d0 -> same_session d1 (time_sleep s d0)) as Hsl.
  { intros. eapply same_session_trans; [eassumption|apply same_session_sleep]. }
  assert (forall (ls : list pystr) (d0 : Dev),
            same_session d1 d0 -> same_session d1 (read_from_device d0).2) as Hrd.
  { intros. eapply same_session_trans; [eassumption|apply same_session_read]. }
  assert (forall (l : pystr) (ls : list pystr) (d0 : Dev),
            same_session d1 d0 ->
            exists d', @inr Exn Dev d0 = inr d' /\ same_session d1 d' /\
              inbuffer d' = inbuffer d0 /\ ser_in d' = ser_in d0 /\ clock d' = clock d0)
    as Hbd.
  { intros. eauto 10. }
  set (f1 := S (length noise + length (ser_in d2))).
  destruct (wait_loop_finds (fun _ d => inr d) (lit "Inkkeys") (clock d) timeout
              lit_Inkkeys_no_lf (fun _ d' => same_session d1 d') Hsl Hrd Hbd
              f1 noise rest line d2)
    as (d3 & Hrun1 & Hrest & Hsame3 & Hbudget3); try done.
  { intros l ->. eapply read_from_device_line, Hr. }
  { intros ->. eapply read_from_device_None, Hr. }
  { assert (length (ser_in d2) <= length (ser_in d))%nat as Hlen.
    { rewrite Hin. destruct (ser_in d); simpl; lia. }
    pose proof (inject_nat_le _ _ Hlen). rewrite Hc. lra. }
  { subst f1. lia. }
  destruct (read_from_device d3) as [line' d4] eqn:Hr'.
  pose proof (read_from_device_stream d3) as Hs'. rewrite Hr' in Hs'. cbn [fst snd] in Hs'.
  rewrite Hrest in Hs'.
  pose proof (read_from_device_clock d3) as Hc'. rewrite Hr' in Hc'. cbn [snd] in Hc'.
  pose proof (read_from_device_ser_in d3) as Hin'. rewrite Hr' in Hin'. cbn [snd] in Hin'.
  pose proof (same_session_read d3) as Hsame4. rewrite Hr' in Hsame4. cbn [snd] in Hsame4.
  exists f1, line', d4. split_and!.
  - intros fuel Hfuel. rewrite await_line_wait_loop.
    rewrite (wait_loop_mono _ _ f1 fuel) by (rewrite ?Hrun1; done).
    by rewrite Hrun1, Hr'.
  - done.
  - intros l ->. eapply read_from_device_line, Hr'.
  - intros ->. eapply read_from_device_None, Hr'.
  - assert (length (ser_in d4) <= length (ser_in d3))%nat as Hlen.
    { rewrite Hin'. destruct (ser_in d3); simpl; lia. }
    pose proof (inject_nat_le _ _ Hlen). rewrite Hc'. lra.
  - eapply same_session_trans; eauto.
Qed.

End HandshakeExtras.

Section HandshakeRuns.
Context {Image : Type} `{Pillow Image} `{Protocol}.

Abbreviation Dev := (Device Image).

Lemma capabilities_after_header (d d4 : Dev) :
  same_session (send_to_device CommandCode_INFO d) d4 ->
  capabilities d4 = capabilities d.
Proof. intros Hs. by rewrite (same_session_capabilities _ _ Hs). Qed.

Lemma request_info_infos (timeout : Q) (d dfin : Dev)
    (noise infos : list pystr) (rest : pystr) :
  Forall (fun l => (LF ∉ l) /\ l <> lit "Inkkeys") noise ->
  Forall (fun l => (LF ∉ l) /\ l <> lit "Done") infos ->
  handle_infos infos d = inr dfin ->
  pending_text d =
    unlines noise ++ lit "Inkkeys" ++ LF :: unlines infos ++ lit "Done" ++ LF :: rest ->
  (inject_Z (Z.of_nat (length (ser_in d))) * (1 # 10) <= timeout)%Q ->
  exists (fuel0 : nat) (d' : Dev),
    (forall fuel, (fuel0 <= fuel)%nat -> request_info fuel timeout d = Ok true d') /\
    capabilities d' = capabilities dfin /\
    pending_text d' = rest.
Proof.
  intros Hnoise Hinfos Hrun Hstream Hbudget.
  destruct (request_info_header timeout d noise _ Hnoise Hstream Hbudget)
    as (f1 & line' & d4 & Hreq & Hs' & Hline' & Hnone' & Hbudget' & Hsame).
  set (caps := capabilities dfin).
  assert (infos_inv caps infos d4) as HInv.
  { destruct (handle_infos_caps infos d d4 dfin (capabilities_after_header _ _ Hsame) Hrun)
      as (dy & ? & ?). by exists dy. }
  set (f2 := S (length infos + length (ser_in d4))).
  destruct (wait_loop_finds handle_info (lit "Done") (clock d) timeout
              lit_Done_no_lf (infos_inv caps)
              ltac:(intros ? ? ?; apply infos_inv_session, same_session_sleep)
              ltac:(intros ? ?; apply infos_inv_session, same_session_read)
              (infos_inv_body caps)
              f2 infos rest line' d4 Hinfos Hs' Hline' Hnone' Hbudget' HInv)
    as (d5 & Hrun2 & Hrest & (dy & Hdy & Hcaps) & _); [subst f2; lia|].
  exists (f1 `max` f2)%nat, d5. split_and!; [| |done].
  - intros fuel Hfuel. rewrite Hreq by lia. rewrite read_infos_wait_loop.
    rewrite (wait_loop_mono _ _ f2 fuel) by (rewrite ?Hrun2; done || lia). done.
  - simpl in Hdy. by injection Hdy as <-.
Qed.

Lemma request_info_bad_info (timeout : Q) (d dgood : Dev)
    (noise infos : list pystr) (bad rest : pystr) (e : Exn) :
  Forall (fun l => (LF ∉ l) /\ l <> lit "Inkkeys") noise ->
  Forall (fun l => (LF ∉ l) /\ l <> lit "Done") infos ->
  handle_infos infos d = inr dgood ->
  LF ∉ bad ->
  (forall d0 : Dev, handle_info bad d0 = inl e) ->
  pending_text d =
    unlines noise ++ lit "Inkkeys" ++ LF :: unlines infos ++ bad ++ LF :: rest ->
  (inject_Z (Z.of_nat (length (ser_in d))) * (1 # 10) <= timeout)%Q ->
  exists (fuel0 : nat) (d' : Dev),
    (forall fuel, (fuel0 <= fuel)%nat -> request_info fuel timeout d = Raise e d') /\
    capabilities d' = capabilities dgood.
Proof.
  intros Hnoise Hinfos Hrun Hbad Hraise Hstream Hbudget.
  destruct (request_info_header timeout d noise _ Hnoise Hstream Hbudget)
    as (f1 & line' & d4 & Hreq & Hs' & Hline' & Hnone' & Hbudget' & Hsame).
  set (caps := capabilities dgood).
  assert (infos_inv caps infos d4) as HInv.
  { destruct (handle_infos_caps infos d d4 dgood (capabilities_after_header _ _ Hsame) Hrun)
      as (dy & ? & ?). by exists dy. }
  assert (bad <> lit "Done") as Hne.
  { intros ->. by specialize (Hraise d). }
  set (f2 := S (length infos + length (ser_in d4))).
  destruct (wait_loop_raises handle_info (lit "Done") (clock d) timeout
              (infos_inv caps)
              ltac:(intros ? ? ?; apply infos_inv_session, same_session_sleep)
              ltac:(intros ? ?; apply infos_inv_session, same_session_read)
              (infos_inv_body caps)
              f2 infos bad rest e line' d4 Hinfos Hbad Hne
              ltac:(intros; apply Hraise) Hs' Hline' Hnone' Hbudget' HInv)
    as (d5 & Hrun2 & (dy & Hdy & Hcaps)); [subst f2; lia|].
  exists (f1 `max` f2)%nat, d5. split.
  - intros fuel Hfuel. rewrite Hreq by lia. rewrite read_infos_wait_loop.
    rewrite (wait_loop_mono _ _ f2 fuel) by (rewrite ?Hrun2; done || lia). done.
  - simpl in Hdy. by injection Hdy as <-.
Qed.

Lemma request_info_no_header (timeout : Q) (d : Dev) :
  lit "Inkkeys" ∉ complete_lines (pending_text d) ->
  exists (fuel0 : nat) (d' : Dev),
    (forall fuel, (fuel0 <= fuel)%nat -> request_info fuel timeout d = Ok false d') /\
    same_session (send_to_device CommandCode_INFO d) d'.
Proof.
  intros Hno. unfold request_info.
  set (d1 := send_to_device CommandCode_INFO d).
  destruct (read_from_device d1) as [line d2] eqn:Hr.
  pose proof (read_from_device_stream d1) as Hs. rewrite Hr in Hs. cbn [fst snd] in Hs.
  change (pending_text d1) with (pending_text d) in Hs.
  pose proof (same_session_read d1) as Hsame. rewrite Hr in Hsame. cbn [snd] in Hsame.
  destruct (await_line_total (lit "Inkkeys") (clock d) timeout line d2)
    as (fuel0 & r & d3 & Hrun & Hsame' & Hr').
  { intros l ->. eapply read_from_device_line, Hr. }
  destruct r; [by rewrite Hs in Hr'|].
  exists fuel0, d3. split.
  - intros fuel Hfuel. by rewrite Hrun.
  - eapply same_session_trans; eauto.
Qed.

(** X9.  When none of the info lines between the header and "Done" makes
    the parsing raise, the completed handshake leaves the capabilities that
    handling these lines one after the other gives: unrecognised lines
    change nothing and a later value replaces an earlier one.  Lines before
    the header are skipped; what follows "Done" stays unread. *)
Theorem request_info_capabilities (timeout : Q) (d dfin : Dev)
    (noise infos : list pystr) (rest : pystr) :
  Forall (fun l => (LF ∉ l) /\ l <> lit "Inkkeys") noise ->
  Forall (fun l => (LF ∉ l) /\ l <> lit "Done") infos ->
  handle_infos infos d = inr dfin ->
  pending_text d =
    unlines noise ++ lit "Inkkeys" ++ LF :: unlines infos ++ lit "Done" ++ LF :: rest ->
  (inject_Z (Z.of_nat (length (ser_in d))) * (1 # 10) <= timeout)%Q ->
  exists (fuel0 : nat) (d' : Dev),
    (forall fuel, (fuel0 <= fuel)%nat -> request_info fuel timeout d = Ok true d') /\
    capabilities d' = capabilities dfin /\
    pending_text d' = rest.
Proof. apply request_info_infos. Qed.

(** X10.  An info line on which [handle_info] raises, such as "TEST " with
    nothing after it ([IndexError]) or "N_LED " followed by something that
    is no integer ([ValueError]), ends the handshake with that exception
    instead of a result; the capabilities set by the lines before it stay
    set. *)
Theorem request_info_malformed_info (timeout : Q) (d dgood : Dev)
    (noise infos : list pystr) (bad rest : pystr) (e : Exn) :
  Forall (fun l => (LF ∉ l) /\ l <> lit "Inkkeys") noise ->
  Forall (fun l => (LF ∉ l) /\ l <> lit "Done") infos ->
  handle_infos infos d = inr dgood ->
  LF ∉ bad ->
  (bad = lit "TEST " /\ e = IndexError \/
   exists v, bad = lit "N_LED " ++ v /\ py_int v = None /\ e = ValueError) ->
  pending_text d =
    unlines noise ++ lit "Inkkeys" ++ LF :: unlines infos ++ bad ++ LF :: rest ->
  (inject_Z (Z.of_nat (length (ser_in d))) * (1 # 10) <= timeout)%Q ->
  exists (fuel0 : nat) (d' : Dev),
    (forall fuel, (fuel0 <= fuel)%nat -> request_info fuel timeout d = Raise e d') /\
    capabilities d' = capabilities dgood.
Proof.
  intros Hnoise Hinfos Hrun Hbad Hcases.
  apply request_info_bad_info; try done.
  intros d0. destruct Hcases as [[-> ->]|(v & -> & Hv & ->)]; [reflexivity|].
  unfold handle_info.
  change (startswith (lit "TEST ") (lit "N_LED " ++ v)) with false.
  change (startswith (lit "N_LED ") (lit "N_LED " ++ v)) with true.
  change (drop 6 (lit "N_LED " ++ v)) with v. by rewrite Hv.
Qed.

(** X11.  [connect] after the port is open: a device whose handshake
    completes is accepted exactly if the test flag that handling its info
    lines leaves is off (the last "TEST" line, if any, decides it), and
    the port stays open either way; when the header never arrives,
    [connect] returns [False] and has closed the port. *)
Theorem connect_outcome (d : Dev) :
  (forall (dfin : Dev) (noise infos : list pystr) (rest : pystr),
     Forall (fun l => (LF ∉ l) /\ l <> lit "Inkkeys") noise ->
     Forall (fun l => (LF ∉ l) /\ l <> lit "Done") infos ->
     handle_infos infos d = inr dfin ->
     pending_text d =
       unlines noise ++ lit "Inkkeys" ++ LF :: unlines infos ++ lit "Done" ++ LF :: rest ->
     (length (ser_in d) <= 30)%nat ->
     exists (fuel0 : nat) (d' : Dev),
       (forall fuel, (fuel0 <= fuel)%nat ->
          connect fuel d = Ok (negb (testmode dfin), true) d') /\
       capabilities d' = capabilities dfin) /\
  (lit "Inkkeys" ∉ complete_lines (pending_text d) ->
   exists (fuel0 : nat) (d' : Dev),
     forall fuel, (fuel0 <= fuel)%nat -> connect fuel d = Ok (false, false) d').
Proof.
  split.
  - intros dfin noise infos rest Hnoise Hinfos Hrun Hstream Hlen.
    destruct (request_info_infos 3 d dfin noise infos rest Hnoise Hinfos Hrun Hstream)
      as (fuel0 & d' & Hreq & Hcaps & _).
    { assert (inject_Z (Z.of_nat (length (ser_in d))) <= inject_Z 30)%Q as Hle
        by (rewrite <- Zle_Qle; lia).
      change (inject_Z 30) with 30%Q in Hle. lra. }
    exists fuel0, d'. split; [|done].
    intros fuel Hfuel. unfold connect. rewrite Hreq by done.
    assert (testmode d' = testmode dfin) as ->
      by (unfold capabilities in Hcaps; congruence).
    by destruct (testmode dfin).
  - intros Hno.
    destruct (request_info_no_header 3 d Hno) as (fuel0 & d' & Hreq & _).
    exists fuel0, d'. intros fuel Hfuel. unfold connect. by rewrite Hreq.
Qed.

End HandshakeRuns.

(* ===================================================================== *)
(** * Further properties: LED colours *)

Lemma hex_char_value (d : Z) :
  0 <= d < 16 -> hex_digit_value (hex_char d) = d /\ is_hex (hex_char d) = true.
Proof.
  intros Hd. unfold hex_char, hex_digit_value, is_hex.
  destruct (Z.ltb_spec d 10) as [Hlt|Hge].
  - assert (Z.to_N (d + 48) < 58)%N as Hc by lia.
    apply N.ltb_lt in Hc as ->. split; [lia|].
    replace (48 <=? Z.to_N (d + 48))%N with true by (symmetry; apply N.leb_le; lia).
    replace (Z.to_N (d + 48) <=? 57)%N with true by (symmetry; apply N.leb_le; lia).
    done.
  - assert (58 <= Z.to_N (d + 87))%N as Hc by lia.
    apply N.ltb_ge in Hc as ->. split; [lia|].
    replace (97 <=? Z.to_N (d + 87))%N with true by (symmetry; apply N.leb_le; lia).
    replace (Z.to_N (d + 87) <=? 102)%N with true by (symmetry; apply N.leb_le; lia).
    by rewrite orb_true_r.
Qed.

Lemma pow16_succ (k : nat) : 16 ^ Z.of_nat (S k) = 16 * 16 ^ Z.of_nat k.
Proof. rewrite Nat2Z.inj_succ. apply Z.pow_succ_r. lia. Qed.

Lemma pow16_pos (k : nat) : 0 < 16 ^ Z.of_nat k.
Proof. apply Z.pow_pos_nonneg; lia. Qed.

(** The digits [hex_digits] puts in front of [acc]: they read back as [n],
    are hexadecimal, and have no leading zero. *)
Lemma hex_digits_spec (fuel : nat) (n : Z) (acc : pystr) :
  (1 <= fuel)%nat ->
  0 <= n < 16 ^ Z.of_nat fuel ->
  exists l,
    hex_digits fuel n acc = l ++ acc /\
    (forall v, fold_left (fun a c => a * 16 + hex_digit_value c) l v =
               v * 16 ^ Z.of_nat (length l) + n) /\
    forallb is_hex l = true /\
    (1 <= length l)%nat /\
    n < 16 ^ Z.of_nat (length l) /\
    (length l = 1%nat \/ 16 ^ Z.of_nat (length l - 1) <= n).
Proof.
  revert n acc. induction fuel as [|fuel IH]; intros n acc Hfuel Hn; [lia|].
  - cbn [hex_digits].
    assert (0 <= n mod 16 < 16) as Hm by (apply Z.mod_pos_bound; lia).
    destruct (hex_char_value (n mod 16) Hm) as [Hval Hhex].
    pose proof (Z.div_mod n 16 ltac:(lia)) as Hdm.
    destruct (Z.eqb_spec (n / 16) 0) as [Hz|Hnz].
    + exists [hex_char (n mod 16)]. split_and!.
      * done.
      * intros v. simpl. rewrite Hval. change (16 ^ Z.of_nat 1) with 16. lia.
      * simpl. by rewrite Hhex.
      * simpl. lia.
      * change (16 ^ Z.of_nat (length [hex_char (n mod 16)])) with 16. lia.
      * by left.
    + rewrite pow16_succ in Hn.
      assert (0 <= n / 16 < 16 ^ Z.of_nat fuel) as Hq.
      { split; [apply Z.div_pos; lia|]. apply Z.div_lt_upper_bound; lia. }
      assert (1 <= fuel)%nat as Hf1.
      { destruct fuel; [|lia]. change (16 ^ Z.of_nat 0) with 1 in Hq. lia. }
      destruct (IH (n / 16) (hex_char (n mod 16) :: acc) Hf1 Hq)
        as (l & -> & Hfold & Hall & Hlen & Hup & Hlow).
      exists (l ++ [hex_char (n mod 16)]). split_and!.
      * by rewrite <- app_assoc.
      * intros v. rewrite fold_left_app, Hfold. simpl. rewrite Hval.
        rewrite length_app. simpl. rewrite Nat.add_1_r, pow16_succ. lia.
      * rewrite forallb_app, Hall. simpl. by rewrite Hhex.
      * rewrite length_app. simpl. lia.
      * rewrite length_app. simpl. rewrite Nat.add_1_r, pow16_succ. lia.
      * right. rewrite length_app. simpl.
        replace (length l + 1 - 1)%nat with (length l) by lia.
        destruct Hlow as [H1|Hlow].
        -- rewrite H1. change (16 ^ Z.of_nat 1) with 16. lia.
        -- replace (length l) with (S (length l - 1)) at 1 by lia.
           rewrite pow16_succ. lia.
Qed.

Lemma hex_fuel_enough (i : Z) :
  0 <= i -> i < 16 ^ Z.of_nat (Z.to_nat (Z.log2 i) + 1).
Proof.
  intros Hi. pose proof (Z.log2_nonneg i) as Hl.
  replace (Z.of_nat (Z.to_nat (Z.log2 i) + 1)) with (Z.log2 i + 1) by lia.
  destruct (decide (i = 0)) as [->|Hnz]; [done|].
  eapply Z.lt_le_trans; [apply Z.log2_spec; lia|].
  replace (Z.log2 i + 1) with (Z.succ (Z.log2 i)) by lia.
  apply Z.pow_le_mono_l. lia.
Qed.

Lemma hex_value_zeros (k : nat) (s : pystr) :
  hex_value (replicate k 48%N ++ s) = hex_value s.
Proof.
  unfold hex_value. rewrite fold_left_app. f_equal.
  induction k as [|k IH]; [done|]. simpl. exact IH.
Qed.

(** ['{:06x}'.format(i)] for a non-negative [i]: hexadecimal digits that
    read back as [i]; six of them below [2^24], more from there on. *)
Lemma format_06x_spec (i : Z) :
  0 <= i ->
  hex_value (format_06x i) = i /\
  forallb is_hex (format_06x i) = true /\
  (i < 2 ^ 24 -> length (format_06x i) = 6%nat) /\
  (2 ^ 24 <= i -> (6 < length (format_06x i))%nat).
Proof.
  intros Hi. unfold format_06x.
  assert ((i <? 0) = false) as -> by (apply Z.ltb_ge; lia).
  assert (1 <= Z.to_nat (Z.log2 i) + 1)%nat as Hf by lia.
  destruct (hex_digits_spec _ i [] Hf (conj Hi (hex_fuel_enough i Hi)))
    as (l & -> & Hfold & Hall & Hlen & Hup & Hlow).
  rewrite app_nil_r. unfold zero_pad. split_and!.
  - rewrite hex_value_zeros. unfold hex_value. rewrite Hfold. lia.
  - rewrite forallb_app, Hall, andb_true_r.
    induction (6 - length l)%nat; [done|]. simpl. done.
  - intros H24. rewrite length_app, length_replicate.
    assert (length l <= 6)%nat; [|lia].
    destruct Hlow as [->|Hlow]; [lia|].
    assert (16 ^ Z.of_nat (length l - 1) < 16 ^ 6) as Hp
      by (eapply Z.le_lt_trans; [exact Hlow|exact H24]).
    apply Z.pow_lt_mono_r_iff in Hp; lia.
  - intros H24. rewrite length_app, length_replicate.
    assert (6 < length l)%nat; [|lia].
    assert (16 ^ 6 < 16 ^ Z.of_nat (length l)) as Hp
      by (eapply Z.le_lt_trans; [exact H24|exact Hup]).
    apply Z.pow_lt_mono_r_iff in Hp; lia.
Qed.

Lemma mod_pow2_id (a n : Z) : 0 <= n -> (0 <= a < 2 ^ n <-> Z.land a (Z.ones n) = a).
Proof.
  intros Hn. rewrite Z.land_ones by done. split.
  - apply Z.mod_small.
  - intros <-. apply Z.mod_pos_bound. by apply Z.pow_pos_nonneg.
Qed.

Lemma land_mask_range (x m n : Z) :
  0 <= n -> 0 <= m < 2 ^ n -> 0 <= Z.land x m < 2 ^ n.
Proof.
  intros Hn Hm. apply (mod_pow2_id _ n Hn).
  apply (mod_pow2_id _ n Hn) in Hm.
  by rewrite <- Z.land_assoc, Hm.
Qed.

Lemma lor_range (a b n : Z) :
  0 <= n -> 0 <= a < 2 ^ n -> 0 <= b < 2 ^ n -> 0 <= Z.lor a b < 2 ^ n.
Proof.
  intros Hn Ha Hb. apply (mod_pow2_id _ n Hn).
  apply (mod_pow2_id _ n Hn) in Ha, Hb.
  by rewrite Z.land_lor_distr_l, Ha, Hb.
Qed.

Lemma dim_led_range (p : Q) (i : Z) : 0 <= dim_led p i < 2 ^ 24.
Proof.
  unfold dim_led. repeat apply lor_range; try lia; apply land_mask_range; lia.
Qed.

Lemma testbit_small (a n m : Z) : 0 <= a < 2 ^ n -> 0 <= n <= m -> Z.testbit a m = false.
Proof.
  intros Ha Hm. apply (mod_pow2_id a n) in Ha; [|lia].
  rewrite <- Ha, Z.land_spec, Z.ones_spec_high by lia. apply andb_false_r.
Qed.

Lemma testbit_rgb (r g b m : Z) :
  0 <= m ->
  Z.testbit (rgb r g b) m =
  Z.testbit (Z.shiftl r 16) m || Z.testbit (Z.shiftl g 8) m || Z.testbit b m.
Proof. intros Hm. unfold rgb. by rewrite !Z.lor_spec. Qed.

(** The channels of a colour put together from three bytes are these
    bytes. *)
Lemma channel_rgb (r g b : Z) :
  0 <= r < 256 -> 0 <= g < 256 -> 0 <= b < 256 ->
  channel 16 (rgb r g b) = r /\ channel 8 (rgb r g b) = g /\ channel 0 (rgb r g b) = b.
Proof.
  intros Hr Hg Hb.
  assert (forall k x, 0 <= x < 256 -> 0 <= k ->
            (forall m, 0 <= m < 8 -> Z.testbit (rgb r g b) (m + k) = Z.testbit x m) ->
            channel k (rgb r g b) = x) as Hch.
  { intros k x Hx Hk Hbits. unfold channel. apply Z.bits_inj'. intros m Hm.
    rewrite Z.land_spec, Z.shiftr_spec by done.
    change 255 with (Z.ones 8).
    destruct (Z.ltb_spec m 8) as [Hlt|Hge].
    - rewrite Z.ones_spec_low, andb_true_r by lia. apply Hbits. lia.
    - rewrite Z.ones_spec_high, andb_false_r by lia.
      symmetry. apply (testbit_small x 8); [exact Hx|lia]. }
  split_and!; apply Hch; try done; try lia; intros m Hm; rewrite testbit_rgb by lia.
  - rewrite Z.shiftl_spec_high, Z.shiftl_spec_high by lia.
    replace (m + 16 - 16) with m by lia.
    rewrite (testbit_small g 8 (m + 16 - 8)), (testbit_small b 8 (m + 16)) by (done || lia).
    by rewrite !orb_false_r.
  - rewrite Z.shiftl_spec_low, Z.shiftl_spec_high by lia.
    replace (m + 8 - 8) with m by lia.
    rewrite (testbit_small b 8 (m + 8)) by (done || lia).
    by rewrite orb_false_r.
  - rewrite !Z.shiftl_spec_low by lia. replace (m + 0) with m by lia. done.
Qed.

Lemma scale_channel_mono (p q : Q) (c : Z) :
  (0 <= p)%Q -> (p <= q)%Q -> (q <= 1)%Q -> 0 <= c ->
  scale_channel p c <= scale_channel q c <= c.
Proof.
  intros Hp Hpq Hq Hc. unfold scale_channel.
  assert (0 <= inject_Z c)%Q as Hc0
    by (change 0%Q with (inject_Z 0); rewrite <- Zle_Qle; lia).
  split.
  - apply Qfloor_resp_le. nra.
  - rewrite <- (Qfloor_Z c) at 2. apply Qfloor_resp_le. nra.
Qed.

Lemma fade_factor_range (e : Q) :
  (3 < e)%Q -> (e < 35 # 10)%Q -> (0 < fade_factor e)%Q /\ (fade_factor e < 1)%Q.
Proof.
  intros H1 H2. unfold fade_factor.
  assert (((35 # 10) - e) / (5 # 10) == ((35 # 10) - e) * 2)%Q as -> by field.
  lra.
Qed.

Lemma fade_factor_mono (e1 e2 : Q) :
  (e1 <= e2)%Q -> (fade_factor e2 <= fade_factor e1)%Q.
Proof.
  intros He. unfold fade_factor.
  assert (forall e, (((35 # 10) - e) / (5 # 10) == ((35 # 10) - e) * 2)%Q) as Hd
    by (intros; field).
  rewrite !Hd. lra.
Qed.

Section LedExtras.
Context {Image : Type} `{Pillow Image} `{Protocol}.

Abbreviation Dev := (Device Image).

(** X12.  [set_leds] stores the frame with the current time and sends one
    LED command; a colour of 24 bits goes out as exactly six lowercase
    hexadecimal digits that read back as the colour, while a larger value
    is not cut down: it goes out with more than six digits. *)
Theorem set_leds_colours (leds : list Z) (d : Dev) :
  Forall (fun i => 0 <= i) leds ->
  ser_out (set_leds leds d) =
    ser_out d ++
      [encode (CommandCode_LED ++ lit " " ++ join_sp (List.map format_06x leds) ++ [LF])] /\
  led_state (set_leds leds d) = Some leds /\
  led_set_time (set_leds leds d) = Some (clock d) /\
  Forall (fun i =>
            hex_value (format_06x i) = i /\
            forallb is_hex (format_06x i) = true /\
            (i < 2 ^ 24 -> length (format_06x i) = 6%nat) /\
            (2 ^ 24 <= i -> (6 < length (format_06x i))%nat)) leds.
Proof.
  intros Hleds. split_and!.
  - unfold set_leds, send_led, send_to_device, ser_write. simpl.
    by rewrite <- !app_assoc.
  - done.
  - done.
  - eapply Forall_impl; [exact Hleds|]. intros i Hi. by apply format_06x_spec.
Qed.

(** X13.  While fading, [fade_leds] sends one colour per stored value, and
    each is six hexadecimal digits for a colour below [2^24], whatever was
    stored (out-of-range and negative values included): the masks keep
    every channel within its byte. *)
Theorem fade_leds_colours (d : Dev) (leds : list Z) (t0 : Q) :
  led_state d = Some leds ->
  led_set_time d = Some t0 ->
  (0 < fade_factor (clock d - t0))%Q ->
  (fade_factor (clock d - t0) < 1)%Q ->
  exists (colours : list Z) (d' : Dev),
    fade_leds d = Ok tt d' /\
    ser_out d' =
      ser_out d ++
        [encode (CommandCode_LED ++ lit " " ++
                 join_sp (List.map format_06x colours) ++ [LF])] /\
    length colours = length leds /\
    Forall (fun c => 0 <= c < 2 ^ 24 /\ length (format_06x c) = 6%nat /\
                     forallb is_hex (format_06x c) = true /\
                     hex_value (format_06x c) = c) colours.
Proof.
  intros Hst Ht Hp0 Hp1.
  exists (List.map (dim_led (fade_factor (clock d - t0))) leds). eexists. split_and!.
  - unfold fade_leds. rewrite Hst, Ht.
    assert (Qle_bool 1 (fade_factor (clock d - t0)) = false) as ->.
    { apply not_true_iff_false. rewrite Qle_bool_iff. lra. }
    assert (Qle_bool (fade_factor (clock d - t0)) 0 = false) as ->.
    { apply not_true_iff_false. rewrite Qle_bool_iff. lra. }
    reflexivity.
  - unfold send_led, send_to_device, ser_write. cbn [ser_out with_ser_out].
    by rewrite <- !app_assoc.
  - by rewrite List.length_map.
  - apply Forall_forall. intros c Hc. apply list_elem_of_In, in_map_iff in Hc as (i & <- & _).
    pose proof (dim_led_range (fade_factor (clock d - t0)) i) as Hr.
    destruct (format_06x_spec _ (proj1 Hr)) as (Hv & Hh & Hl & _).
    split_and!; [apply Hr|apply Hr|apply Hl, Hr|done|done].
Qed.

(** X14.  The life of a frame after [set_leds]: up to 3 s later
    [fade_leds] does nothing; between 3 s and 3.5 s it sends a dimmed frame
    and keeps the stored one; from 3.5 s on it clears the stored frame and
    sends [num_of_leds] zero colours. *)
Theorem set_leds_then_fade (leds : list Z) (d : Dev) (s : Q) :
  let d1 := time_sleep s (set_leds leds d) in
  ((s <= 3)%Q -> fade_leds d1 = Ok tt d1) /\
  ((3 < s)%Q /\ (s < 35 # 10)%Q ->
   exists d2,
     fade_leds d1 = Ok tt d2 /\ led_state d2 = Some leds /\
     led_set_time d2 = Some (clock d) /\
     length (ser_out d2) = S (length (ser_out d1))) /\
  ((35 # 10 <= s)%Q ->
   fade_leds d1 =
     Ok tt (send_led (replicate (Z.to_nat (num_of_leds d)) (lit "000000"))
              (with_led_state None d1))).
Proof.
  intros d1.
  assert (fade_factor (clock d1 - clock d) == ((35 # 10) - s) * 2)%Q as Hp.
  { unfold fade_factor. subst d1. simpl. field. }
  assert (fade_leds d1 =
          let p := fade_factor (clock d1 - clock d) in
          if Qle_bool 1 p then Ok tt d1
          else if Qle_bool p 0 then
            Ok tt (send_led (replicate (Z.to_nat (num_of_leds d)) (lit "000000"))
                     (with_led_state None d1))
          else Ok tt (send_led (List.map format_06x (List.map (dim_led p) leds)) d1))
    as Hfade by reflexivity.
  cbv zeta in Hfade. split_and!.
  - intros Hs. rewrite Hfade.
    assert (Qle_bool 1 (fade_factor (clock d1 - clock d)) = true) as ->; [|done].
    apply Qle_bool_iff. rewrite Hp. lra.
  - intros [Hs1 Hs2]. rewrite Hfade.
    assert (Qle_bool 1 (fade_factor (clock d1 - clock d)) = false) as ->.
    { apply not_true_iff_false. rewrite Qle_bool_iff, Hp. lra. }
    assert (Qle_bool (fade_factor (clock d1 - clock d)) 0 = false) as ->.
    { apply not_true_iff_false. rewrite Qle_bool_iff, Hp. lra. }
    eexists. split; [reflexivity|]. split_and!; [done|done|].
    unfold send_led, send_to_device, ser_write. simpl. rewrite !length_app. simpl. lia.
  - intros Hs. rewrite Hfade.
    assert (Qle_bool 1 (fade_factor (clock d1 - clock d)) = false) as ->.
    { apply not_true_iff_false. rewrite Qle_bool_iff, Hp. lra. }
    assert (Qle_bool (fade_factor (clock d1 - clock d)) 0 = true) as ->; [|done].
    apply Qle_bool_iff. rewrite Hp. lra.
Qed.

(** X15.  Fading never brightens and never mixes channels: between 3 s and
    3.5 s after the frame was set, each channel of the colour sent is the
    stored channel scaled and cut to an integer, it is at most the stored
    channel, and at a later moment it is at most what it was at an earlier
    one. *)
Theorem fade_monotone (e1 e2 : Q) (i k : Z) :
  (3 < e1)%Q -> (e1 <= e2)%Q -> (e2 < 35 # 10)%Q ->
  k = 0 \/ k = 8 \/ k = 16 ->
  channel k (dim_led (fade_factor e1) i) = scale_channel (fade_factor e1) (channel k i) /\
  channel k (dim_led (fade_factor e2) i) <= channel k (dim_led (fade_factor e1) i) /\
  channel k (dim_led (fade_factor e1) i) <= channel k i.
Proof.
  intros H1 H12 H2 Hk.
  destruct (fade_factor_range e1 H1 ltac:(lra)) as [Hp1 Hq1].
  destruct (fade_factor_range e2 ltac:(lra) H2) as [Hp2 Hq2].
  pose proof (fade_factor_mono e1 e2 H12) as Hmono.
  assert (forall p, (0 < p)%Q -> (p < 1)%Q ->
            channel k (dim_led p i) = scale_channel p (channel k i)) as Hch.
  { intros p Hp0 Hp1'. rewrite dim_led_faded by done. unfold faded.
    destruct (channel_rgb (scale_channel p (channel 16 i))
                (scale_channel p (channel 8 i)) (scale_channel p (channel 0 i)))
      as (H16 & H8 & Hb0);
      try (apply scale_channel_range; [done|done|apply channel_range]).
    destruct Hk as [->|[->| ->]]; done. }
  rewrite !Hch by done.
  pose proof (channel_range k i) as Hc.
  pose proof (scale_channel_mono (fade_factor e2) (fade_factor e1) (channel k i)
                ltac:(lra) Hmono ltac:(lra) ltac:(lia)) as [Ha Hb].
  split_and!; [done|done|done].
Qed.

End LedExtras.

(* ===================================================================== *)
(** * Further properties: display refresh and waits *)

Section WaitClock.
Context {Image : Type} `{Pillow Image} `{Protocol}.

Abbreviation Dev := (Device Image).

(** A wait loop never runs more than a tenth of a second past its
    timeout, and never sets the clock back. *)
Lemma wait_loop_clock (body : pystr -> Dev -> Exn + Dev) (target : pystr)
    (fuel : nat) (start timeout : Q) (line : option pystr) (d : Dev) :
  env_stable body ->
  (clock d - start <= timeout + (1 # 10))%Q ->
  match wait_loop body target fuel start timeout line d with
  | Ok _ d' | Raise _ d' =>
      (clock d' - start <= timeout + (1 # 10))%Q /\ (clock d <= clock d')%Q
  | OutOfFuel => True
  end.
Proof.
  intros Hbody. revert line d. induction fuel as [|fuel IH]; intros line d Hd;
    cbn [wait_loop].
  - case_bool_decide; [|done]. split; [done|lra].
  - case_bool_decide; [split; [done|lra]|].
    destruct (Qgtb (clock d - start) timeout) eqn:Hto; [split; [done|lra]|].
    apply Qgtb_false in Hto.
    destruct line as [l|].
    + destruct (body l d) as [e|d1] eqn:Hb; [split; [done|lra]|].
      destruct (Hbody _ _ _ Hb) as (_ & _ & Hck).
      destruct (read_from_device d1) as [line' d'] eqn:Hr.
      pose proof (read_from_device_clock d1) as Hc. rewrite Hr in Hc. cbn [snd] in Hc.
      assert (clock d' - start <= timeout + (1 # 10))%Q as Hd'
        by (rewrite Hc, Hck; exact Hd).
      specialize (IH line' d' Hd').
      destruct (wait_loop _ _ _ _ _ _ _) as [? d''|? d''|]; [| |done];
        destruct IH as [Ha Hmono]; (split; [exact Ha|]); rewrite Hc, Hck in Hmono; lra.
    + destruct (read_from_device _) as [line' d'] eqn:Hr.
      pose proof (read_from_device_clock (time_sleep (1 # 10) d)) as Hc.
      rewrite Hr in Hc. cbn [snd] in Hc. simpl in Hc.
      assert (clock d' - start <= timeout + (1 # 10))%Q as Hd'
        by (rewrite Hc; lra).
      specialize (IH line' d' Hd').
      destruct (wait_loop _ _ _ _ _ _ _) as [? d''|? d''|]; [| |done];
        destruct IH as [Ha Hmono]; (split; [exact Ha|]); rewrite Hc in Hmono; lra.
Qed.

End WaitClock.

Section DisplayExtras.
Context {Image : Type} `{Pillow Image} `{Protocol}.

Abbreviation Dev := (Device Image).

Lemma await_line_no_raise (fuel : nat) (target : pystr) (start timeout : Q)
    (line : option pystr) (d d' : Dev) (e : Exn) :
  await_line fuel target start timeout line d <> Raise e d'.
Proof.
  revert line d. induction fuel as [|fuel IH]; intros line d; cbn [await_line].
  - by case_bool_decide.
  - case_bool_decide; [done|]. destruct (Qgtb _ _); [done|].
    destruct line; destruct (read_from_device _); apply IH.
Qed.

Lemma first_ok_wait_no_raise (fuel : nat) (full : bool) (timeout : Q)
    (d d' : Dev) (e : Exn) :
  first_ok_wait fuel full timeout d <> Raise e d'.
Proof.
  unfold first_ok_wait. destruct (read_from_device _). apply await_line_no_raise.
Qed.

Lemma second_ok_wait_no_raise (fuel : nat) (timeout : Q) (d d' : Dev) (e : Exn) :
  second_ok_wait fuel timeout d <> Raise e d'.
Proof.
  unfold second_ok_wait. destruct (read_from_device _). apply await_line_no_raise.
Qed.

Lemma first_ok_wait_clock (fuel : nat) (full : bool) (timeout : Q) (d d3 : Dev)
    (r : bool) :
  (0 <= timeout)%Q ->
  first_ok_wait fuel full timeout d = Ok r d3 ->
  (clock d3 - clock d <= timeout + (1 # 10))%Q /\ (clock d <= clock d3)%Q.
Proof.
  intros Ht. unfold first_ok_wait. set (d1 := send_to_device _ d).
  destruct (read_from_device d1) as [line d2] eqn:Hr.
  pose proof (read_from_device_clock d1) as Hc. rewrite Hr in Hc. cbn [snd] in Hc.
  change (clock d1) with (clock d) in Hc.
  pose proof (wait_loop_clock (fun _ d => inr d) (lit "ok") fuel (clock d) timeout
                line d2 env_stable_inr) as Hw.
  rewrite <- await_line_wait_loop in Hw. intros Hrun. rewrite Hrun, Hc in Hw.
  apply Hw. lra.
Qed.

Lemma second_ok_wait_clock (fuel : nat) (timeout : Q) (d3 d7 : Dev) (r : bool) :
  (0 <= timeout)%Q ->
  second_ok_wait fuel timeout d3 = Ok r d7 ->
  (clock d7 - clock d3 <= timeout + (1 # 10))%Q /\ (clock d3 <= clock d7)%Q.
Proof.
  intros Ht. unfold second_ok_wait.
  set (d5 := send_to_device _ (resend_image_data d3)).
  destruct (read_from_device d5) as [line d6] eqn:Hr.
  pose proof (read_from_device_clock d5) as Hc. rewrite Hr in Hc. cbn [snd] in Hc.
  assert (clock d5 = clock d3) as Hc5.
  { subst d5. rewrite resend_image_data_out. reflexivity. }
  pose proof (wait_loop_clock (fun _ d => inr d) (lit "ok") fuel (clock d5) timeout
                line d6 env_stable_inr) as Hw.
  rewrite <- await_line_wait_loop in Hw. intros Hrun. rewrite Hrun, Hc, Hc5 in Hw.
  apply Hw. lra.
Qed.

(** X16.  The image buffer between refreshes: [send_image] appends to it,
    [update_display] without [buffer_data] writes its refresh command and
    leaves the buffer and the callback table alone, and
    [resend_image_data] empties it, so that a second resend writes
    nothing. *)
Theorem image_buffer_life (fuel : nat) (full : bool) (timeout : Q)
    (x y : Z) (image : Image) (d : Dev) :
  image_buffer (send_image x y image d).2 = image_buffer d ++ [mkPart x y image] /\
  match update_display fuel full timeout false d with
  | Ok _ d' | Raise _ d' =>
      image_buffer d' = image_buffer d /\ callbacks d' = callbacks d /\
      ser_out d' = ser_out d ++ [refresh_line full]
  | OutOfFuel => True
  end /\
  image_buffer (resend_image_data d) = [] /\
  resend_image_data (resend_image_data d) = resend_image_data d.
Proof.
  split_and!.
  - by rewrite send_image_out.
  - unfold update_display. set (d1 := send_to_device _ d).
    destruct (read_from_device d1) as [line d2] eqn:Hr.
    pose proof (same_session_read d1) as Hsame. rewrite Hr in Hsame. cbn [snd] in Hsame.
    pose proof (await_line_same_session fuel (lit "ok") (clock d) timeout line d2) as Hsame'.
    assert (forall d', same_session d2 d' ->
              image_buffer d' = image_buffer d /\ callbacks d' = callbacks d /\
              ser_out d' = ser_out d ++ [refresh_line full]) as Hres.
    { intros d' Hs. pose proof (same_session_trans _ _ _ Hsame Hs) as Hss.
      unfold same_session in Hss. destruct_and!. split_and!.
      - by replace (image_buffer d') with (image_buffer d1).
      - by replace (callbacks d') with (callbacks d1).
      - replace (ser_out d') with (ser_out d1) by done.
        subst d1. unfold refresh_line. simpl. by rewrite <- !app_assoc. }
    destruct (await_line _ _ _ _ _ _) as [[|] d3|e d3|]; [| | |done]; by apply Hres.
  - by rewrite resend_image_data_out.
  - rewrite (resend_image_data_out (resend_image_data d)).
    rewrite resend_image_data_out. simpl. unfold with_image_buffer, with_ser_out.
    simpl. by rewrite app_nil_r.
Qed.

(** X17.  Lines that arrive while [update_display] waits for its "ok" are
    read and thrown away, not dispatched: when the "ok" comes in time, the
    call returns [None], the callback table is as before, and what is left
    to read is what followed the "ok". *)
Theorem update_display_skips_lines (full : bool) (timeout : Q) (d : Dev)
    (skipped : list pystr) (rest : pystr) :
  Forall (fun l => (LF ∉ l) /\ l <> lit "ok") skipped ->
  pending_text d = unlines skipped ++ lit "ok" ++ LF :: rest ->
  (inject_Z (Z.of_nat (length (ser_in d))) * (1 # 10) <= timeout)%Q ->
  exists (fuel0 : nat) (d' : Dev),
    (forall fuel, (fuel0 <= fuel)%nat ->
       update_display fuel full timeout false d = Ok PyNone d') /\
    pending_text d' = rest /\
    ser_out d' = ser_out d ++ [refresh_line full] /\
    image_buffer d' = image_buffer d.
Proof.
  intros Hsk Hstream Hbudget.
  destruct (first_ok_wait_finds full timeout d skipped rest Hsk Hstream Hbudget)
    as (f1 & d3 & Hrun1 & Hrest & Hout & Hbuf).
  exists f1, d3. split_and!; [|done..].
  intros fuel Hfuel. rewrite update_display_unfold. by rewrite Hrun1.
Qed.

Lemma update_display_returns (full buf : bool) (timeout : Q) (d : Dev) :
  exists fuel0 : nat, forall fuel, (fuel0 <= fuel)%nat ->
    update_display fuel full timeout buf d <> OutOfFuel.
Proof.
  destruct (first_ok_wait_total full timeout d) as (f1 & r1 & d3 & Hrun1 & _).
  destruct (second_ok_wait_total timeout d3) as (f2 & r2 & d7 & Hrun2 & _).
  exists (f1 `max` f2)%nat. intros fuel Hfuel.
  rewrite update_display_unfold, Hrun1 by lia.
  destruct r1; [|done]. destruct buf; [|done].
  rewrite Hrun2 by lia. by destruct r2.
Qed.

Lemma request_info_returns (timeout : Q) (d : Dev) :
  exists fuel0 : nat, forall fuel, (fuel0 <= fuel)%nat ->
    request_info fuel timeout d <> OutOfFuel.
Proof.
  unfold request_info.
  set (d1 := send_to_device CommandCode_INFO d).
  destruct (read_from_device d1) as [line d2] eqn:Hr.
  assert (forall l, line = Some l -> LF ∉ l) as Hline.
  { intros l ->. eapply read_from_device_line, Hr. }
  destruct (sleep_bound_exists (timeout - (clock d2 - clock d))) as [k1 Hk1].
  set (n1 := length (complete_lines (stream_from line d2))).
  pose proof (wait_loop_outcome _ (lit "Inkkeys") (clock d) timeout env_stable_inr
                (S (n1 + k1)) n1 k1 line d2 Hline (le_n _) Hk1 (Nat.lt_succ_diag_r _))
    as Hout1.
  destruct (wait_loop _ _ (S (n1 + k1)) _ _ _ _) as [r1 d3|e d3|] eqn:E1; [| |done].
  - destruct (read_from_device d3) as [line' d4] eqn:Hr'.
    destruct (sleep_bound_exists (timeout - (clock d4 - clock d))) as [k2 Hk2].
    set (n2 := length (complete_lines (stream_from line' d4))).
    exists (S (n1 + k1) `max` S (n2 + k2))%nat. intros fuel Hfuel.
    rewrite await_line_wait_loop.
    rewrite (wait_loop_mono _ _ (S (n1 + k1)) fuel) by (rewrite ?E1; done || lia).
    rewrite E1. destruct r1; [|done]. rewrite Hr', read_infos_wait_loop.
    pose proof (wait_loop_outcome _ (lit "Done") (clock d) timeout handle_info_stable
                  fuel n2 k2 line' d4) as Hout2.
    destruct (wait_loop _ _ fuel _ _ _ _) as [r2 d5|e d5|]; [done|done|].
    exfalso. apply Hout2; try done; try lia.
    intros l ->. eapply read_from_device_line, Hr'.
  - exists (S (n1 + k1)). intros fuel Hfuel.
    rewrite await_line_wait_loop.
    rewrite (wait_loop_mono _ _ (S (n1 + k1)) fuel) by (rewrite ?E1; done).
    by rewrite E1.
Qed.

(** X18.  [update_display] and [request_info] do not block for long: they
    return (given enough fuel), and when they do, no more than the timeout
    plus one polling interval of 0.1 s has passed per wait (one wait for a
    plain refresh, two with [buffer_data], and one budget for the whole
    handshake). *)
Theorem waits_are_bounded (fuel : nat) (full buf : bool) (timeout : Q) (d : Dev) :
  (0 <= timeout)%Q ->
  match update_display fuel full timeout buf d with
  | Ok _ d' | Raise _ d' =>
      (clock d' - clock d <= (if buf then 2 else 1) * (timeout + (1 # 10)))%Q
  | OutOfFuel => True
  end /\
  match request_info fuel timeout d with
  | Ok _ d' | Raise _ d' => (clock d' - clock d <= timeout + (1 # 10))%Q
  | OutOfFuel => True
  end /\
  exists fuel0 : nat, forall fuel', (fuel0 <= fuel')%nat ->
    update_display fuel' full timeout buf d <> OutOfFuel /\
    request_info fuel' timeout d <> OutOfFuel.
Proof.
  intros Ht.
  assert (exists fuel0 : nat, forall fuel', (fuel0 <= fuel')%nat ->
            update_display fuel' full timeout buf d <> OutOfFuel /\
            request_info fuel' timeout d <> OutOfFuel) as Hret.
  { destruct (update_display_returns full buf timeout d) as [f1 Hf1].
    destruct (request_info_returns timeout d) as [f2 Hf2].
    exists (f1 `max` f2)%nat. intros fuel' Hfuel'. split; [apply Hf1|apply Hf2]; lia. }
  rewrite (and_assoc _ _ _). split; [clear Hret|exact Hret]. split.
  - rewrite update_display_unfold.
    destruct (first_ok_wait fuel full timeout d) as [[|] d3|e d3|] eqn:E1; [| | |done].
    + destruct (first_ok_wait_clock _ _ _ _ _ _ Ht E1) as [H1 H1'].
      destruct buf; [|lra].
      destruct (second_ok_wait fuel timeout d3) as [[|] d7|e d7|] eqn:E2; [| | |done].
      * destruct (second_ok_wait_clock _ _ _ _ _ Ht E2). lra.
      * destruct (second_ok_wait_clock _ _ _ _ _ Ht E2). lra.
      * by apply second_ok_wait_no_raise in E2.
    + destruct (first_ok_wait_clock _ _ _ _ _ _ Ht E1) as [H1 H1'].
      destruct buf; lra.
    + by apply first_ok_wait_no_raise in E1.
  - unfold request_info. set (d1 := send_to_device CommandCode_INFO d).
    destruct (read_from_device d1) as [line d2] eqn:Hr.
    pose proof (read_from_device_clock d1) as Hc. rewrite Hr in Hc. cbn [snd] in Hc.
    change (clock d1) with (clock d) in Hc.
    pose proof (wait_loop_clock (fun _ d => inr d) (lit "Inkkeys") fuel (clock d) timeout
                  line d2 env_stable_inr) as Hw.
    rewrite <- await_line_wait_loop in Hw. rewrite Hc in Hw. specialize (Hw ltac:(lra)).
    destruct (await_line _ _ _ _ _ _) as [[|] d3|e d3|]; [| | |done]; [|apply Hw..].
    destruct (read_from_device d3) as [line' d4] eqn:Hr'.
    pose proof (read_from_device_clock d3) as Hc'. rewrite Hr' in Hc'. cbn [snd] in Hc'.
    pose proof (wait_loop_clock handle_info (lit "Done") fuel (clock d) timeout
                  line' d4 handle_info_stable) as Hw'.
    rewrite <- read_infos_wait_loop in Hw'. rewrite Hc' in Hw'.
    specialize (Hw' (proj1 Hw)).
    destruct (read_infos _ _ _ _ _) as [? d5|? d5|]; [| |done]; apply Hw'.
Qed.

End DisplayExtras.

(* ===================================================================== *)
(** * Further properties: mode selection and screen areas *)

Section SelectionExtras.
Context {Image : Type} `{Pillow Image} `{Protocol}.

Abbreviation Dev := (Device Image).

Lemma if_matching_mode_exn (processes : gset pystr) (aw : option pystr)
    (rule : ModeRule Image) (e : Exn) :
  if_matching_mode processes aw rule = inl e -> e = TypeError.
Proof.
  unfold if_matching_mode. repeat case_match; intros [= <-]; done.
Qed.

Lemma filter_modes_exn (processes : gset pystr) (aw : option pystr)
    (modes : list (ModeRule Image)) (e : Exn) :
  filter_modes processes aw modes = inl e -> e = TypeError.
Proof.
  induction modes as [|rule modes IH]; simpl; [done|].
  destruct (if_matching_mode processes aw rule) as [e'|keep] eqn:E.
  - intros [= <-]. by apply if_matching_mode_exn in E.
  - destruct (filter_modes processes aw modes) as [e'|ms]; [|done].
    intros [= <-]. by apply IH.
Qed.

Lemma filter_modes_raises (processes : gset pystr)
    (before after : list (ModeRule Image)) (rule : ModeRule Image) (e : Exn) :
  if_matching_mode processes None rule = inl e ->
  exists e', filter_modes processes None (before ++ rule :: after) = inl e'.
Proof.
  intros Hrule. induction before as [|r before [e' IH]]; simpl.
  - rewrite Hrule. eauto.
  - rewrite IH. destruct (if_matching_mode processes None r); eauto.
Qed.

(** X19.  With a window title at hand the selection cannot fail with
    [TypeError]: it returns a rule exactly if that rule matches and no rule
    before it in the list does, and it ends in [IndexError] exactly if no
    rule of the list matches (which a predicate-free last rule rules
    out). *)
Theorem first_matching_mode_characterised (processes : gset pystr) (w : pystr)
    (modes : list (ModeRule Image)) :
  match first_matching_mode processes (Some w) modes with
  | inr rule =>
      exists before after,
        modes = before ++ rule :: after /\
        Forall (fun r => rule_matches processes w r = false) before /\
        rule_matches processes w rule = true
  | inl e =>
      e = IndexError /\ Forall (fun r => rule_matches processes w r = false) modes
  end.
Proof.
  unfold first_matching_mode. rewrite filter_modes_window.
  induction modes as [|r modes IH]; simpl; [done|].
  destruct (rule_matches processes w r) eqn:Hr.
  - exists [], modes. by split_and!.
  - destruct (List.filter (rule_matches processes w) modes) as [|m ms].
    + destruct IH as [_ IH]. split; [done|]. by constructor.
    + destruct IH as (before & after & -> & Hb & Hm).
      exists (r :: before), after. split_and!; [done| |done]. by constructor.
Qed.

(** X20.  As long as no window title was ever obtained, a rule list with a
    window-title rule whose process predicate does not hold makes every
    selection end in [TypeError], wherever that rule stands and whatever
    the other rules are: [filter] evaluates the predicate on all rules. *)
Theorem first_matching_mode_untitled (processes : gset pystr)
    (before after : list (ModeRule Image)) (rule : ModeRule Image)
    (pattern : pystr -> bool) :
  rule_activeWindow rule = Some pattern ->
  (forall p, rule_process rule = Some p -> p ∉ processes) ->
  first_matching_mode processes None (before ++ rule :: after) = inl TypeError.
Proof.
  intros Hw Hp.
  assert (if_matching_mode processes None rule = inl TypeError) as Hrule.
  { unfold if_matching_mode. rewrite Hw.
    destruct (rule_process rule) as [p|]; [|done].
    by rewrite bool_decide_false by (by apply Hp). }
  destruct (filter_modes_raises processes before after rule _ Hrule) as [e He].
  unfold first_matching_mode. rewrite He.
  by rewrite (filter_modes_exn _ _ _ _ He).
Qed.

(** X21.  A mode check that succeeded settles: further checks with the same
    processes and either the same window title or a failed title query
    change neither the loop state nor the device, so a mode is not
    activated twice in a row; and a failed query is the same as a query
    that returns the title known so far. *)
Theorem mode_check_settles (window : option pystr) (processes : gset pystr)
    (modes : list (ModeRule Image)) (l l' : Loop Image) (d d' : Dev) :
  mode_check window processes modes l d = Ok l' d' ->
  (forall (window' : option pystr) (d'' : Dev),
     window' = None \/ window' = window ->
     mode_check window' processes modes l' d'' = Ok l' d'') /\
  (forall w, active_window l = Some w ->
     mode_check None processes modes l d = mode_check (Some w) processes modes l d).
Proof.
  intros Hrun. split.
  - intros window' d'' Hw'.
    unfold mode_check in Hrun.
    set (l1 := match window with
               | Some w => mkLoop (current_mode l) (poll_interval l) (Some w)
               | None => l
               end) in *.
    destruct (first_matching_mode processes (active_window l1) modes) as [e|rule] eqn:Hfm;
      [done|].
    assert (active_window l' = active_window l1 /\
            same_mode (current_mode l') (rule_mode rule) = true) as [Haw Hsame].
    { destruct (same_mode (current_mode l1) (rule_mode rule)) eqn:Hs; simpl in Hrun.
      - injection Hrun as <- <-. done.
      - unfold switch_mode in Hrun.
        destruct (leave_mode _ _) as [? d1|? ?|]; [|done..].
        destruct (activate _ _) as [? d2|? ?|]; [|done..].
        injection Hrun as <- <-. simpl. by rewrite Nat.eqb_refl. }
    assert (match window' with
            | Some w => mkLoop (current_mode l') (poll_interval l') (Some w)
            | None => l'
            end = l') as Hl'.
    { destruct Hw' as [->| ->]; [done|]. destruct window as [w|]; [|done].
      subst l1. simpl in Haw. destruct l'. simpl in *. by rewrite Haw. }
    unfold mode_check. rewrite Hl', Haw, Hfm, Hsame. done.
  - intros w Hw. unfold mode_check. destruct l as [cm pi aw]. simpl in Hw. by subst aw.
Qed.

End SelectionExtras.

Section AreaExtras.
Context {Image : Type} `{Pillow Image} `{Protocol}.

(** X22.  The areas of the eight buttons 2 to 9 share no pixel with one
    another and stay within the display height (for a display of
    non-negative height): buttons 2 to 5 are stacked in one column, 6 to 9
    in another, 18 pixels apart. *)
Theorem get_area_for_buttons (d : Device Image) (f g : Z) :
  0 <= display_height d ->
  2 <= f <= 9 -> 2 <= g <= 9 -> f <> g ->
  areas_disjoint (get_area_for (Button f) d) (get_area_for (Button g) d) /\
  (let '(x, y, w, h) := get_area_for (Button f) d in
   0 <= y /\ y + h <= display_height d /\ 0 <= h).
Proof.
  intros Hh Hf Hg Hfg.
  assert (0 <= display_height d / 4) as Ht by (apply Z.div_pos; lia).
  pose proof (Z.mul_div_le (display_height d) 4 ltac:(lia)) as Hle.
  unfold get_area_for, areas_disjoint, banner_height.
  change (20 / 2) with 10.
  set (th := display_height d / 4) in *. set (tw := display_width d / 2 - 10).
  assert ((f =? 1) = false) as -> by lia.
  assert ((g =? 1) = false) as -> by lia.
  destruct (Z.leb_spec f 5), (Z.leb_spec g 5); (split; [|nia]); nia.
Qed.

End AreaExtras.

(* ===================================================================== *)
(** * Further properties: poll scheduling *)

Lemma poll_due_spec (now last_poll : Q) (poll_interval : option Q) :
  poll_due now last_poll poll_interval = true <->
  exists p, poll_interval = Some p /\ (0 <= p)%Q /\ (p < now - last_poll)%Q.
Proof.
  unfold poll_due. destruct poll_interval as [p|].
  - rewrite andb_true_iff, Qgtb_true, Qle_bool_iff. split.
    + intros [? ?]. by exists p.
    + intros (? & [= <-] & ? & ?). done.
  - split; [done|]. by intros (? & ? & _).
Qed.

Lemma poll_calls_head (mode_poll : Q -> option Q) (nows : list Q)
    (last_poll : Q) (poll_interval : option Q) (t : Q) (calls : list Q) :
  poll_calls mode_poll nows last_poll poll_interval = t :: calls ->
  exists p, poll_interval = Some p /\ (0 <= p)%Q /\ (p < t - last_poll)%Q.
Proof.
  induction nows as [|now rest IH]; simpl; [done|].
  destruct (poll_due now last_poll poll_interval) eqn:Hdue; [|done].
  intros [= <- _]. by apply poll_due_spec.
Qed.

(** X23.  How often a mode is polled while it stays the current one: once
    its [poll] has returned [False] or a negative number it is not called
    again; two calls in a row are more than the interval apart that the
    first of them returned; and in the first tick after its activation
    (which sets the interval to 0) it is called, so that a mode with
    [ModeBase.poll], which returns [False], is polled exactly once. *)
Theorem poll_calls_schedule (mode_poll : Q -> option Q) (nows : list Q)
    (last_poll : Q) (poll_interval : option Q) :
  (poll_interval = None \/ (exists p, poll_interval = Some p /\ (p < 0)%Q) ->
   poll_calls mode_poll nows last_poll poll_interval = []) /\
  (forall (pre : list Q) (t1 t2 : Q) (post : list Q),
     poll_calls mode_poll nows last_poll poll_interval = pre ++ t1 :: t2 :: post ->
     exists p, mode_poll t1 = Some p /\ (0 <= p)%Q /\ (p < t2 - t1)%Q) /\
  (forall (now : Q) (rest : list Q),
     nows = now :: rest -> (last_poll < now)%Q -> poll_interval = Some 0%Q ->
     poll_calls mode_poll nows last_poll poll_interval =
       now :: poll_calls mode_poll rest now (mode_poll now) /\
     (mode_poll now = None ->
      poll_calls mode_poll nows last_poll poll_interval = [now])).
Proof.
  assert (forall ns lp iv,
            iv = None \/ (exists p, iv = Some p /\ (p < 0)%Q) ->
            poll_calls mode_poll ns lp iv = []) as Hoff.
  { intros ns lp iv Hiv. induction ns as [|now rest IH]; simpl; [done|].
    destruct (poll_due now lp iv) eqn:Hdue; [|done].
    apply poll_due_spec in Hdue as (p & -> & Hp & _).
    destruct Hiv as [?|(p' & [= <-] & Hneg)]; [done|lra]. }
  split_and!.
  - apply Hoff.
  - revert last_poll poll_interval.
    induction nows as [|now rest IH]; intros last_poll poll_interval pre t1 t2 post; simpl.
    { by destruct pre. }
    destruct (poll_due now last_poll poll_interval).
    + destruct pre as [|x pre]; simpl.
      * intros [= <- Hrest]. apply poll_calls_head in Hrest. done.
      * intros [= _ Hrest]. by eapply IH.
    + apply IH.
  - intros now rest -> Hlt ->.
    assert (poll_due now last_poll (Some 0%Q) = true) as Hdue.
    { apply poll_due_spec. exists 0%Q. split_and!; [done|lra|lra]. }
    cbn [poll_calls]. rewrite Hdue. split; [done|].
    intros ->. f_equal. apply Hoff. by left.
Qed.

(* ===================================================================== *)
(** * The further properties on sample values *)

(** X1: two complete lines and a rest, cut in the middle of a line. *)
Lemma read_lines_complete_witness :
  let d := new_device (Image := RawImage) [bytes_lit "ab
c"; bytes_lit "d
ef"] 0 in
  (read_lines 4 d).1 = complete_lines (pending_text d) /\
  ser_in (read_lines 4 d).2 = [] /\
  (LF ∉ inbuffer (read_lines 4 d).2) /\
  pending_text d = unlines (read_lines 4 d).1 ++ inbuffer (read_lines 4 d).2.
Proof.
  intros d. apply (read_lines_complete 4 d). vm_compute. lia.
Defined.

(** X3: the info command. *)
Lemma send_to_device_one_line_witness :
  let d := new_device (Image := RawImage) [] 0 in
  ser_out (send_to_device (lit "I") d) = ser_out d ++ [encode (lit "I") ++ [x0a]].
Proof.
  intros d.
  assert (LF ∉ lit "I") as Hlf.
  { refine (bool_decide_unpack _ _). vm_compute. exact I. }
  exact (proj1 (send_to_device_one_line (lit "I") d Hlf)).
Defined.

(** X4: the line "4p" with a handler registered under "4p". *)
Lemma poll_discrete_lines_witness :
  let h := {| h_owner := 0; h_id := 0 |} in
  let d := register_callback h (lit "4p")
             (new_device (Image := RawImage) [bytes_lit "4p
"] 0) in
  poll d = Ok (Some (CallKey h)) (read_from_device d).2.
Proof.
  intros h d.
  assert ([52%N] <> KeyCode_JOG) as Hj by (vm_compute; discriminate).
  exact (proj1 (poll_discrete_lines d (read_from_device d).2 52%N (lit "p") eq_refl Hj)
           h eq_refl).
Defined.

(** X5: an empty line. *)
Lemma poll_short_line_raises_witness :
  let d := new_device (Image := RawImage) [bytes_lit "
4p
"] 0 in
  poll d = Raise IndexError (read_from_device d).2.
Proof.
  intros d.
  exact (proj1 (poll_short_line_raises d (read_from_device d).2 [] eq_refl
                  (or_introl eq_refl))).
Defined.

(** X6: the line "R5" with a handler under "R5" and none under "R". *)
Lemma poll_jog_line_unregistered_witness :
  let h := {| h_owner := 0; h_id := 0 |} in
  let d := register_callback h (lit "R5")
             (new_device (Image := RawImage) [bytes_lit "R5
"] 0) in
  poll d = Ok None (read_from_device d).2.
Proof.
  intros h d.
  exact (poll_jog_line_unregistered d (read_from_device d).2 82%N (lit "5") 5 h
           eq_refl eq_refl eq_refl eq_refl eq_refl).
Defined.

(** X7: the line "4p", registered, cleared, and with "5p" cleared. *)
Lemma callbacks_round_trip_witness :
  let h := {| h_owner := 0; h_id := 0 |} in
  let d := new_device (Image := RawImage) [bytes_lit "4p
"] 0 in
  let d1 := (read_from_device d).2 in
  poll (register_callback h (lit "4p") d) =
    Ok (Some (CallKey h)) (register_callback h (lit "4p") d1) /\
  poll (clear_callback (lit "4p") (register_callback h (lit "4p") d)) =
    Ok None (clear_callback (lit "4p") (register_callback h (lit "4p") d1)).
Proof.
  intros h d d1.
  pose proof (callbacks_round_trip d d1 (lit "4p") (lit "5p") h eq_refl eq_refl)
    as (H1 & _ & H3 & _).
  exact (conj H1 H3).
Defined.

(** X9: a boot line, three info lines of which the first is repeated with
    another value, and an unknown one. *)
Lemma request_info_capabilities_witness :
  let d := new_device (Image := RawImage)
             [bytes_lit "boot
Inkkeys
N_LED 8
"; bytes_lit "FOO 1
N_LED 16
DISP_W 200
Done
4p
"] 0 in
  let dfin := with_display_width 200 (with_num_of_leds 16 d) in
  exists (fuel0 : nat) (d' : Device RawImage),
    (forall fuel, (fuel0 <= fuel)%nat -> request_info fuel 3 d = Ok true d') /\
    capabilities d' = capabilities dfin /\
    pending_text d' = lit "4p
".
Proof.
  intros d dfin.
  apply (request_info_capabilities 3 d dfin [lit "boot"]
           [lit "N_LED 8"; lit "FOO 1"; lit "N_LED 16"; lit "DISP_W 200"]).
  - constructor; [|constructor]. split.
    + refine (bool_decide_unpack _ _). vm_compute. exact I.
    + discriminate.
  - repeat constructor; try discriminate;
      refine (bool_decide_unpack _ _); vm_compute; exact I.
  - reflexivity.
  - reflexivity.
  - vm_compute. discriminate.
Defined.

(** X10: "TEST " with nothing after it, following a good info line. *)
Lemma request_info_malformed_info_witness :
  let d := new_device (Image := RawImage) [bytes_lit "Inkkeys
N_LED 16
TEST 
Done
"] 0 in
  exists (fuel0 : nat) (d' : Device RawImage),
    (forall fuel, (fuel0 <= fuel)%nat -> request_info fuel 3 d = Raise IndexError d') /\
    capabilities d' = capabilities (with_num_of_leds 16 d).
Proof.
  intros d.
  apply (request_info_malformed_info 3 d (with_num_of_leds 16 d) [] [lit "N_LED 16"]
           (lit "TEST ") (lit "Done
")).
  - constructor.
  - repeat constructor; try discriminate.
    refine (bool_decide_unpack _ _). vm_compute. exact I.
  - reflexivity.
  - refine (bool_decide_unpack _ _). vm_compute. exact I.
  - left. split; reflexivity.
  - reflexivity.
  - vm_compute. discriminate.
Defined.

(** X12: a 24-bit colour and a small one. *)
Lemma set_leds_colours_witness :
  let d := new_device (Image := RawImage) [] 0 in
  ser_out (set_leds [0xff0000; 0x10] d) =
    ser_out d ++
      [encode (CommandCode_LED ++ lit " " ++
               join_sp (List.map format_06x [0xff0000; 0x10]) ++ [LF])].
Proof.
  intros d.
  assert (Forall (fun i => 0 <= i) [0xff0000; 0x10]) as Hpos
    by (repeat constructor; lia).
  exact (proj1 (set_leds_colours [0xff0000; 0x10] d Hpos)).
Defined.

(** X13: the frame [0xFF0000; -1], 3.25 s after it was set. *)
Lemma fade_leds_colours_witness :
  let d := with_clock (325 # 100)
             (set_leds [0xff0000; -1]
                (with_num_of_leds 2 (new_device (Image := RawImage) [] 0))) in
  exists (colours : list Z) (d' : Device RawImage),
    fade_leds d = Ok tt d' /\
    ser_out d' =
      ser_out d ++
        [encode (CommandCode_LED ++ lit " " ++
                 join_sp (List.map format_06x colours) ++ [LF])] /\
    length colours = 2%nat /\
    Forall (fun c => 0 <= c < 2 ^ 24 /\ length (format_06x c) = 6%nat /\
                     forallb is_hex (format_06x c) = true /\
                     hex_value (format_06x c) = c) colours.
Proof.
  intros d.
  assert (0 < fade_factor (clock d - 0))%Q as Hlo by (vm_compute; reflexivity).
  assert (fade_factor (clock d - 0) < 1)%Q as Hhi by (vm_compute; reflexivity).
  exact (fade_leds_colours d [0xff0000; -1] 0%Q eq_refl eq_refl Hlo Hhi).
Defined.

(** X15: the green channel of 0xFF8040 at 3.1 s and at 3.2 s. *)
Lemma fade_monotone_witness :
  channel 8 (dim_led (fade_factor (32 # 10)) 0xff8040) <=
  channel 8 (dim_led (fade_factor (31 # 10)) 0xff8040).
Proof.
  assert (3 < 31 # 10)%Q as H1 by (vm_compute; reflexivity).
  assert (31 # 10 <= 32 # 10)%Q as H2 by (vm_compute; discriminate).
  assert (32 # 10 < 35 # 10)%Q as H3 by (vm_compute; reflexivity).
  exact (proj1 (proj2 (fade_monotone (31 # 10) (32 # 10) 0xff8040 8 H1 H2 H3
                         (or_intror (or_introl eq_refl))))).
Defined.

(** X17: a key line arrives before the "ok". *)
Lemma update_display_skips_lines_witness :
  let d := new_device (Image := RawImage) [bytes_lit "4p
o"; bytes_lit "k
5p
"] 0 in
  exists (fuel0 : nat) (d' : Device RawImage),
    (forall fuel, (fuel0 <= fuel)%nat ->
       update_display fuel true 5 false d = Ok PyNone d') /\
    pending_text d' = lit "5p
" /\
    ser_out d' = ser_out d ++ [refresh_line true] /\
    image_buffer d' = image_buffer d.
Proof.
  intros d.
  apply (update_display_skips_lines true 5 d [lit "4p"]).
  - constructor; [|constructor]. split.
    + refine (bool_decide_unpack _ _). vm_compute. exact I.
    + discriminate.
  - reflexivity.
  - vm_compute. discriminate.
Defined.

(** X18: a silent port and a timeout of one second. *)
Lemma waits_are_bounded_witness :
  let d := new_device (Image := RawImage) [] 0 in
  match update_display 20 true 1 false d with
  | Ok _ d' | Raise _ d' => (clock d' - clock d <= 1 * (1 + (1 # 10)))%Q
  | OutOfFuel => True
  end.
Proof.
  intros d.
  assert (0 <= 1)%Q as Ht by (vm_compute; discriminate).
  pose proof (waits_are_bounded 20 true false 1 d Ht) as Hw.
  destruct Hw as [Hw _]. exact Hw.
Defined.

(** X20: the sample rule list before any window title is known. *)
Lemma first_matching_mode_untitled_witness :
  first_matching_mode ∅ None sample_modes = inl TypeError.
Proof.
  assert (forall p : pystr, @None pystr = Some p -> p ∉ (∅ : gset pystr)) as Hp
    by (intros p Hp; discriminate Hp).
  exact (first_matching_mode_untitled ∅ []
           [mkRule (sample_mode 2) None (Some (startswith (lit "gimp")));
            mkRule (sample_mode 3) None None]
           (mkRule (sample_mode 1) None (Some (contains (lit "Zoom"))))
           (contains (lit "Zoom")) eq_refl Hp).
Defined.

(** X21: the first check selects the fallback for the title "xterm"; the
    next title query fails. *)
Lemma mode_check_settles_witness :
  let d := new_device (Image := RawImage) [] 0 in
  let l := mkLoop (Image := RawImage) None None None in
  match mode_check (Some (lit "xterm")) ∅ sample_modes l d with
  | Ok l' d' => mode_check None ∅ sample_modes l' d' = Ok l' d'
  | _ => False
  end.
Proof.
  intros d l.
  destruct (mode_check (Some (lit "xterm")) ∅ sample_modes l d) as [l' d'|e d'|] eqn:E.
  - exact (proj1 (mode_check_settles _ _ _ _ _ _ _ E) None d' (or_introl eq_refl)).
  - vm_compute in E. discriminate E.
  - vm_compute in E. discriminate E.
Defined.

(** X22: buttons 2 and 6 on a display of 128 by 296 pixels. *)
Lemma get_area_for_buttons_witness :
  let d := with_display_height 296
             (with_display_width 128 (new_device (Image := RawImage) [] 0)) in
  areas_disjoint (get_area_for (Button 2) d) (get_area_for (Button 6) d).
Proof.
  intros d.
  assert (0 <= display_height d) as Hh by (vm_compute; discriminate).
  exact (proj1 (get_area_for_buttons d 2 6 Hh ltac:(lia) ltac:(lia) ltac:(lia))).
Defined.
